(** * gp_regression: the salmon and coal-mining-disaster notebooks

  The repository is two Jupyter notebooks (both stored in
  [notebooks/spawning_salmon.ipynb]).  Each is a straight-line
  sequence of cells that binds names in the kernel's namespace, builds
  PyMC3 models inside [with] blocks, and calls out to pandas, PyMC3,
  matplotlib, arviz and seaborn.

  The embedding follows the cells statement by statement:
  - numpy and pandas arithmetic on arrays is written out ([np], [pd]);
    float64 values are real numbers (no rounding), to which division
    adds the three non-finite results;
  - the model-building calls of PyMC3 construct a symbolic model
    ([pm]): its nodes are the random variables declared in the cell;
  - every call whose result the notebook cannot determine (reading the
    data file, sampling, plotting, importing) is answered by a [World]
    and recorded in the kernel's log;
  - a cell is a list of statements in the monad [Py] of a kernel state
    and Python exceptions. *)

From Stdlib Require Import ZArith List Reals Lra Lia.
From stdpp Require Import base gmap strings list.

Open Scope Z_scope.

(** ** numpy *)

Module np.

(** [np.arange(start, stop)] on integers. *)
Definition arange (start stop : Z) : list Z :=
  map (fun i => start + Z.of_nat i) (seq 0 (Z.to_nat (stop - start))).

(** [a.min()]; numpy raises ValueError on a zero-size array. *)
Definition min (a : list Z) : option Z :=
  match a with
  | [] => None
  | x :: xs => Some (fold_left Z.min xs x)
  end.

(** [a.max()]. *)
Definition max (a : list Z) : option Z :=
  match a with
  | [] => None
  | x :: xs => Some (fold_left Z.max xs x)
  end.

(** [a - s] with a scalar [s] (broadcast). *)
Definition sub_scalar (a : list Z) (s : Z) : list Z :=
  map (fun v => v - s) a.

(** [a.reshape(-1, 1)] and [a[:, None]]: one column, one row per entry. *)
Definition reshape_col {A : Type} (a : list A) : list (list A) :=
  map (fun v => [v]) a.

(** [np.linspace(start, stop, num)]. *)
Definition linspace (start stop : R) (num : nat) : list R :=
  map (fun i => (start + INR i * ((stop - start) / INR (num - 1)))%R)
      (seq 0 num).

(** [a ** n] for a non-negative integer exponent. *)
Definition power (a : list R) (n : nat) : list R :=
  map (fun v => (v ^ n)%R) a.

(** [b0 + b1 * a] and [b0 + b1 * a + b2 * a**2] with scalar [b]s. *)
Definition affine (b0 b1 : R) (a : list R) : list R :=
  map (fun v => (b0 + b1 * v)%R) a.

Definition quadratic (b0 b1 b2 : R) (a : list R) : list R :=
  map (fun v => (b0 + b1 * v + b2 * v ^ 2)%R) a.

(** The arrays that cross into plotting and sampling calls. *)
Inductive ndarray :=
| F1 (a : list R)
| F2 (a : list (list R))
| I1 (a : list Z)
| I2 (a : list (list Z)).

End np.

(** ** pandas *)

Module pd.

(** A float64 after a division: a number, or one of the non-finite
    values. *)
Inductive float :=
| Fin (r : R)
| PInf
| NInf
| NaN.


Definition isna (x : float) : bool :=
  match x with NaN => true | _ => false end.

(** [a / b] on two numbers of a column: dividing by zero does not
    raise, it gives [inf], [-inf] or, for [0 / 0], [nan]. *)
Definition truediv (a b : R) : float :=
  if Req_dec_T b 0 then
    if Req_dec_T a 0 then NaN
    else if Rlt_dec 0 a then PInf else NInf
  else Fin (a / b).

Definition fadd (x y : float) : float :=
  match x, y with
  | Fin a, Fin b => Fin (a + b)
  | NaN, _ | _, NaN => NaN
  | PInf, NInf | NInf, PInf => NaN
  | PInf, _ | _, PInf => PInf
  | NInf, _ | _, NInf => NInf
  end.

(** Division of a sum by a positive count. *)
Definition fdiv_count (x : float) (n : nat) : float :=
  match x with
  | Fin a => Fin (a / INR n)
  | other => other
  end.

Definition Series := list R.

(** [s1 / s2] for two columns of one frame (same index, so the
    division is position by position). *)
Definition series_truediv (a b : Series) : list float :=
  zip_with truediv a b.

(** [s.mean()]: pandas leaves the missing values ([nan]) out
    ([skipna=True]) and divides the sum of the others by their count;
    with nothing left the mean is [nan]. *)
Definition mean (s : list float) : float :=
  let kept := List.filter (fun x => negb (isna x)) s in
  match kept with
  | [] => NaN
  | _ => fdiv_count (fold_left fadd kept (Fin 0)) (length kept)
  end.

(** A frame: an index and named columns, each as long as the index. *)
Definition rectangular (index : list Z) (cols : list (string * Series)) : bool :=
  forallb (fun c => Nat.eqb (length (snd c)) (length index)) cols.

Record DataFrame := mkDataFrame {
  df_index : list Z;
  df_columns : list (string * Series);
  df_rectangular : rectangular df_index df_columns = true
}.

(** The column called [name], if the frame has one. *)
Fixpoint column (cols : list (string * Series)) (name : string) : option Series :=
  match cols with
  | [] => None
  | (n, s) :: rest => if String.eqb n name then Some s else column rest name
  end.

(** [df[[n1, n2, ...]]]: all the named columns, or none. *)
Fixpoint select (cols : list (string * Series)) (names : list string)
  : option (list Series) :=
  match names with
  | [] => Some []
  | n :: rest =>
      match column cols n, select cols rest with
      | Some s, Some ss => Some (s :: ss)
      | _, _ => None
      end
  end.

End pd.

(** ** PyMC3: the model a [with pm.Model()] block builds *)

Module pm.

(** Theano expressions as the notebooks write them. *)
Inductive tensor :=
| TConst (c : R)
| TData (a : list R)
| TVar (name : string)
| TIndex (t : tensor) (i : nat)
| TAdd (a b : tensor)
| TMul (a b : tensor)
| TPow (a : tensor) (n : nat)
| TExp (a : tensor).

(** [pm.gp.mean]: the default zero mean and [Linear(coeffs, intercept=0)]. *)
Inductive mean_fn :=
| Zero
| Linear (coeffs : pd.float) (intercept : R).

(** [pm.gp.cov]: [ExpQuad(input_dim, ls)] and [s * k] for a tensor [s]. *)
Inductive cov_fn :=
| ExpQuad (input_dim : nat) (ls : tensor)
| Scaled (s : tensor) (k : cov_fn).

Inductive gp_kind := Marginal | Latent.

(** A GP object; [marginal_likelihood] stores its [X], [y] and [noise]
    in the object for later [conditional] calls. *)
Record gp := mkGP {
  kind : gp_kind;
  mean_func : mean_fn;
  cov_func : cov_fn;
  given : option (list (list R) * list R * tensor)
}.

Inductive dist :=
| Normal (mu sigma : tensor)
| HalfNormal (sigma : tensor)
| HalfCauchy (beta : tensor)
| Exponential (lam : tensor)
| Poisson (mu : tensor)
| MarginalLikelihood (g : gp) (X : list (list R)) (noise : tensor)
| Conditional (g : gp) (Xnew : list (list R)) (pred_noise : bool)
| Prior (g : gp) (X : list (list R)).

(** What a model holds, in the order of declaration. *)
Inductive node :=
| FreeRV (name : string) (d : dist) (shape : option nat)
| ObservedRV (name : string) (d : dist) (observed : list R)
| Deterministic (name : string) (expr : tensor).

Definition model := list node.

Definition node_name (n : node) : string :=
  match n with
  | FreeRV name _ _ | ObservedRV name _ _ | Deterministic name _ => name
  end.

(** *** The value of an expression

    Arrays are lists; a scalar is a list of one number and combines with
    an array of any length, as numpy and Theano broadcast it. *)
Definition broadcast (op : R -> R -> R) (a b : list R) : option (list R) :=
  match a, b with
  | [x], _ => Some (map (op x) b)
  | _, [y] => Some (map (fun x => op x y) a)
  | _, _ =>
      if Nat.eqb (length a) (length b) then Some (zip_with op a b) else None
  end.

Fixpoint eval (env : string -> option (list R)) (t : tensor)
  : option (list R) :=
  match t with
  | TConst c => Some [c]
  | TData a => Some a
  | TVar name => env name
  | TIndex t i =>
      match eval env t with
      | Some a => match nth_error a i with Some v => Some [v] | None => None end
      | None => None
      end
  | TAdd a b =>
      match eval env a, eval env b with
      | Some x, Some y => broadcast Rplus x y
      | _, _ => None
      end
  | TMul a b =>
      match eval env a, eval env b with
      | Some x, Some y => broadcast Rmult x y
      | _, _ => None
      end
  | TPow a n =>
      match eval env a with
      | Some x => Some (map (fun v => (v ^ n)%R) x)
      | None => None
      end
  | TExp a =>
      match eval env a with
      | Some x => Some (map exp x)
      | None => None
      end
  end.

(** The indices [i] at which an expression reads [name[i]]. *)
Fixpoint indices_of (name : string) (t : tensor) : list nat :=
  match t with
  | TIndex (TVar n) i => if String.eqb n name then [i] else []
  | TIndex t _ | TPow t _ | TExp t => indices_of name t
  | TAdd a b | TMul a b => indices_of name a ++ indices_of name b
  | TConst _ | TData _ | TVar _ => []
  end.

(** The value of the name [n] in a model: a deterministic variable has
    the value of its expression, any other the value the environment
    gives it. *)
Fixpoint deterministic_expr (m : model) (n : string) : option tensor :=
  match m with
  | [] => None
  | Deterministic name expr :: rest =>
      if String.eqb name n then Some expr else deterministic_expr rest n
  | _ :: rest => deterministic_expr rest n
  end.

Definition resolve (m : model) (env : string -> option (list R))
  : string -> option (list R) :=
  fun n =>
    match deterministic_expr m n with
    | Some expr => eval env expr
    | None => env n
    end.

(** The likelihood of a model: the distribution and the data of its
    observed variable called [n]. *)
Fixpoint observed_node (m : model) (n : string) : option (dist * list R) :=
  match m with
  | [] => None
  | ObservedRV name d data :: rest =>
      if String.eqb name n then Some (d, data) else observed_node rest n
  | _ :: rest => observed_node rest n
  end.

(** *** The numbers given to the model-building calls

    Every number a model holds: the numeric arguments of the calls
    that declared its variables and built the GP objects they refer to
    (the numbers of a GP count with each variable built from it);
    arrays (the data and the grids of inputs) are not numbers. *)
Fixpoint tensor_numbers (t : tensor) : list pd.float :=
  match t with
  | TConst c => [pd.Fin c]
  | TData _ | TVar _ => []
  | TIndex t _ | TExp t => tensor_numbers t
  | TAdd a b | TMul a b => tensor_numbers a ++ tensor_numbers b
  | TPow a n => tensor_numbers a ++ [pd.Fin (INR n)]
  end.

Definition mean_numbers (m : mean_fn) : list pd.float :=
  match m with
  | Zero => []
  | Linear coeffs intercept => [coeffs; pd.Fin intercept]
  end.

Fixpoint cov_numbers (k : cov_fn) : list pd.float :=
  match k with
  | ExpQuad input_dim ls => pd.Fin (INR input_dim) :: tensor_numbers ls
  | Scaled s k => tensor_numbers s ++ cov_numbers k
  end.

Definition gp_numbers (g : gp) : list pd.float :=
  mean_numbers (mean_func g) ++ cov_numbers (cov_func g).

Definition dist_numbers (d : dist) : list pd.float :=
  match d with
  | Normal mu sigma => tensor_numbers mu ++ tensor_numbers sigma
  | HalfNormal sigma => tensor_numbers sigma
  | HalfCauchy beta => tensor_numbers beta
  | Exponential lam => tensor_numbers lam
  | Poisson mu => tensor_numbers mu
  | MarginalLikelihood g _ noise => gp_numbers g ++ tensor_numbers noise
  | Conditional g _ _ => gp_numbers g
  | Prior g _ => gp_numbers g
  end.

Definition node_numbers (n : node) : list pd.float :=
  match n with
  | FreeRV _ d shape =>
      dist_numbers d ++
      match shape with Some n => [pd.Fin (INR n)] | None => [] end
  | ObservedRV _ d _ => dist_numbers d
  | Deterministic _ expr => tensor_numbers expr
  end.

Definition numbers (m : model) : list pd.float := flat_map node_numbers m.

End pm.

(** ** The kernel: values, exceptions, calls that leave the notebook *)

(** A Python exception: its class and its message. *)
Record exn := Exn { exn_class : string; exn_msg : string }.

Definition Axes := nat.
Definition Figure := nat.

(** What [pm.sample] returns: the draws of each variable, one row per
    draw. *)
Record MultiTrace := mkTrace {
  trace_values : string -> option (list (list R))
}.

(** What [pm.sample_posterior_predictive] returns: a dict from the name
    of a variable to its samples, one row per sample. *)
Record samples_dict := mkSamples {
  samples_of : string -> option (list (list R))
}.

(** The calls answered outside the notebook, with the arguments the
    notebooks give them; the index is the type of the result. *)
Inductive libE : Type -> Type :=
| Magic (line : string) : libE unit
| Import (module : string) : libE unit
| SetContext (context : string) : libE unit
| ReadTable (path sep : string) (index_col : Z) : libE pd.DataFrame
| Scatter (df : pd.DataFrame) (x y : string) (c : option string) (s : Z)
    (ax : option Axes) : libE Axes
| Hist (data : list R) : libE unit
| Subplots (figsize : Z * Z) : libE (Figure * Axes)
| AxPlot (ax : Axes) (xs ys : list R) (alpha : option R)
    (color : option string) : libE unit
| Bar (ax : Axes) (x height : list Z) (color : string) (alpha width : R)
    : libE unit
| SetYlim (ax : Axes) (bottom : Z) (top : option Z) : libE unit
| SetXlim (ax : Axes) (left right : Z) : libE unit
| SetYlabel (ax : Axes) (label : string) : libE unit
| SetXlabel (ax : Axes) (label : string) : libE unit
| PlotTrace (t : MultiTrace) (var_names : option (list string)) : libE unit
| PlotPosterior (t : MultiTrace) (var_names : option (list string))
    : libE unit
| PlotGpDist (ax : Axes) (samples : list (list R)) (x : np.ndarray)
    : libE unit
| Regplot (x y : list Z) (fit_reg : bool) (ax : Axes) : libE unit
| DistRandom (d : pm.dist) (size : nat) : libE (list R)
| Sample (m : pm.model) (draws tune : nat) (cores chains : option nat)
    (random_seed : option Z) : libE MultiTrace
| SamplePosteriorPredictive (m : pm.model) (t : MultiTrace)
    (vars : list pm.tensor) (samples : nat) (random_seed : option Z)
    : libE samples_dict.

(** One call and its answer. *)
Record event := Event {
  ev_type : Type;
  ev_call : libE ev_type;
  ev_answer : exn + ev_type
}.

(** The outside: it answers each call, given the calls made so far, with
    a result or with an exception. *)
Definition World := forall T : Type, list event -> libE T -> exn + T.

(** The objects a name of the notebooks can be bound to. *)
Inductive value :=
| VModule (name : string)
| VFrame (df : pd.DataFrame)
| VFloat (r : R)
| VArray (a : np.ndarray)
| VDist (d : pm.dist)
| VModel (m : pm.model)
| VTensor (t : pm.tensor)
| VMean (m : pm.mean_fn)
| VCov (k : pm.cov_fn)
| VGP (g : pm.gp)
| VTrace (t : MultiTrace)
| VSamples (d : samples_dict)
| VAxes (a : Axes)
| VFigure (f : Figure).

(** An entry of [warnings.filters]: the action and the category it
    applies to; the category [Warning] is the base class of all. *)
Record wfilter := WFilter { wf_action : string; wf_category : string }.



Record kernel := Kernel {
  globals : gmap string value;
  filters : list wfilter;
  model_stack : list string;
  log : list event
}.

Definition set_globals (g : gmap string value) (k : kernel) : kernel :=
  Kernel g (filters k) (model_stack k) (log k).
Definition set_filters (f : list wfilter) (k : kernel) : kernel :=
  Kernel (globals k) f (model_stack k) (log k).
Definition set_model_stack (c : list string) (k : kernel) : kernel :=
  Kernel (globals k) (filters k) c (log k).
Definition set_log (l : list event) (k : kernel) : kernel :=
  Kernel (globals k) (filters k) (model_stack k) l.

(** A kernel that has run nothing, with the filters Python starts with. *)
Definition fresh (startup_filters : list wfilter) : kernel :=
  Kernel ∅ startup_filters [] [].

(** ** The monad of statements *)

Inductive result (A : Type) :=
| Ok (a : A) (k : kernel)
| Raise (e : exn) (k : kernel).
Arguments Ok {A} a k.
Arguments Raise {A} e k.

Definition Py (A : Type) : Type := kernel -> result A.

#[global] Instance Py_ret : MRet Py := fun A a k => Ok a k.
#[global] Instance Py_bind : MBind Py := fun A B f m k =>
  match m k with
  | Ok a k' => f a k'
  | Raise e k' => Raise e k'
  end.

Definition raise {A : Type} (cls msg : string) : Py A :=
  fun k => Raise (Exn cls msg) k.

(** [try: body except: handler]. *)
Definition try_except {A : Type} (body : Py A) (handler : exn -> Py A) : Py A :=
  fun k =>
    match body k with
    | Ok a k' => Ok a k'
    | Raise e k' => handler e k'
    end.

(** Reading a global name; an unbound name is a NameError. *)
Definition lookup_name (name : string) : Py value :=
  fun k =>
    match globals k !! name with
    | Some v => Ok v k
    | None => Raise (Exn "NameError" name) k
    end.

(** [name = v]. *)
Definition assign (name : string) (v : value) : Py unit :=
  fun k => Ok tt (set_globals (<[name := v]> (globals k)) k).

Definition get_frame (name : string) : Py pd.DataFrame :=
  v ← lookup_name name;
  match v with VFrame df => mret df | _ => raise "TypeError" name end.
Definition get_float (name : string) : Py R :=
  v ← lookup_name name;
  match v with VFloat r => mret r | _ => raise "TypeError" name end.
Definition get_F1 (name : string) : Py (list R) :=
  v ← lookup_name name;
  match v with VArray (np.F1 a) => mret a | _ => raise "TypeError" name end.
Definition get_I1 (name : string) : Py (list Z) :=
  v ← lookup_name name;
  match v with VArray (np.I1 a) => mret a | _ => raise "TypeError" name end.
Definition get_I2 (name : string) : Py (list (list Z)) :=
  v ← lookup_name name;
  match v with VArray (np.I2 a) => mret a | _ => raise "TypeError" name end.
Definition get_dist (name : string) : Py pm.dist :=
  v ← lookup_name name;
  match v with VDist d => mret d | _ => raise "TypeError" name end.
Definition get_model (name : string) : Py pm.model :=
  v ← lookup_name name;
  match v with VModel m => mret m | _ => raise "TypeError" name end.
Definition get_tensor (name : string) : Py pm.tensor :=
  v ← lookup_name name;
  match v with VTensor t => mret t | _ => raise "TypeError" name end.
Definition get_mean (name : string) : Py pm.mean_fn :=
  v ← lookup_name name;
  match v with VMean m => mret m | _ => raise "TypeError" name end.
Definition get_cov (name : string) : Py pm.cov_fn :=
  v ← lookup_name name;
  match v with VCov c => mret c | _ => raise "TypeError" name end.
Definition get_gp (name : string) : Py pm.gp :=
  v ← lookup_name name;
  match v with VGP g => mret g | _ => raise "TypeError" name end.
Definition get_trace (name : string) : Py MultiTrace :=
  v ← lookup_name name;
  match v with VTrace t => mret t | _ => raise "TypeError" name end.
Definition get_samples (name : string) : Py samples_dict :=
  v ← lookup_name name;
  match v with VSamples d => mret d | _ => raise "TypeError" name end.
Definition get_axes (name : string) : Py Axes :=
  v ← lookup_name name;
  match v with VAxes a => mret a | _ => raise "TypeError" name end.

(** An optional result that Python turns into an exception. *)
Definition or_raise {A : Type} (o : option A) (cls msg : string) : Py A :=
  match o with
  | Some a => mret a
  | None => raise cls msg
  end.

(** [a, b = xs]. *)
Definition unpack2 {A : Type} (xs : list A) : Py (A * A) :=
  match xs with
  | [a; b] => mret (a, b)
  | _ => raise "ValueError" "unpack"
  end.
Definition unpack3 {A : Type} (xs : list A) : Py (A * A * A) :=
  match xs with
  | [a; b; c] => mret (a, b, c)
  | _ => raise "ValueError" "unpack"
  end.

(** [for x in xs: body]. *)
Fixpoint for_each {A : Type} (xs : list A) (body : A -> Py unit) : Py unit :=
  match xs with
  | [] => mret tt
  | x :: rest => body x ;; for_each rest body
  end.

(** [warnings.simplefilter(action)]: a filter for every category, put in
    front of the others. *)
Definition simplefilter (action : string) : Py unit :=
  fun k => Ok tt (set_filters (WFilter action "Warning" :: filters k) k).

(** [with m: body], for a model bound to the global name [m]: the model
    is on the context stack during the body and leaves it on the way
    out, also when the body raises. *)
Definition with_model {A : Type} (name : string) (body : Py A) : Py A :=
  fun k =>
    match (_ ← get_model name; body) (set_model_stack (name :: model_stack k) k) with
    | Ok a k' => Ok a (set_model_stack (tail (model_stack k')) k')
    | Raise e k' => Raise e (set_model_stack (tail (model_stack k')) k')
    end.

(** [with pm.Model() as m: body]. *)
Definition with_new_model {A : Type} (name : string) (body : Py A) : Py A :=
  assign name (VModel []) ;; with_model name body.

(** The model on top of the context stack. *)
Definition current_model : Py string :=
  fun k =>
    match model_stack k with
    | name :: _ => Ok name k
    | [] => Raise (Exn "TypeError" "No model on context stack") k
    end.

(** A model-building call adds its variable to the model in context. *)
Definition register (n : pm.node) : Py unit :=
  name ← current_model;
  m ← get_model name;
  assign name (VModel (m ++ [n])).

(** [pm.D(name, ..., shape=, observed=)]: declares the variable and
    returns it. *)
Definition declare (name : string) (d : pm.dist) (shape : option nat)
    (observed : option (list R)) : Py pm.tensor :=
  register (match observed with
            | Some data => pm.ObservedRV name d data
            | None => pm.FreeRV name d shape
            end) ;;
  mret (pm.TVar name).

(** [pm.Deterministic(name, expr)]. *)
Definition deterministic (name : string) (expr : pm.tensor) : Py pm.tensor :=
  register (pm.Deterministic name expr) ;;
  mret (pm.TVar name).

Section Calls.

Variable world : World.

(** A call that leaves the notebook: the world answers it, the answer is
    logged, and an exception is raised in the statement that made the
    call. *)
Definition extern {T : Type} (c : libE T) : Py T :=
  fun k =>
    match world T (log k) c with
    | inr v => Ok v (set_log (log k ++ [Event T c (inr v)]) k)
    | inl e => Raise e (set_log (log k ++ [Event T c (inl e)]) k)
    end.

(** [import module as name], [from module import name] and
    [name = module] for a submodule. *)
Definition import_as (module name : string) : Py unit :=
  extern (Import module) ;; assign name (VModule module).

(** Statements one after the other; the first exception ends the run. *)
Fixpoint exec (stmts : list (Py unit)) : Py unit :=
  match stmts with
  | [] => mret tt
  | s :: rest => s ;; exec rest
  end.

End Calls.

(** ** Pieces of the statements *)

Open Scope string_scope.
Open Scope list_scope.

(** [df.name]: a column as an attribute of the frame. *)
Definition getattr_column (df : pd.DataFrame) (name : string) : Py pd.Series :=
  or_raise (pd.column (pd.df_columns df) name) "AttributeError" name.

(** [df[[n1, n2]].values.T]: [.values] puts the chosen columns side by
    side and [.T] transposes, so the rows of the result are the chosen
    columns. *)
Definition getitem_values_T (df : pd.DataFrame) (names : list string)
  : Py (list (list R)) :=
  or_raise (pd.select (pd.df_columns df) names) "KeyError" "not in index".

(** [trace[name]] and [samples[name]]. *)
Definition trace_getitem (t : MultiTrace) (name : string) : Py (list (list R)) :=
  or_raise (trace_values t name) "KeyError" name.
Definition samples_getitem (d : samples_dict) (name : string)
  : Py (list (list R)) :=
  or_raise (samples_of d name) "KeyError" name.

(** [a[0]] and [a[-1]]. *)
Definition first_item (a : list Z) : Py Z :=
  or_raise (head a) "IndexError" "index 0 is out of bounds".
Definition last_item (a : list Z) : Py Z :=
  or_raise (last a) "IndexError" "index -1 is out of bounds".

Definition array_min (a : list Z) : Py Z :=
  or_raise (np.min a) "ValueError" "zero-size array".
Definition array_max (a : list Z) : Py Z :=
  or_raise (np.max a) "ValueError" "zero-size array".

(** An integer array handed to PyMC3 becomes a float tensor. *)
Definition as_floats (a : list Z) : list R := map IZR a.

(** The model object that is in context. *)
Definition model_in_context : Py pm.model :=
  name ← current_model; get_model name.

(** [gp.marginal_likelihood(name, X, y, noise)] on the GP bound to
    [gp_name]: declares the observed variable and keeps [X], [y] and
    [noise] in the GP object. *)
Definition marginal_likelihood (gp_name name : string) (X : list (list R))
    (y : list R) (noise : pm.tensor) : Py pm.tensor :=
  g ← get_gp gp_name;
  t ← declare name (pm.MarginalLikelihood g X noise) None (Some y);
  assign gp_name
    (VGP (pm.mkGP (pm.kind g) (pm.mean_func g) (pm.cov_func g)
            (Some (X, y, noise)))) ;;
  mret t.

(** [gp.conditional(name, Xnew, pred_noise)]: needs the data kept by
    [marginal_likelihood]. *)
Definition conditional (gp_name name : string) (Xnew : list (list R))
    (pred_noise : bool) : Py pm.tensor :=
  g ← get_gp gp_name;
  match pm.given g with
  | Some _ => declare name (pm.Conditional g Xnew pred_noise) None None
  | None => raise "AttributeError" "X"
  end.

(** [gp.prior(name, X)]. *)
Definition prior (gp_name name : string) (X : list (list R)) : Py pm.tensor :=
  g ← get_gp gp_name;
  declare name (pm.Prior g X) None None.

(** ** The salmon notebook, cell by cell *)

Section Notebooks.

Variable world : World.

Abbreviation call := (extern world).

(** [salmon_data.plot.scatter(x='spawners', y='recruits', c=, s=50, ax=)]. *)
Definition scatter_salmon (c : option string) (ax : option Axes) : Py Axes :=
  df ← get_frame "salmon_data";
  call (Scatter df "spawners" "recruits" c 50 ax).

Definition salmon_imports : list (Py unit) :=
  [ call (Magic "matplotlib inline");
    import_as world "numpy" "np";
    import_as world "pandas" "pd";
    import_as world "pymc3" "pm";
    import_as world "arviz" "az";
    import_as world "matplotlib.pyplot" "plt";
    import_as world "warnings" "warnings";
    simplefilter "ignore" ].

Definition salmon_load : list (Py unit) :=
  [ df ← call (ReadTable "../data/salmon.txt" "\s+" 0);
    assign "salmon_data" (VFrame df);
    scatter_salmon None None ;; mret tt ].

Definition salmon_normal_prior : list (Py unit) :=
  [ assign "a_normal_distribution"
      (VDist (pm.Normal (pm.TConst 0) (pm.TConst 50)));
    d ← get_dist "a_normal_distribution";
    draws ← call (DistRandom d 1000);
    call (Hist draws) ].

Definition salmon_half_normal_prior : list (Py unit) :=
  [ assign "a_half_normal_distribution" (VDist (pm.HalfNormal (pm.TConst 50)));
    d ← get_dist "a_half_normal_distribution";
    draws ← call (DistRandom d 1000);
    call (Hist draws) ].

(** [x, y = salmon_data[['spawners', 'recruits']].values.T] *)
Definition salmon_extract : list (Py unit) :=
  [ df ← get_frame "salmon_data";
    rows ← getitem_values_T df ["spawners"; "recruits"];
    xy ← unpack2 rows;
    assign "x" (VArray (np.F1 (fst xy))) ;;
    assign "y" (VArray (np.F1 (snd xy))) ].

Definition linear_salmon_model : list (Py unit) :=
  [ with_new_model "linear_salmon_model" (exec
      [ β ← declare "β" (pm.Normal (pm.TConst 0) (pm.TConst 50)) (Some 2%nat) None;
        assign "β" (VTensor β);
        σ ← declare "σ" (pm.HalfNormal (pm.TConst 50)) None None;
        assign "σ" (VTensor σ);
        β ← get_tensor "β";
        x ← get_F1 "x";
        assign "μ"
          (VTensor (pm.TAdd (pm.TIndex β 0)
                      (pm.TMul (pm.TIndex β 1) (pm.TData x))));
        μ ← get_tensor "μ";
        σ ← get_tensor "σ";
        y ← get_F1 "y";
        recruits ← declare "recruits" (pm.Normal μ σ) None (Some y);
        assign "recruits" (VTensor recruits) ]) ].

Definition linear_salmon_sample : list (Py unit) :=
  [ with_model "linear_salmon_model"
      (m ← model_in_context;
       trace ← call (Sample m 1000 2000 (Some 2%nat) None None);
       assign "linear_trace" (VTrace trace)) ].

Definition linear_salmon_plot_trace : list (Py unit) :=
  [ t ← get_trace "linear_trace"; call (PlotTrace t None) ].

(** [ax.plot(X_pred, b0 + b1*X_pred, alpha=0.3, color='seagreen')] for
    one row [b0, b1] of the trace. *)
Definition linear_salmon_line (row : list R) : Py unit :=
  b ← unpack2 row;
  assign "b0" (VFloat (fst b)) ;;
  assign "b1" (VFloat (snd b)) ;;
  ax ← get_axes "ax";
  X_pred ← get_F1 "X_pred";
  b0 ← get_float "b0";
  b1 ← get_float "b1";
  X_pred' ← get_F1 "X_pred";
  call (AxPlot ax X_pred (np.affine b0 b1 X_pred')
          (Some (3 / 10)%R) (Some "seagreen")).

Definition linear_salmon_lines : list (Py unit) :=
  [ assign "X_pred" (VArray (np.F1 (np.linspace 0 500 100)));
    ax ← scatter_salmon (Some "k") None;
    assign "ax" (VAxes ax);
    ax ← get_axes "ax";
    call (SetYlim ax 0 None);
    t ← get_trace "linear_trace";
    rows ← trace_getitem t "β";
    for_each (take 20 rows) linear_salmon_line ].

Definition quad_salmon_model : list (Py unit) :=
  [ with_new_model "quad_salmon_model" (exec
      [ β ← declare "β" (pm.Normal (pm.TConst 0) (pm.TConst 50)) (Some 3%nat) None;
        assign "β" (VTensor β);
        σ ← declare "σ" (pm.HalfNormal (pm.TConst 50)) None None;
        assign "σ" (VTensor σ);
        β ← get_tensor "β";
        x ← get_F1 "x";
        x' ← get_F1 "x";
        assign "μ"
          (VTensor (pm.TAdd
                      (pm.TAdd (pm.TIndex β 0)
                         (pm.TMul (pm.TIndex β 1) (pm.TData x)))
                      (pm.TMul (pm.TIndex β 2) (pm.TData (np.power x' 2)))));
        μ ← get_tensor "μ";
        σ ← get_tensor "σ";
        y ← get_F1 "y";
        recruits ← declare "recruits" (pm.Normal μ σ) None (Some y);
        assign "recruits" (VTensor recruits) ]) ].

Definition quad_salmon_sample : list (Py unit) :=
  [ with_model "quad_salmon_model"
      (m ← model_in_context;
       trace ← call (Sample m 1000 2000 (Some 2%nat) None (Some 1));
       assign "quad_trace" (VTrace trace)) ].

(** [ax.plot(X_pred, b0 + b1*X_pred + b2*X_pred**2, alpha=0.3,
    color='seagreen')] for one row [b0, b1, b2] of the trace. *)
Definition quad_salmon_line (row : list R) : Py unit :=
  b ← unpack3 row;
  assign "b0" (VFloat (fst (fst b))) ;;
  assign "b1" (VFloat (snd (fst b))) ;;
  assign "b2" (VFloat (snd b)) ;;
  ax ← get_axes "ax";
  X_pred ← get_F1 "X_pred";
  b0 ← get_float "b0";
  b1 ← get_float "b1";
  X_pred' ← get_F1 "X_pred";
  b2 ← get_float "b2";
  X_pred'' ← get_F1 "X_pred";
  call (AxPlot ax X_pred
          (zip_with Rplus (np.affine b0 b1 X_pred')
             (map (Rmult b2) (np.power X_pred'' 2)))
          (Some (3 / 10)%R) (Some "seagreen")).

Definition quad_salmon_lines : list (Py unit) :=
  [ ax ← scatter_salmon (Some "k") None;
    assign "ax" (VAxes ax);
    ax ← get_axes "ax";
    call (SetYlim ax 0 None);
    t ← get_trace "quad_trace";
    rows ← trace_getitem t "β";
    for_each (take 20 rows) quad_salmon_line ].

Definition gp_salmon_model : list (Py unit) :=
  [ with_new_model "gp_salmon_model" (exec
      [ ρ ← declare "ρ" (pm.HalfCauchy (pm.TConst 5)) None None;
        assign "ρ" (VTensor ρ);
        η ← declare "η" (pm.HalfCauchy (pm.TConst 5)) None None;
        assign "η" (VTensor η);
        df ← get_frame "salmon_data";
        recruits ← getattr_column df "recruits";
        df' ← get_frame "salmon_data";
        spawners ← getattr_column df' "spawners";
        assign "M"
          (VMean (pm.Linear (pd.mean (pd.series_truediv recruits spawners)) 0));
        η ← get_tensor "η";
        ρ ← get_tensor "ρ";
        assign "K" (VCov (pm.Scaled (pm.TPow η 2) (pm.ExpQuad 1 ρ)));
        σ ← declare "σ" (pm.HalfNormal (pm.TConst 50)) None None;
        assign "σ" (VTensor σ);
        M ← get_mean "M";
        K ← get_cov "K";
        assign "recruit_gp" (VGP (pm.mkGP pm.Marginal M K None));
        df ← get_frame "salmon_data";
        spawners ← getattr_column df "spawners";
        df' ← get_frame "salmon_data";
        recruits ← getattr_column df' "recruits";
        σ ← get_tensor "σ";
        marginal_likelihood "recruit_gp" "recruits"
          (np.reshape_col spawners) recruits σ ;;
        mret tt ]) ].

Definition gp_salmon_sample : list (Py unit) :=
  [ with_model "gp_salmon_model"
      (m ← model_in_context;
       trace ← call (Sample m 1000 2000 (Some 2%nat) None (Some 42));
       assign "gp_trace" (VTrace trace)) ].

Definition gp_salmon_plot_trace : list (Py unit) :=
  [ t ← get_trace "gp_trace"; call (PlotTrace t (Some ["ρ"; "η"; "σ"])) ].

(** [pm.sample_posterior_predictive(trace, vars=[v], samples=n,
    random_seed=seed)] in the model in context, bound to [target]. *)
Definition sample_posterior_predictive (trace_name var_name : string)
    (samples : nat) (random_seed : option Z) (target : string) : Py unit :=
  t ← get_trace trace_name;
  v ← get_tensor var_name;
  m ← model_in_context;
  d ← call (SamplePosteriorPredictive m t [v] samples random_seed);
  assign target (VSamples d).

Definition gp_salmon_predict_3 : list (Py unit) :=
  [ with_model "gp_salmon_model" (exec
      [ X_pred ← get_F1 "X_pred";
        v ← conditional "recruit_gp" "salmon_pred" (np.reshape_col X_pred) false;
        assign "salmon_pred" (VTensor v);
        sample_posterior_predictive "gp_trace" "salmon_pred" 3 (Some 42)
          "gp_salmon_samples" ]) ].

(** [ax.plot(X_pred, x)] for one sample [x]. *)
Definition gp_salmon_line (row : list R) : Py unit :=
  assign "x" (VArray (np.F1 row)) ;;
  ax ← get_axes "ax";
  X_pred ← get_F1 "X_pred";
  x ← get_F1 "x";
  call (AxPlot ax X_pred x None None).

Definition gp_salmon_plot_3 : list (Py unit) :=
  [ ax ← scatter_salmon (Some "k") None;
    assign "ax" (VAxes ax);
    ax ← get_axes "ax";
    call (SetYlim ax 0 None);
    d ← get_samples "gp_salmon_samples";
    rows ← samples_getitem d "salmon_pred";
    for_each rows gp_salmon_line ].

Definition gp_salmon_predict_100 : list (Py unit) :=
  [ with_model "gp_salmon_model"
      (sample_posterior_predictive "gp_trace" "salmon_pred" 100 (Some 42)
         "gp_salmon_samples") ].

(** The cell that plots the band of the samples of [var_name]. *)
Definition gp_salmon_plot_dist (var_name : string) : list (Py unit) :=
  [ import_as world "pymc3.gp.util" "plot_gp_dist";
    fig_ax ← call (Subplots (8, 6));
    assign "fig" (VFigure (fst fig_ax)) ;;
    assign "ax" (VAxes (snd fig_ax));
    ax ← get_axes "ax";
    d ← get_samples "gp_salmon_samples";
    samples ← samples_getitem d var_name;
    X_pred ← get_F1 "X_pred";
    call (PlotGpDist ax samples (np.F1 X_pred));
    ax ← get_axes "ax";
    scatter_salmon (Some "k") (Some ax) ;; mret tt;
    ax ← get_axes "ax";
    call (SetYlim ax 0 (Some 350)) ].

Definition gp_salmon_predict_noise : list (Py unit) :=
  [ with_model "gp_salmon_model" (exec
      [ X_pred ← get_F1 "X_pred";
        v ← conditional "recruit_gp" "salmon_pred_noise"
              (np.reshape_col X_pred) true;
        assign "salmon_pred_noise" (VTensor v);
        sample_posterior_predictive "gp_trace" "salmon_pred_noise" 500
          (Some 42) "gp_salmon_samples" ]) ].

(** The code cells of the salmon notebook, in order; the last cell holds
    only a comment. *)
Definition salmon_cells : list (list (Py unit)) :=
  [ salmon_imports;
    salmon_load;
    salmon_normal_prior;
    salmon_half_normal_prior;
    salmon_extract;
    linear_salmon_model;
    linear_salmon_sample;
    linear_salmon_plot_trace;
    linear_salmon_lines;
    quad_salmon_model;
    quad_salmon_sample;
    quad_salmon_lines;
    gp_salmon_model;
    gp_salmon_sample;
    gp_salmon_plot_trace;
    gp_salmon_predict_3;
    gp_salmon_plot_3;
    gp_salmon_predict_100;
    gp_salmon_plot_dist "salmon_pred";
    gp_salmon_predict_noise;
    gp_salmon_plot_dist "salmon_pred_noise";
    [] ].


(** ** The coal-mining-disasters notebook, cell by cell *)

(** Time series of recorded coal mining disasters in the UK from 1851 to
    1962. *)
Definition disasters_data : list Z :=
  [4; 5; 4; 0; 1; 4; 3; 4; 0; 6; 3; 3; 4; 0; 2; 6;
   3; 3; 5; 4; 5; 3; 1; 4; 4; 1; 5; 5; 3; 4; 2; 5;
   2; 2; 3; 4; 2; 1; 3; 2; 2; 1; 1; 1; 1; 3; 0; 0;
   1; 0; 1; 1; 0; 0; 3; 1; 0; 3; 2; 2; 0; 1; 1; 1;
   0; 1; 0; 1; 0; 0; 0; 2; 1; 0; 0; 0; 1; 1; 0; 2;
   3; 3; 1; 1; 2; 1; 1; 1; 1; 2; 4; 2; 0; 0; 1; 4;
   0; 0; 0; 1; 0; 0; 0; 0; 0; 1; 0; 0; 1; 0; 1].

Definition year : list Z := np.arange 1851 1962.

Definition disasters_imports : list (Py unit) :=
  [ call (Magic "matplotlib inline");
    import_as world "pandas" "pd";
    import_as world "numpy" "np";
    import_as world "numpy.ma" "ma";
    import_as world "arviz" "az";
    import_as world "pymc3" "pm";
    assign "cov" (VModule "pymc3.gp.cov");
    import_as world "datetime" "datetime";
    import_as world "matplotlib.pyplot" "plt";
    import_as world "seaborn" "sns";
    call (SetContext "notebook");
    import_as world "warnings" "warnings";
    simplefilter "ignore" ].

Definition disasters_define : list (Py unit) :=
  [ assign "disasters_data" (VArray (np.I1 disasters_data));
    assign "year" (VArray (np.I1 year));
    y ← get_I1 "year";
    y' ← get_I1 "year";
    m ← array_min y';
    assign "year_ind" (VArray (np.I2 (np.reshape_col (np.sub_scalar y m)))) ].

Definition disasters_bar : list (Py unit) :=
  [ fig_ax ← call (Subplots (14, 4));
    assign "fig" (VFigure (fst fig_ax)) ;;
    assign "ax" (VAxes (snd fig_ax));
    ax ← get_axes "ax";
    y ← get_I1 "year";
    d ← get_I1 "disasters_data";
    call (Bar ax y d "#348ABD" (65 / 100)%R (7 / 10)%R);
    ax ← get_axes "ax";
    y ← get_I1 "year";
    lo ← first_item y;
    y' ← get_I1 "year";
    hi ← last_item y';
    call (SetXlim ax lo (hi + 1));
    ax ← get_axes "ax";
    call (SetYlabel ax "Disaster count");
    ax ← get_axes "ax";
    call (SetXlabel ax "Year") ].

Definition disasters_model : list (Py unit) :=
  [ with_new_model "disasters_model" (exec
      [ ρ ← declare "ρ" (pm.Exponential (pm.TConst 1)) None None;
        assign "ρ" (VTensor ρ);
        η ← declare "η" (pm.Exponential (pm.TConst 1)) None None;
        assign "η" (VTensor η);
        η ← get_tensor "η";
        ρ ← get_tensor "ρ";
        assign "K" (VCov (pm.Scaled (pm.TPow η 2) (pm.ExpQuad 1 ρ)));
        K ← get_cov "K";
        assign "gp" (VGP (pm.mkGP pm.Latent pm.Zero K None)) ]) ].

Definition disasters_prior : list (Py unit) :=
  [ with_model "disasters_model"
      (X ← get_I2 "year_ind";
       f ← prior "gp" "f" (map as_floats X);
       assign "f" (VTensor f)) ].

Definition disasters_likelihood : list (Py unit) :=
  [ with_model "disasters_model" (exec
      [ f ← get_tensor "f";
        rate ← deterministic "λ" (pm.TExp f);
        assign "λ" (VTensor rate);
        rate ← get_tensor "λ";
        d ← get_I1 "disasters_data";
        confirmation ← declare "confirmation" (pm.Poisson rate) None
                         (Some (as_floats d));
        assign "confirmation" (VTensor confirmation) ]) ].

Definition disasters_sample : list (Py unit) :=
  [ with_model "disasters_model"
      (m ← model_in_context;
       trace ← call (Sample m 1000 1000 None (Some 2%nat) None);
       assign "trace" (VTrace trace)) ].

Definition disasters_plot_posterior : list (Py unit) :=
  [ t ← get_trace "trace"; call (PlotPosterior t (Some ["ρ"; "η"])) ].

Definition disasters_years : list (Py unit) :=
  [ y ← get_I1 "year";
    y' ← get_I1 "year";
    m ← array_min y';
    assign "years" (VArray (np.I1 (np.sub_scalar y m))) ].

Definition disasters_predict : list (Py unit) :=
  [ with_model "disasters_model"
      (sample_posterior_predictive "trace" "f" 1000 None "y_pred") ].

Definition disasters_plot_rate : list (Py unit) :=
  [ fig_ax ← call (Subplots (12, 5));
    assign "fig" (VFigure (fst fig_ax)) ;;
    assign "ax" (VAxes (snd fig_ax));
    ax ← get_axes "ax";
    d ← get_samples "y_pred";
    samples ← samples_getitem d "f";
    y ← get_I1 "year";
    call (PlotGpDist ax (map (map exp) samples) (np.I2 (np.reshape_col y)));
    y ← get_I1 "year";
    d ← get_I1 "disasters_data";
    ax ← get_axes "ax";
    call (Regplot y d false ax);
    ax ← get_axes "ax";
    y ← get_I1 "year";
    lo ← array_min y;
    y' ← get_I1 "year";
    hi ← array_max y';
    call (SetXlim ax lo hi);
    ax ← get_axes "ax";
    call (SetYlabel ax "Disaster rate") ].

Definition disasters_cells : list (list (Py unit)) :=
  [ disasters_imports;
    disasters_define;
    disasters_bar;
    disasters_model;
    disasters_prior;
    disasters_likelihood;
    disasters_sample;
    disasters_plot_posterior;
    disasters_years;
    disasters_predict;
    disasters_plot_rate ].

(** Running a notebook: its cells from the first to the last, in a
    kernel that has run nothing; the first exception stops the run. *)
Definition run (cells : list (list (Py unit))) (startup : list wfilter)
  : result unit :=
  exec (concat cells) (fresh startup).

(** The run of the first [n] statements, and of the first [n] cells. *)
Definition run_upto (n : nat) (cells : list (list (Py unit)))
    (startup : list wfilter) : result unit :=
  exec (take n (concat cells)) (fresh startup).

Definition run_cells (n : nat) (cells : list (list (Py unit)))
    (startup : list wfilter) : result unit :=
  exec (concat (take n cells)) (fresh startup).

End Notebooks.

(** ** What is observed of a run *)

Definition is_ok {A : Type} (r : result A) : bool :=
  match r with Ok _ _ => true | Raise _ _ => false end.

(** The kernel a run ends in, whether it completed or raised. *)
Definition kernel_of {A : Type} (r : result A) : kernel :=
  match r with Ok _ k | Raise _ k => k end.

Definition raised {A : Type} (r : result A) : option exn :=
  match r with Ok _ _ => None | Raise e _ => Some e end.

(** The kernel after the first [n] statements of a notebook (or where
    the run stopped before). *)
Definition state_after (n : nat) (cells : list (list (Py unit)))
    (startup : list wfilter) : kernel :=
  kernel_of (run_upto n cells startup).

Definition ev_failed (ev : event) : option exn :=
  match ev_answer ev with inl e => Some e | inr _ => None end.

Definition answered (ev : event) : bool :=
  match ev_answer ev with inr _ => true | inl _ => false end.

(** The kinds of calls: setting up the session, reading a file,
    drawing samples for a fit or from a prior, drawing posterior
    predictive samples, plotting. *)
Inductive call_kind := KSetup | KFileInput | KSampling | KPredict | KPlot.

Definition kind_of {T : Type} (c : libE T) : call_kind :=
  match c with
  | Magic _ | Import _ | SetContext _ => KSetup
  | ReadTable _ _ _ => KFileInput
  | DistRandom _ _ | Sample _ _ _ _ _ _ => KSampling
  | SamplePosteriorPredictive _ _ _ _ _ => KPredict
  | Scatter _ _ _ _ _ _ | Hist _ | Subplots _ | AxPlot _ _ _ _ _
  | Bar _ _ _ _ _ _ | SetYlim _ _ _ | SetXlim _ _ _ | SetYlabel _ _
  | SetXlabel _ _ | PlotTrace _ _ | PlotPosterior _ _ | PlotGpDist _ _ _
  | Regplot _ _ _ _ => KPlot
  end.

Definition kind_eqb (a b : call_kind) : bool :=
  match a, b with
  | KSetup, KSetup | KFileInput, KFileInput | KSampling, KSampling
  | KPredict, KPredict | KPlot, KPlot => true
  | _, _ => false
  end.

Definition is_setup (ev : event) : bool :=
  match kind_of (ev_call ev) with KSetup => true | _ => false end.

(** The file reads of a log: path, separator and index column. *)
Definition file_input (ev : event) : option (string * string * Z) :=
  match ev_call ev with
  | ReadTable path sep index_col => Some (path, sep, index_col)
  | _ => None
  end.

Definition file_inputs (l : list event) : list (string * string * Z) :=
  omap file_input l.

(** The frame a [ReadTable] call was answered with. *)
Definition frame_read (ev : event) : option pd.DataFrame :=
  match ev with
  | Event _ (ReadTable _ _ _) (inr df) => Some df
  | _ => None
  end.

(** The sample counts asked of the posterior predictive sampler. *)
Definition ppc_request (ev : event) : option nat :=
  match ev_call ev with
  | SamplePosteriorPredictive _ _ _ samples _ => Some samples
  | _ => None
  end.

Definition ppc_requests (l : list event) : list nat := omap ppc_request l.


(** ** Reasoning about statements *)

(** Two namespaces agree outside the names in [W]. *)
Definition agree (W : string -> bool) (g g' : gmap string value) : Prop :=
  forall n, W n = false -> g' !! n = g !! n.

Definition ev_allowed (C : forall T : Type, libE T -> bool) (ev : event) : bool :=
  C (ev_type ev) (ev_call ev).

(** The calls of a step: all allowed and answered, except that a step
    that raises may end with the failed call whose exception it
    raises. *)
Definition disciplined (C : forall T : Type, libE T -> bool)
    (evs : list event) (outcome : option exn) : Prop :=
  Forall (fun ev => ev_allowed C ev = true /\ answered ev = true) evs \/
  exists evs0 ev e,
    outcome = Some e /\ evs = evs0 ++ [ev] /\
    Forall (fun ev => ev_allowed C ev = true /\ answered ev = true) evs0 /\
    ev_allowed C ev = true /\ ev_failed ev = Some e.

Record stepped (W : string -> bool) (C : forall T : Type, libE T -> bool)
    (outcome : option exn) (k k' : kernel) : Prop := Stepped {
  st_globals : agree W (globals k) (globals k');
  st_filters : exists n,
    filters k' = replicate n (WFilter "ignore" "Warning") ++ filters k;
  st_model_stack : model_stack k' = model_stack k;
  st_log : exists evs, log k' = log k ++ evs /\ disciplined C evs outcome
}.

(** [frame top W C m]: run where the model on top of the context stack
    is [top], [m] binds only names in [W], makes only calls in [C],
    adds at most filters that ignore every warning, leaves the model
    context as it was, and handles no exception of a call. *)
Definition frame (top : option string) (W : string -> bool)
    (C : forall T : Type, libE T -> bool) {A : Type} (m : Py A) : Prop :=
  forall k, head (model_stack k) = top ->
            stepped W C (raised (m k)) k (kernel_of (m k)).

(** The names of a list, and all names but those of a list. *)
Definition writes (names : list string) (n : string) : bool :=
  existsb (String.eqb n) names.
Definition protect (names : list string) (n : string) : bool :=
  negb (existsb (String.eqb n) names).

(** The calls of the kinds of a list. *)
Definition of_kinds (ks : list call_kind) (T : Type) (c : libE T) : bool :=
  existsb (kind_eqb (kind_of c)) ks.

Definition any_call : forall T : Type, libE T -> bool :=
  of_kinds [KSetup; KFileInput; KSampling; KPredict; KPlot].
Definition no_file_input : forall T : Type, libE T -> bool :=
  of_kinds [KSetup; KSampling; KPredict; KPlot].

(** What each cell of the notebooks binds and which kinds of calls it
    makes. *)
Definition salmon_footprint : list (list string * list call_kind) :=
  [ (["np"; "pd"; "pm"; "az"; "plt"; "warnings"], [KSetup]);
    (["salmon_data"], [KFileInput; KPlot]);
    (["a_normal_distribution"], [KSampling; KPlot]);
    (["a_half_normal_distribution"], [KSampling; KPlot]);
    (["x"; "y"], []);
    (["linear_salmon_model"; "β"; "σ"; "μ"; "recruits"], []);
    (["linear_trace"], [KSampling]);
    ([], [KPlot]);
    (["X_pred"; "ax"; "b0"; "b1"], [KPlot]);
    (["quad_salmon_model"; "β"; "σ"; "μ"; "recruits"], []);
    (["quad_trace"], [KSampling]);
    (["ax"; "b0"; "b1"; "b2"], [KPlot]);
    (["gp_salmon_model"; "ρ"; "η"; "M"; "K"; "σ"; "recruit_gp"], []);
    (["gp_trace"], [KSampling]);
    ([], [KPlot]);
    (["gp_salmon_model"; "salmon_pred"; "gp_salmon_samples"], [KPredict]);
    (["ax"; "x"], [KPlot]);
    (["gp_salmon_samples"], [KPredict]);
    (["plot_gp_dist"; "fig"; "ax"], [KSetup; KPlot]);
    (["gp_salmon_model"; "salmon_pred_noise"; "gp_salmon_samples"], [KPredict]);
    (["plot_gp_dist"; "fig"; "ax"], [KSetup; KPlot]);
    ([], []) ].

Definition disasters_footprint : list (list string * list call_kind) :=
  [ (["pd"; "np"; "ma"; "az"; "pm"; "cov"; "datetime"; "plt"; "sns"; "warnings"],
     [KSetup]);
    (["disasters_data"; "year"; "year_ind"], []);
    (["fig"; "ax"], [KPlot]);
    (["disasters_model"; "ρ"; "η"; "K"; "gp"], []);
    (["disasters_model"; "f"], []);
    (["disasters_model"; "λ"; "confirmation"], []);
    (["trace"], [KSampling]);
    ([], [KPlot]);
    (["years"], []);
    (["y_pred"], [KPredict]);
    (["fig"; "ax"], [KPlot]) ].

(** Every statement of every cell stays within the footprint of its
    cell. *)
Definition within_footprint (cells : list (list (Py unit)))
    (footprint : list (list string * list call_kind)) : Prop :=
  Forall2 (fun cell fp =>
             forall top, Forall (frame top (writes (fst fp)) (of_kinds (snd fp))) cell)
    cells footprint.

(** The model bound to a name. *)
Definition model_of (k : kernel) (name : string) : option pm.model :=
  match globals k !! name with
  | Some (VModel m) => Some m
  | _ => None
  end.

(** The frames read from files in a log, in the order of the reads. *)
Definition frames_read (l : list event) : list pd.DataFrame := omap frame_read l.

(** The columns of a frame the salmon notebook works with. *)
Definition spawners (df : pd.DataFrame) : option pd.Series :=
  pd.column (pd.df_columns df) "spawners".
Definition recruits (df : pd.DataFrame) : option pd.Series :=
  pd.column (pd.df_columns df) "recruits".

(** An environment that gives one variable its value. *)
Definition env_of (name : string) (v : list R) : string -> option (list R) :=
  fun n => if String.eqb n name then Some v else None.

(** ** Worlds to run the notebooks in

    A world where every call succeeds: the data file holds the given
    frame, a trace has one draw of each variable (as long as the
    variable's [shape]), the posterior predictive sampler returns as
    many rows as it is asked for, and plots return nothing. *)
Fixpoint shape_of (m : pm.model) (name : string) : option nat :=
  match m with
  | [] => None
  | pm.FreeRV n _ shape :: rest =>
      if String.eqb n name
      then Some (match shape with Some s => s | None => 1%nat end)
      else shape_of rest name
  | _ :: rest => shape_of rest name
  end.

Definition one_draw (m : pm.model) : MultiTrace :=
  mkTrace (fun name =>
             match shape_of m name with
             | Some s => Some [replicate s 0%R]
             | None => None
             end).

Definition world_with (df : pd.DataFrame) : World :=
  fun T _ c =>
    match c in libE T return exn + T with
    | Magic _ | Import _ | SetContext _ | Hist _ | AxPlot _ _ _ _ _
    | Bar _ _ _ _ _ _ | SetYlim _ _ _ | SetXlim _ _ _ | SetYlabel _ _
    | SetXlabel _ _ | PlotTrace _ _ | PlotPosterior _ _ | PlotGpDist _ _ _
    | Regplot _ _ _ _ => inr tt
    | ReadTable _ _ _ => inr df
    | Scatter _ _ _ _ _ _ => inr 0%nat
    | Subplots _ => inr (0%nat, 0%nat)
    | DistRandom _ size => inr (replicate size 0%R)
    | Sample m _ _ _ _ _ => inr (one_draw m)
    | SamplePosteriorPredictive _ _ _ samples _ =>
        inr (mkSamples (fun _ => Some (replicate samples [0%R])))
    end.

(** Two years of a stream, with one and with two spawners and the
    same number of recruits for each spawner. *)
Definition two_streams (recruits_per_spawner : R) : pd.DataFrame :=
  pd.mkDataFrame [1; 2]
    [("spawners", [1%R; 2%R]);
     ("recruits", [(recruits_per_spawner * 1)%R; (recruits_per_spawner * 2)%R])]
    eq_refl.

(** A stream without spawners in the first year. *)
Definition empty_year : pd.DataFrame :=
  pd.mkDataFrame [1; 2]
    [("spawners", [0%R; 2%R]); ("recruits", [0%R; 6%R])]
    eq_refl.

(** ** What the statements of the notebooks leave behind *)


(** Any name may be bound. *)
Definition everything (n : string) : bool := true.

(** The arguments of the [pd.read_table] call of the salmon notebook. *)
Definition salmon_read : string * string * Z := ("../data/salmon.txt", "\s+", 0%Z).

(** The models the cells declare, as functions of the columns [x]
    (spawners) and [y] (recruits) of the data. *)
Definition linear_mu (x : list R) : pm.tensor :=
  pm.TAdd (pm.TIndex (pm.TVar "β") 0)
    (pm.TMul (pm.TIndex (pm.TVar "β") 1) (pm.TData x)).

Definition quad_mu (x : list R) : pm.tensor :=
  pm.TAdd
    (pm.TAdd (pm.TIndex (pm.TVar "β") 0)
       (pm.TMul (pm.TIndex (pm.TVar "β") 1) (pm.TData x)))
    (pm.TMul (pm.TIndex (pm.TVar "β") 2) (pm.TData (np.power x 2))).

Definition regression_model (shape : nat) (mu : pm.tensor) (y : list R)
  : pm.model :=
  [ pm.FreeRV "β" (pm.Normal (pm.TConst 0) (pm.TConst 50)) (Some shape);
    pm.FreeRV "σ" (pm.HalfNormal (pm.TConst 50)) None;
    pm.ObservedRV "recruits" (pm.Normal mu (pm.TVar "σ")) y ].

(** [η**2 * pm.gp.cov.ExpQuad(1, ρ)], the linear mean [M], the model
    after the cell that declares it and the GP object after
    [marginal_likelihood]. *)
Definition gp_salmon_cov : pm.cov_fn :=
  pm.Scaled (pm.TPow (pm.TVar "η") 2) (pm.ExpQuad 1 (pm.TVar "ρ")).

Definition gp_salmon_mean (r s : pd.Series) : pm.mean_fn :=
  pm.Linear (pd.mean (pd.series_truediv r s)) 0.

Definition gp_salmon_nodes (r s : pd.Series) : pm.model :=
  [ pm.FreeRV "ρ" (pm.HalfCauchy (pm.TConst 5)) None;
    pm.FreeRV "η" (pm.HalfCauchy (pm.TConst 5)) None;
    pm.FreeRV "σ" (pm.HalfNormal (pm.TConst 50)) None;
    pm.ObservedRV "recruits"
      (pm.MarginalLikelihood
         (pm.mkGP pm.Marginal (gp_salmon_mean r s) gp_salmon_cov None)
         (np.reshape_col s) (pm.TVar "σ"))
      r ].

Definition recruit_gp (r s : pd.Series) : pm.gp :=
  pm.mkGP pm.Marginal (gp_salmon_mean r s) gp_salmon_cov
    (Some (np.reshape_col s, r, pm.TVar "σ")).

(** The variable a [recruit_gp.conditional] call adds to the model. *)
Definition conditional_node (name : string) (g : pm.gp) (X_pred : list R)
    (pred_noise : bool) : pm.node :=
  pm.FreeRV name (pm.Conditional g (np.reshape_col X_pred) pred_noise) None.

(** The disasters notebook. *)
Definition year_ind : list (list Z) :=
  np.reshape_col (np.sub_scalar year 1851).

(** The disasters model after its three cells. *)
Definition disasters_cov : pm.cov_fn :=
  pm.Scaled (pm.TPow (pm.TVar "η") 2) (pm.ExpQuad 1 (pm.TVar "ρ")).

Definition disasters_gp : pm.gp := pm.mkGP pm.Latent pm.Zero disasters_cov None.

Definition disasters_nodes : pm.model :=
  [ pm.FreeRV "ρ" (pm.Exponential (pm.TConst 1)) None;
    pm.FreeRV "η" (pm.Exponential (pm.TConst 1)) None;
    pm.FreeRV "f" (pm.Prior disasters_gp (map as_floats year_ind)) None;
    pm.Deterministic "λ" (pm.TExp (pm.TVar "f"));
    pm.ObservedRV "confirmation" (pm.Poisson (pm.TVar "λ"))
      (as_floats disasters_data) ].

(** The salmon table is loaded in [k]: one frame was read, it is bound
    to [salmon_data], and [x] and [y] are its two columns. *)
Record salmon_loaded (k : kernel) (df : pd.DataFrame) (x y : pd.Series)
  : Prop := SalmonLoaded {
  sl_read : frames_read (log k) = [df];
  sl_spawners : spawners df = Some x;
  sl_recruits : recruits df = Some y;
  sl_frame : globals k !! "salmon_data" = Some (VFrame df)
}.

(** The numbers given to the calls that built the model bound to
    [name]. *)
Definition numbers_of (k : kernel) (name : string) : option (list pd.float) :=
  pm.numbers <$> model_of k name.

(** These numbers are the constants [cs] in every world and session in
    which the notebook runs to its end; they are independent of the
    data when there are such constants. *)
Definition fixed_constants (cells : World -> list (list (Py unit)))
    (name : string) (cs : list R) : Prop :=
  forall w startup,
    is_ok (run (cells w) startup) = true ->
    numbers_of (kernel_of (run (cells w) startup)) name = Some (map pd.Fin cs).

Definition data_independent (cells : World -> list (list (Py unit)))
    (name : string) : Prop :=
  exists cs, fixed_constants cells name cs.

(** ** More of what a run shows *)


(** A world in which the data file cannot be read: [pd.read_table]
    raises [e]; every other call is answered as in [world_with]. *)
Definition unreadable_file (e : exn) : World :=
  fun T l c =>
    match c in libE T return exn + T with
    | ReadTable _ _ _ => inl e
    | c' => world_with (two_streams 2) _ l c'
    end.


(** The lines drawn with [ax.plot]: the abscissas and the ordinates of
    each, in the order of the calls. *)
Definition line_plotted (ev : event) : option (list R * list R) :=
  match ev_call ev with
  | AxPlot _ xs ys _ _ => Some (xs, ys)
  | _ => None
  end.

Definition lines_plotted (l : list event) : list (list R * list R) :=
  omap line_plotted l.

(** Every call but [ax.plot]. *)
Definition no_line (T : Type) (c : libE T) : bool :=
  match c with AxPlot _ _ _ _ _ => false | _ => true end.

(** The answered calls of [pm.sample]: the model in context, the
    arguments [(draws, tune, cores, chains, random_seed)] and the trace
    that came back. *)
Definition sample_call (ev : event)
  : option (pm.model * (nat * nat * option nat * option nat * option Z)
            * MultiTrace) :=
  match ev with
  | Event _ (Sample m draws tune cores chains seed) (inr t) =>
      Some (m, (draws, tune, cores, chains, seed), t)
  | _ => None
  end.

(** The answered calls of [pm.sample_posterior_predictive]: the model
    in context, the trace, the variables, the number of samples, the
    seed and the dict that came back. *)
Definition ppc_call (ev : event)
  : option (pm.model * MultiTrace * list pm.tensor * nat * option Z
            * samples_dict) :=
  match ev with
  | Event _ (SamplePosteriorPredictive m t vars samples seed) (inr d) =>
      Some (m, t, vars, samples, seed, d)
  | _ => None
  end.

(** Every call but those of the two samplers. *)
Definition no_sampler (T : Type) (c : libE T) : bool :=
  match c with
  | Sample _ _ _ _ _ _ | SamplePosteriorPredictive _ _ _ _ _ => false
  | _ => true
  end.

(** The bands drawn with [plot_gp_dist]: the samples and the abscissas
    of each. *)
Definition band_plotted (ev : event) : option (list (list R) * np.ndarray) :=
  match ev_call ev with
  | PlotGpDist _ samples x => Some (samples, x)
  | _ => None
  end.

(** Every call but [plot_gp_dist]. *)
Definition no_band (T : Type) (c : libE T) : bool :=
  match c with PlotGpDist _ _ _ => false | _ => true end.

(** What each answered call of the posterior predictive sampler was
    asked for and gave back: the number of samples and the dict. *)
Definition ppc_answer (ev : event) : option (nat * samples_dict) :=
  match ppc_call ev with
  | Some (_, _, _, samples, _, d) => Some (samples, d)
  | None => None
  end.

(** The answered calls of [d.random(size=n)] on a distribution, and the
    data given to [plt.hist]. *)
Definition prior_draw (ev : event) : option (pm.dist * nat * list R) :=
  match ev with
  | Event _ (DistRandom d size) (inr draws) => Some (d, size, draws)
  | _ => None
  end.

Definition hist_plotted (ev : event) : option (list R) :=
  match ev_call ev with
  | Hist data => Some data
  | _ => None
  end.

(** Every call but those two. *)
Definition no_preview (T : Type) (c : libE T) : bool :=
  match c with DistRandom _ _ | Hist _ => false | _ => true end.

(** The traces given to [az.plot_trace] and [az.plot_posterior], with
    the [var_names] of the call. *)
Definition trace_plotted (ev : event) : option (MultiTrace * option (list string)) :=
  match ev_call ev with
  | PlotTrace t var_names | PlotPosterior t var_names => Some (t, var_names)
  | _ => None
  end.

(** Every call but those two. *)
Definition no_trace_plot (T : Type) (c : libE T) : bool :=
  match c with PlotTrace _ _ | PlotPosterior _ _ => false | _ => true end.

(** The scatter plots: the table, the two columns, the colour and the
    marker size of each. *)
Definition scatter_plotted (ev : event)
  : option (pd.DataFrame * string * string * option string * Z) :=
  match ev_call ev with
  | Scatter df x y c s _ => Some (df, x, y, c, s)
  | _ => None
  end.

(** Every call but the scatter plot. *)
Definition no_scatter (T : Type) (c : libE T) : bool :=
  match c with Scatter _ _ _ _ _ _ => false | _ => true end.

(** * Properties *)

(** ** The frame rules: what a statement may bind and call *)

Section Frame.

Context (top : option string) (W : string -> bool)
  (C : forall T : Type, libE T -> bool).

Lemma disciplined_nil o : disciplined C [] o.
Proof. left. constructor. Qed.

Lemma stepped_refl o k : stepped W C o k k.
Proof.
  split; try reflexivity.
  - intros n _. reflexivity.
  - by exists 0%nat.
  - exists []. split; [by rewrite app_nil_r | apply disciplined_nil].
Qed.

Lemma disciplined_app evs1 evs2 o :
  disciplined C evs1 None -> disciplined C evs2 o -> disciplined C (evs1 ++ evs2) o.
Proof.
  intros [H1 | (? & ? & ? & ? & _)]; [| discriminate].
  intros [H2 | (evs0 & ev & e & -> & -> & H0 & Hc & Hf)].
  - left. apply Forall_app. by split.
  - right. exists (evs1 ++ evs0), ev, e. rewrite app_assoc.
    repeat split; try done. apply Forall_app. by split.
Qed.

Lemma stepped_trans o k1 k2 k3 :
  stepped W C None k1 k2 -> stepped W C o k2 k3 -> stepped W C o k1 k3.
Proof.
  intros [G1 (n1 & F1) X1 (evs1 & L1 & D1)] [G2 (n2 & F2) X2 (evs2 & L2 & D2)].
  split.
  - intros n Hn. rewrite G2, G1; done.
  - exists (n2 + n1)%nat. rewrite F2, F1, replicate_add. by rewrite app_assoc.
  - congruence.
  - exists (evs1 ++ evs2). split.
    + rewrite L2, L1. by rewrite app_assoc.
    + by apply disciplined_app.
Qed.

Lemma frame_ret {A} (a : A) : frame top W C (mret a).
Proof. intros k _. apply stepped_refl. Qed.

Lemma frame_raise {A} cls msg : frame top W C (@raise A cls msg).
Proof. intros k _. apply stepped_refl. Qed.

Lemma frame_bind {A B} (m : Py A) (f : A -> Py B) :
  frame top W C m -> (forall a, frame top W C (f a)) -> frame top W C (m ≫= f).
Proof.
  intros Hm Hf k Hk. specialize (Hm k Hk).
  unfold mbind, Py_bind. destruct (m k) as [a k' | e k']; simpl in *.
  - eapply stepped_trans; [exact Hm | apply Hf].
    by rewrite (st_model_stack _ _ _ _ _ Hm).
  - exact Hm.
Qed.

Lemma frame_lookup_name n : frame top W C (lookup_name n).
Proof.
  intros k _. unfold lookup_name. destruct (globals k !! n); apply stepped_refl.
Qed.

Lemma frame_assign n v : W n = true -> frame top W C (assign n v).
Proof.
  intros Hn k _. unfold assign. simpl. split; simpl; try reflexivity.
  - intros n' Hn'. apply lookup_insert_ne. intros ->. congruence.
  - by exists 0%nat.
  - exists []. split; [by rewrite app_nil_r | apply disciplined_nil].
Qed.

Lemma frame_simplefilter : frame top W C (simplefilter "ignore").
Proof.
  intros k _. unfold simplefilter. simpl. split; simpl; try reflexivity.
  - intros n _. reflexivity.
  - by exists 1%nat.
  - exists []. split; [by rewrite app_nil_r | apply disciplined_nil].
Qed.

Lemma frame_extern (w : World) {T} (c : libE T) :
  C T c = true -> frame top W C (extern w c).
Proof.
  intros Hc k _. unfold extern.
  destruct (w T (log k) c) as [e | v]; simpl; split; simpl; try reflexivity;
    try (intros n _; reflexivity); try (by exists 0%nat).
  - eexists. split; [reflexivity |]. right.
    exists [], (Event T c (inl e)), e. repeat split; try done.
  - eexists. split; [reflexivity |]. left. repeat constructor. exact Hc.
Qed.

Lemma frame_or_raise {A} (o : option A) cls msg :
  frame top W C (or_raise o cls msg).
Proof. destruct o; [apply frame_ret | apply frame_raise]. Qed.

Lemma frame_unpack2 {A} (xs : list A) : frame top W C (unpack2 xs).
Proof.
  destruct xs as [| a [| b [| c xs]]]; simpl;
    first [apply frame_ret | apply frame_raise].
Qed.

Lemma frame_unpack3 {A} (xs : list A) : frame top W C (unpack3 xs).
Proof.
  destruct xs as [| a [| b [| c [| d xs]]]]; simpl;
    first [apply frame_ret | apply frame_raise].
Qed.

Lemma frame_for_each {A} (xs : list A) (body : A -> Py unit) :
  (forall x, frame top W C (body x)) -> frame top W C (for_each xs body).
Proof.
  intros Hb. induction xs as [| x xs IH]; simpl.
  - apply frame_ret.
  - apply frame_bind; [apply Hb | intros _; exact IH].
Qed.

Lemma frame_exec (stmts : list (Py unit)) :
  Forall (frame top W C) stmts -> frame top W C (exec stmts).
Proof.
  induction 1 as [| s stmts Hs _ IH]; simpl.
  - apply frame_ret.
  - apply frame_bind; [exact Hs | intros _; exact IH].
Qed.

(** The model in context is the one the frame knows. *)
Lemma frame_current_model {A} (f : string -> Py A) :
  (forall name, top = Some name -> frame top W C (f name)) ->
  frame top W C (current_model ≫= f).
Proof.
  intros Hf k Hk. unfold mbind, Py_bind, current_model.
  destruct (model_stack k) as [| name c] eqn:Hc; simpl.
  - apply stepped_refl.
  - apply Hf; [by rewrite <- Hk | by rewrite Hc].
Qed.

End Frame.

Lemma frame_with_model top W C {A} name (body : Py A) :
  frame (Some name) W C body -> frame top W C (with_model name body).
Proof.
  intros Hb k _. unfold with_model.
  assert (Hf : frame (Some name) W C (_ ← get_model name; body)).
  { apply frame_bind; [| intros _; exact Hb].
    unfold get_model. apply frame_bind; [apply frame_lookup_name |].
    intros []; first [apply frame_ret | apply frame_raise]. }
  specialize (Hf (set_model_stack (name :: model_stack k) k) eq_refl).
  destruct ((_ ← get_model name; body) (set_model_stack (name :: model_stack k) k))
    as [a k' | e k']; simpl in *;
    destruct Hf as [G F X L]; simpl in *;
    (split; simpl; [exact G | exact F | by rewrite X | exact L]).
Qed.


Ltac head_of t :=
  lazymatch t with
  | ?f _ => head_of f
  | _ => t
  end.

Ltac split_Forall :=
  repeat lazymatch goal with
         | |- Forall _ (_ :: _) => apply List.Forall_cons
         | |- Forall _ [] => apply List.Forall_nil
         end.

(** Going through a statement by its shape. *)
Ltac frame_step :=
  lazymatch goal with
  | |- frame _ _ _ (mret _) => apply frame_ret
  | |- frame _ _ _ (raise _ _) => apply frame_raise
  | |- frame _ _ _ (current_model ≫= _) =>
      apply frame_current_model; intros ? [= <-]
  | |- frame _ _ _ (_ ≫= _) => apply frame_bind; [| intros ?]
  | |- frame _ _ _ (lookup_name _) => apply frame_lookup_name
  | |- frame _ _ _ (assign _ _) => apply frame_assign; reflexivity
  | |- frame _ _ _ (simplefilter _) => apply frame_simplefilter
  | |- frame _ _ _ (extern _ _) => apply frame_extern; reflexivity
  | |- frame _ _ _ (or_raise _ _ _) => apply frame_or_raise
  | |- frame _ _ _ (unpack2 _) => apply frame_unpack2
  | |- frame _ _ _ (unpack3 _) => apply frame_unpack3
  | |- frame _ _ _ (for_each _ _) => apply frame_for_each; intros ?
  | |- frame _ _ _ (exec _) => apply frame_exec; split_Forall
  | |- frame _ _ _ (with_model _ _) => apply frame_with_model
  | |- frame _ _ _ (match ?v with _ => _ end) => destruct v
  | |- frame _ _ _ ?m => let h := head_of m in unfold h
  end.

Ltac frame_auto := repeat frame_step.

Lemma salmon_within_footprint w :
  within_footprint (salmon_cells w) salmon_footprint.
Proof.
  unfold within_footprint, salmon_cells, salmon_footprint.
  repeat (constructor; [intros top; cbn [fst snd] |]).
  all: try lazymatch goal with |- Forall2 _ [] [] => constructor end.
  all: try lazymatch goal with
           | |- Forall _ [] => idtac
           | |- Forall _ ?c => let h := head_of c in unfold h
           end.
  all: split_Forall.
  all: frame_auto.
Qed.

Lemma disasters_within_footprint w :
  within_footprint (disasters_cells w) disasters_footprint.
Proof.
  unfold within_footprint, disasters_cells, disasters_footprint.
  repeat (constructor; [intros top; cbn [fst snd] |]).
  all: try lazymatch goal with |- Forall2 _ [] [] => constructor end.
  all: try lazymatch goal with
           | |- Forall _ [] => idtac
           | |- Forall _ ?c => let h := head_of c in unfold h
           end.
  all: split_Forall.
  all: frame_auto.
Qed.

(** ** numpy *)

Lemma arange_length start stop :
  length (np.arange start stop) = Z.to_nat (stop - start).
Proof. unfold np.arange. by rewrite length_map, length_seq. Qed.

Lemma arange_In start stop y :
  In y (np.arange start stop) <-> (start <= y < stop)%Z.
Proof.
  unfold np.arange. rewrite in_map_iff. split.
  - intros (i & <- & Hi). apply in_seq in Hi. lia.
  - intros Hy. exists (Z.to_nat (y - start)). split; [lia |].
    apply in_seq. lia.
Qed.

Lemma arange_lookup start stop (i : nat) :
  (i < Z.to_nat (stop - start))%nat ->
  np.arange start stop !! i = Some (start + Z.of_nat i)%Z.
Proof.
  intros Hi. unfold np.arange. rewrite list_lookup_fmap.
  rewrite lookup_seq_lt by done. done.
Qed.

Lemma year_consecutive : year = map Z.of_nat (seq 1851 111).
Proof. reflexivity. Qed.

Lemma year_min : np.min year = Some 1851%Z.
Proof. reflexivity. Qed.

(** ** pandas *)


Lemma truediv_nonzero a b : b <> 0%R -> pd.truediv a b = pd.Fin (a / b).
Proof. intros Hb. unfold pd.truediv. by destruct (Req_dec_T b 0). Qed.


Lemma series_truediv_nonzero (a b : pd.Series) :
  Forall (fun v => v <> 0%R) b ->
  pd.series_truediv a b = map pd.Fin (zip_with Rdiv a b).
Proof.
  intros Hb. revert a. induction Hb as [| y b Hy _ IH]; intros [| x a];
    simpl; try done.
  by rewrite truediv_nonzero, IH.
Qed.

(** The sum of a list of numbers, as [fold_left] computes it. *)
Lemma fold_fadd_Fin (qs : list R) (acc : R) :
  fold_left pd.fadd (map pd.Fin qs) (pd.Fin acc) =
  pd.Fin (fold_left Rplus qs acc).
Proof.
  revert acc. induction qs as [| q qs IH]; intros acc; simpl; [done |].
  apply IH.
Qed.

Lemma mean_Fin (qs : list R) :
  qs <> [] ->
  pd.mean (map pd.Fin qs) =
  pd.Fin (fold_left Rplus qs 0%R / INR (length qs)).
Proof.
  intros Hqs. unfold pd.mean.
  assert (Hf : List.filter (fun x => negb (pd.isna x)) (map pd.Fin qs)
               = map pd.Fin qs).
  { clear Hqs. induction qs as [| q qs IH]; simpl; [done | by rewrite IH]. }
  rewrite Hf. destruct qs as [| q qs]; [done |].
  change (map pd.Fin (q :: qs)) with (pd.Fin q :: map pd.Fin qs) at 1.
  cbv beta iota. rewrite fold_fadd_Fin, length_map. done.
Qed.

Lemma column_length index cols name s :
  pd.rectangular index cols = true ->
  pd.column cols name = Some s ->
  length s = length index.
Proof.
  unfold pd.rectangular. induction cols as [| [n c] cols IH]; simpl;
    [done |].
  intros [H1 H2]%andb_true_iff. destruct (String.eqb n name).
  - intros [= <-]. by apply Nat.eqb_eq.
  - by apply IH.
Qed.

Lemma select_two cols a b x y :
  pd.select cols [a; b] = Some [x; y] <->
  pd.column cols a = Some x /\ pd.column cols b = Some y.
Proof.
  simpl. destruct (pd.column cols a), (pd.column cols b); split;
    try (intros [= -> ->]; done); try (intros [[= ->] [= ->]]; done);
    try (intros [? ?]; discriminate); try discriminate.
Qed.

(** ** Values of expressions *)

Lemma broadcast_scalar_l op x b : pm.broadcast op [x] b = Some (map (op x) b).
Proof. done. Qed.

Lemma broadcast_same op (a b : list R) :
  length a = length b -> pm.broadcast op a b = Some (zip_with op a b).
Proof.
  intros Hl. unfold pm.broadcast.
  destruct a as [| x [| x' a]], b as [| y [| y' b]]; simpl in *;
    try discriminate; try done.
  injection Hl as Hl. by rewrite Hl, Nat.eqb_refl.
Qed.

Lemma zip_with_map_same {A B C D} (f : B -> C -> D) (g : A -> B) (h : A -> C)
    (l : list A) :
  zip_with f (map g l) (map h l) = map (fun x => f (g x) (h x)) l.
Proof. induction l as [| x l IH]; simpl; [done | by rewrite IH]. Qed.

(** ** Runs and their prefixes *)

Lemma take_plus {A} (l : list A) (n m : nat) :
  take (n + m) l = take n l ++ take m (drop n l).
Proof.
  revert l. induction n as [| n IH]; intros [| x l]; simpl; try done.
  - by destruct m.
  - by rewrite IH.
Qed.

Lemma exec_app (l1 l2 : list (Py unit)) k :
  exec (l1 ++ l2) k = match exec l1 k with
                      | Ok _ k' => exec l2 k'
                      | Raise e k' => Raise e k'
                      end.
Proof.
  revert k. induction l1 as [| s l1 IH]; intros k; simpl; [done |].
  unfold mbind, Py_bind. destruct (s k) as [[] k' | e k']; [apply IH | done].
Qed.

Lemma exec_app_Ok (l1 l2 : list (Py unit)) k k'' :
  exec (l1 ++ l2) k = Ok tt k'' ->
  exists k', exec l1 k = Ok tt k' /\ exec l2 k' = Ok tt k''.
Proof.
  rewrite exec_app. destruct (exec l1 k) as [[] k' | e k']; [| done].
  intros H. by exists k'.
Qed.

Lemma is_ok_Ok {A} (r : result A) :
  is_ok r = true -> exists a, r = Ok a (kernel_of r).
Proof. destruct r as [a k | e k]; [by exists a | done]. Qed.

Lemma frame_exec_take top W C (stmts : list (Py unit)) n :
  Forall (frame top W C) stmts -> frame top W C (exec (take n stmts)).
Proof. intros H. apply frame_exec. by apply Forall_take. Qed.

(** ** What a frame says about the state *)

Lemma stepped_lookup W C o k k' n :
  stepped W C o k k' -> W n = false -> globals k' !! n = globals k !! n.
Proof. intros [G _ _ _] Hn. by apply G. Qed.

Lemma disciplined_allowed C evs o :
  disciplined C evs o -> Forall (fun ev => ev_allowed C ev = true) evs.
Proof.
  intros [D | (evs0 & ev & e & _ & -> & D & Hc & _)].
  - eapply Forall_impl; [exact D |]. by intros ev [? _].
  - apply Forall_app. split; [| by repeat constructor].
    eapply Forall_impl; [exact D |]. by intros ? [? _].
Qed.

Lemma allowed_no_file_input ks ev :
  existsb (kind_eqb KFileInput) ks = false ->
  ev_allowed (of_kinds ks) ev = true ->
  file_input ev = None.
Proof.
  intros Hks. unfold ev_allowed, of_kinds, file_input.
  destruct ev as [T c a]; simpl. destruct c; simpl; try done.
  by rewrite Hks.
Qed.

Lemma allowed_setup ev :
  ev_allowed (of_kinds [KSetup]) ev = true -> is_setup ev = true.
Proof.
  unfold ev_allowed, of_kinds, is_setup. destruct ev as [T c a]; simpl.
  by destruct c.
Qed.

Lemma file_inputs_none evs :
  Forall (fun ev => file_input ev = None) evs -> file_inputs evs = [].
Proof.
  unfold file_inputs. induction 1 as [| ev evs H _ IH]; simpl; [done |].
  by rewrite H.
Qed.

Lemma stepped_file_inputs W ks o k k' :
  existsb (kind_eqb KFileInput) ks = false ->
  stepped W (of_kinds ks) o k k' ->
  file_inputs (log k') = file_inputs (log k).
Proof.
  intros Hks [_ _ _ (evs & -> & D)]. unfold file_inputs.
  rewrite omap_app. fold (file_inputs evs).
  rewrite (file_inputs_none evs); [by rewrite app_nil_r |].
  eapply Forall_impl; [by eapply disciplined_allowed |].
  intros ev. by apply allowed_no_file_input.
Qed.

Lemma stepped_setup W o k k' :
  stepped W (of_kinds [KSetup]) o k k' ->
  Forall (fun ev => is_setup ev = true) (log k) ->
  Forall (fun ev => is_setup ev = true) (log k').
Proof.
  intros [_ _ _ (evs & -> & D)] Hk. apply Forall_app. split; [done |].
  eapply Forall_impl; [by eapply disciplined_allowed |].
  intros ev. apply allowed_setup.
Qed.





(** ** The statements of the notebooks *)

Section Statements.

Variable w : World.

Ltac frames :=
  cbv [concat app drop take firstn skipn salmon_cells disasters_cells
       salmon_imports salmon_load salmon_normal_prior salmon_half_normal_prior
       salmon_extract linear_salmon_model linear_salmon_sample
       linear_salmon_plot_trace linear_salmon_lines quad_salmon_model
       quad_salmon_sample quad_salmon_lines gp_salmon_model gp_salmon_sample
       gp_salmon_plot_trace gp_salmon_predict_3 gp_salmon_plot_3
       gp_salmon_predict_100 gp_salmon_plot_dist gp_salmon_predict_noise
       disasters_imports disasters_define disasters_bar disasters_model
       disasters_prior disasters_likelihood disasters_sample
       disasters_plot_posterior disasters_years disasters_predict
       disasters_plot_rate];
  split_Forall; frame_auto.

Lemma salmon_statements top :
  Forall (frame top everything any_call) (concat (salmon_cells w)).
Proof. frames. Qed.

Lemma disasters_statements top :
  Forall (frame top everything no_file_input) (concat (disasters_cells w)).
Proof. frames. Qed.

Lemma salmon_setup_statements top :
  Forall (frame top (protect ["salmon_data"]) (of_kinds [KSetup]))
    (take 8 (concat (salmon_cells w))).
Proof. frames. Qed.

Lemma salmon_later_statements top :
  Forall (frame top (protect ["salmon_data"]) no_file_input)
    (drop 9 (concat (salmon_cells w))).
Proof. frames. Qed.



End Statements.

(** ** Runs of the notebooks up to the statement that loads the data *)

Section Runs.

Variable w : World.
Variable startup : list wfilter.

(** The run of a prefix, cut where a frame lemma starts. *)
Lemma state_after_plus cells n m :
  state_after (n + m) cells startup =
  match run_upto n cells startup with
  | Ok _ k => kernel_of (exec (take m (drop n (concat cells))) k)
  | Raise _ k => k
  end.
Proof.
  unfold state_after, run_upto. rewrite take_plus, exec_app.
  by destruct (exec (take n (concat cells)) (fresh startup)).
Qed.

Lemma run_upto_stepped cells n W C :
  Forall (frame None W C) (take n (concat cells)) ->
  forall m,
    stepped W C (raised (run_upto (Nat.min m n) cells startup)) (fresh startup)
      (state_after (Nat.min m n) cells startup).
Proof.
  intros H m. unfold state_after, run_upto.
  rewrite <- take_take. by apply (frame_exec_take None W C _ m H).
Qed.

Lemma run_upto_all_stepped cells W C :
  Forall (frame None W C) (concat cells) ->
  forall n,
    stepped W C (raised (run_upto n cells startup)) (fresh startup)
      (state_after n cells startup).
Proof.
  intros H n. unfold state_after, run_upto.
  by apply (frame_exec_take None W C _ n H).
Qed.

Lemma later_stepped cells n W C k :
  (forall top, Forall (frame top W C) (drop n (concat cells))) ->
  forall m,
    let r := exec (take m (drop n (concat cells))) k in
    stepped W C (raised r) k (kernel_of r).
Proof.
  intros H m.
  by apply (frame_exec_take (head (model_stack k)) W C _ m (H _)).
Qed.

(** The ninth statement of the salmon notebook reads the file. *)
Lemma salmon_read_statement k :
  let r := exec (take 1 (drop 8 (concat (salmon_cells w)))) k in
  file_inputs (log (kernel_of r)) = file_inputs (log k) ++ [salmon_read] /\
  (forall n, n <> "salmon_data" -> globals (kernel_of r) !! n = globals k !! n) /\
  filters (kernel_of r) = filters k /\
  model_stack (kernel_of r) = model_stack k /\
  (exists ev, log (kernel_of r) = log k ++ [ev] /\
              file_input ev = Some salmon_read) /\
  (is_ok r = true ->
   exists df, globals (kernel_of r) !! "salmon_data" = Some (VFrame df) /\
              frames_read (log (kernel_of r)) = frames_read (log k) ++ [df]).
Proof.
  cbv [concat app drop take firstn skipn salmon_cells salmon_imports
       salmon_load exec].
  unfold mbind, mret, Py_bind, Py_ret, extern, assign.
  destruct (w _ (log k) _) as [e | df]; cbn [kernel_of log globals filters
    model_stack set_log set_globals is_ok].
  - repeat split; try done.
    + unfold file_inputs. by rewrite omap_app.
    + by eexists.
  - repeat split; try done.
    + unfold file_inputs. by rewrite omap_app.
    + intros n Hn. by rewrite lookup_insert_ne.
    + by eexists.
    + intros _. exists df. split; [by rewrite lookup_insert_eq |].
      unfold frames_read. by rewrite omap_app.
Qed.

Lemma salmon_state_after_9 m :
  state_after (9 + m) (salmon_cells w) startup =
  match run_upto 8 (salmon_cells w) startup with
  | Raise _ k => k
  | Ok _ k8 =>
      match exec (take 1 (drop 8 (concat (salmon_cells w)))) k8 with
      | Raise _ k9 => k9
      | Ok _ k9 => kernel_of (exec (take m (drop 9 (concat (salmon_cells w)))) k9)
      end
  end.
Proof.
  change (9 + m)%nat with (8 + (1 + m))%nat. rewrite state_after_plus.
  destruct (run_upto 8 (salmon_cells w) startup) as [[] k8 | e k8]; [| done].
  rewrite take_plus, exec_app, drop_drop.
  by destruct (exec (take 1 (drop 8 (concat (salmon_cells w)))) k8).
Qed.


(** Before the read: only the session is set up. *)
Lemma salmon_before_read n :
  let k := state_after (Nat.min n 8) (salmon_cells w) startup in
  globals k !! "salmon_data" = None /\
  file_inputs (log k) = [] /\
  Forall (fun ev => is_setup ev = true) (log k).
Proof.
  intros k.
  pose proof (run_upto_stepped (salmon_cells w) 8 _ _
                (salmon_setup_statements w None) n) as H.
  fold k in H. repeat split.
  - by rewrite (stepped_lookup _ _ _ _ _ "salmon_data" H).
  - by rewrite (stepped_file_inputs _ [KSetup] _ _ _ eq_refl H).
  - by eapply stepped_setup.
Qed.

(** After the read. *)
Lemma salmon_after_read m k8 :
  run_upto 8 (salmon_cells w) startup = Ok tt k8 ->
  let k9 := kernel_of (exec (take 1 (drop 8 (concat (salmon_cells w)))) k8) in
  let k := state_after (9 + m) (salmon_cells w) startup in
  globals k !! "salmon_data" = globals k9 !! "salmon_data" /\
  file_inputs (log k) = [salmon_read] /\
  exists ev rest, log k = log k8 ++ ev :: rest /\
                  file_input ev = Some salmon_read /\
                  file_inputs rest = [].
Proof.
  intros H8 k9 k. subst k. rewrite salmon_state_after_9, H8.
  pose proof (salmon_read_statement k8) as (Hf & _ & _ & _ & (ev & Hl & Hev) & _).
  pose proof (salmon_before_read 8) as (_ & Hf8 & _).
  unfold state_after in Hf8. change (Nat.min 8 8) with 8%nat in Hf8.
  rewrite H8 in Hf8. cbn [kernel_of] in Hf8.
  fold k9 in Hf, Hl.
  destruct (exec (take 1 (drop 8 (concat (salmon_cells w)))) k8)
    as [[] k9' | e k9'] eqn:E9; cbn [kernel_of] in *; subst k9.
  - pose proof (later_stepped (salmon_cells w) 9 _ _ k9'
                  (salmon_later_statements w) m) as H.
    cbv zeta in H. repeat split.
    + by rewrite (stepped_lookup _ _ _ _ _ "salmon_data" H).
    + rewrite (stepped_file_inputs _ [KSetup; KSampling; KPredict; KPlot] _ _ _ eq_refl H), Hf, Hf8. done.
    + destruct H as [_ _ _ (evs & L & D)]. exists ev, evs.
      rewrite L, Hl, <- app_assoc. repeat split; [done |].
      apply file_inputs_none.
      eapply Forall_impl; [by eapply disciplined_allowed |].
      intros ev'. by apply (allowed_no_file_input [KSetup; KSampling; KPredict; KPlot]).
  - repeat split; [by rewrite Hf, Hf8 |].
    exists ev, []. by rewrite Hl.
Qed.

End Runs.

Lemma file_input_frame_read ev :
  file_input ev = None -> frame_read ev = None.
Proof. destruct ev as [T c a]. by destruct c. Qed.

Lemma frames_read_none evs :
  file_inputs evs = [] -> frames_read evs = [].
Proof.
  unfold file_inputs, frames_read.
  induction evs as [| ev evs IH]; simpl; [done |].
  destruct (file_input ev) eqn:E; [done |].
  intros H. rewrite (file_input_frame_read _ E). by apply IH.
Qed.

Lemma file_inputs_app_cons pre ev post :
  file_inputs (pre ++ ev :: post) = [] -> file_input ev = None.
Proof.
  unfold file_inputs. rewrite omap_app. simpl.
  destruct (file_input ev); [| done].
  intros H. by apply app_eq_nil in H as [_ ?].
Qed.

Lemma file_inputs_nil_Forall l :
  file_inputs l = [] -> Forall (fun ev => file_input ev = None) l.
Proof.
  unfold file_inputs. induction l as [| ev l IH]; simpl; [constructor |].
  destruct (file_input ev) eqn:E; [done |]. intros H. constructor; auto.
Qed.

(** The place of the one element of a list that satisfies [P]. *)
Lemma app_cons_unique {A} (P : A -> Prop) (l1 l2 l3 l4 : list A) (x y : A) :
  l1 ++ x :: l2 = l3 ++ y :: l4 ->
  P x -> Forall (fun a => ~ P a) l3 -> Forall (fun a => ~ P a) l4 ->
  l1 = l3.
Proof.
  revert l3. induction l1 as [| a l1 IH]; intros [| b l3]; simpl.
  - done.
  - intros [= -> _] Hx H3 _. by apply Forall_cons in H3 as [? _].
  - intros [= -> H] Hx _ H4. exfalso.
    assert (Hin : x ∈ l4) by (rewrite <- H; set_solver).
    by eapply Forall_forall in H4; [| exact Hin].
  - intros [= -> H] Hx H3 H4. apply Forall_cons in H3 as [_ H3].
    f_equal. by eapply IH.
Qed.

(** ** The inputs, the warnings and the errors *)

Section Inputs_and_errors.

Variable w : World.
Variable startup : list wfilter.


Lemma disasters_no_file_input (n : nat) :
  file_inputs (log (state_after n (disasters_cells w) startup)) = [].
Proof.
  pose proof (run_upto_all_stepped startup (disasters_cells w) _ _
                (disasters_statements w None) n) as H.
  by rewrite (stepped_file_inputs _ [KSetup; KSampling; KPredict; KPlot]
                _ _ _ eq_refl H).
Qed.

Lemma salmon_file_input (n : nat) :
  let l := log (state_after n (salmon_cells w) startup) in
  file_inputs l =
    (if (9 <=? n)%nat && is_ok (run_upto 8 (salmon_cells w) startup)
     then [salmon_read] else []) /\
  (forall pre ev post,
     l = pre ++ ev :: post -> file_input ev <> None ->
     Forall (fun e => is_setup e = true) pre).
Proof.
  intros l. subst l.
  pose proof (salmon_before_read w startup 8) as (_ & Hf8 & Hs8).
  unfold state_after in Hf8, Hs8. change (Nat.min 8 8) with 8%nat in *.
  destruct (Nat.leb_spec 9 n) as [Hn | Hn].
  - replace n with (9 + (n - 9))%nat by lia. set (m := (n - 9)%nat).
    destruct (run_upto 8 (salmon_cells w) startup) as [[] k8 | e k8] eqn:E8;
      cbn [kernel_of] in Hf8, Hs8; cbn [is_ok andb].
    + pose proof (salmon_after_read w startup m k8 E8)
        as (_ & Hf & ev0 & rest & Hl & Hev0 & Hrest).
      split; [exact Hf |].
      intros pre ev post Hpre Hev. rewrite Hl in Hpre.
      symmetry in Hpre.
      rewrite (app_cons_unique (fun e => file_input e <> None)
                 _ _ _ _ _ _ Hpre Hev); [done | |].
      * eapply Forall_impl; [by apply file_inputs_nil_Forall |].
        intros e' He' Hne. done.
      * eapply Forall_impl; [by apply file_inputs_nil_Forall |].
        intros e' He' Hne. done.
    + rewrite salmon_state_after_9, E8.
      split; [exact Hf8 |].
      intros pre ev post Hpre Hev. rewrite Hpre in Hf8.
      by apply file_inputs_app_cons in Hf8.
  - assert (Hm : n = Nat.min n 8) by lia.
    pose proof (salmon_before_read w startup n) as (_ & Hf & _).
    cbv zeta in Hf. rewrite <- Hm in Hf. cbn [andb].
    split; [exact Hf |].
    intros pre ev post Hpre Hev. rewrite Hpre in Hf.
    by apply file_inputs_app_cons in Hf.
Qed.












End Inputs_and_errors.

(** ** Running a cell forward *)

(** Unfolding the statements down to lookups, bindings and calls. *)
Ltac py_unfold H :=
  repeat progress unfold with_new_model, with_model, declare, deterministic, register,
    marginal_likelihood, conditional, prior, sample_posterior_predictive,
    model_in_context, current_model, scatter_salmon, import_as,
    getattr_column, getitem_values_T, trace_getitem, samples_getitem,
    first_item, last_item, array_min, array_max,
    get_frame, get_float, get_F1, get_I1, get_I2, get_dist, get_model,
    get_tensor, get_mean, get_cov, get_gp, get_trace, get_samples, get_axes,
    or_raise, unpack2, unpack3, raise, lookup_name, assign, simplefilter,
    extern in H.

Ltac py_simpl H :=
  repeat progress
    (unfold mbind, mret, Py_bind, Py_ret, set_globals, set_filters,
       set_model_stack, set_log, fresh in H;
     cbn [exec globals filters model_stack log tail fst snd app
          pm.given pm.kind pm.mean_func pm.cov_func] in H).

Ltac py_lookups H :=
  repeat first
    [ rewrite lookup_insert_eq in H
    | rewrite lookup_insert_ne in H by done
    | rewrite lookup_empty in H
    | match goal with
      | A : agree _ _ (globals ?k) |- _ =>
          match type of H with
          | context [globals k !! ?n] => rewrite (A n eq_refl) in H
          end
      | E : globals ?k !! ?n = _ |- _ =>
          match type of H with
          | context [globals k !! n] => rewrite E in H
          end
      | E : model_stack ?k = _ |- _ =>
          match type of H with
          | context [model_stack k] => rewrite E in H
          end
      | E : filters ?k = _ |- _ =>
          match type of H with
          | context [filters k] => rewrite E in H
          end
      | E : log ?k = _ |- _ =>
          match type of H with
          | context [log k] => rewrite E in H
          end
      end ].

(** A loop of the notebooks binds its loop variables and plots. *)
Lemma stepped_Ok W C k k' :
  stepped W C None k k' ->
  agree W (globals k) (globals k') /\
  (exists n, filters k' = replicate n (WFilter "ignore" "Warning") ++ filters k) /\
  model_stack k' = model_stack k /\
  exists evs, log k' = log k ++ evs /\
              Forall (fun ev => ev_allowed C ev = true /\ answered ev = true) evs.
Proof.
  intros [G F X (evs & L & D)]. repeat split; try done.
  exists evs. split; [done |].
  destruct D as [D | (? & ? & ? & ? & _)]; [done | discriminate].
Qed.

Ltac loop_writes body :=
  lazymatch body with
  | linear_salmon_line _ => constr:(["b0"; "b1"])
  | quad_salmon_line _ => constr:(["b0"; "b1"; "b2"])
  | gp_salmon_line _ => constr:(["x"])
  end.

Ltac py_loop H xs body K :=
  let ws := loop_writes body in
  let Hf := fresh "Hloop" in
  assert (Hf : frame (head (model_stack K)) (writes ws)
                 (of_kinds [KPlot]) (for_each xs body))
    by (apply frame_for_each; intros ?; frame_auto);
  specialize (Hf K eq_refl);
  let k' := fresh "k" in
  let e := fresh "e" in
  destruct (for_each xs body K) as [[] k' | e k']; [| discriminate H];
  apply stepped_Ok in Hf;
  let A := fresh "A" in
  let F := fresh "F" in
  let X := fresh "X" in
  let evs := fresh "evs" in
  let L := fresh "L" in
  let D := fresh "D" in
  let n := fresh "n" in
  destruct Hf as (A & (n & F) & X & evs & L & D);
  cbn [raised kernel_of globals filters model_stack log] in A, F, X, L.

Ltac py_case H :=
  match type of H with
  | context [match ?x with _ => _ end] =>
      lazymatch x with
      | context [match _ with _ => _ end] => fail
      | _ => idtac
      end;
      first
        [ match goal with E : x = _ |- _ => rewrite E in H end
        | lazymatch x with
          | for_each ?xs ?body ?K => py_loop H xs body K
          | _ !! _ => destruct x eqn:?
          | _ =>
              lazymatch type of x with
              | sum exn _ => destruct x
              | _ => destruct x eqn:?
              end
          end; try discriminate H ]
  end.

Ltac py_run H :=
  py_unfold H;
  py_simpl H;
  repeat (first [progress py_lookups H | py_case H]; py_simpl H).

Ltac py_done H := injection H as <-; subst.

(** A lookup in a state that the statements have built. *)
Ltac py_get :=
  cbn [globals];
  repeat first [ rewrite lookup_insert_eq
               | rewrite lookup_insert_ne by done ];
  try done.


Lemma cell_step cell ws ks k k' :
  (forall top, Forall (frame top (writes ws) (of_kinds ks)) cell) ->
  exec cell k = Ok tt k' ->
  agree (writes ws) (globals k) (globals k') /\
  (existsb (kind_eqb KFileInput) ks = false ->
   frames_read (log k') = frames_read (log k)).
Proof.
  intros Hf H.
  pose proof (frame_exec _ _ _ _ (Hf (head (model_stack k))) k eq_refl) as Hs.
  rewrite H in Hs. cbn [raised kernel_of] in Hs. split.
  - by destruct Hs.
  - intros Hks. unfold frames_read. destruct Hs as [_ _ _ (evs & -> & D)].
    rewrite omap_app. fold (frames_read evs).
    rewrite (frames_read_none evs); [by rewrite app_nil_r |].
    apply file_inputs_none.
    eapply Forall_impl; [by eapply disciplined_allowed |].
    intros ev. by apply allowed_no_file_input.
Qed.

Ltac carry A E :=
  lazymatch type of E with
  | globals _ !! ?n = _ =>
      let E' := fresh E in
      pose proof (eq_trans (A n eq_refl) E) as E'
  end.

Ltac split_cells H :=
  repeat (let k := fresh "k" in
          let Hc := fresh "Hcell" in
          apply exec_app_Ok in H as (k & Hc & H)).

(** ** What each cell builds *)

Section Specs.
Variable w : World.

Lemma salmon_load_spec k k' :
  exec (salmon_load w) k = Ok tt k' ->
  exists df, globals k' !! "salmon_data" = Some (VFrame df) /\
             frames_read (log k') = frames_read (log k) ++ [df].
Proof.
  intros H. unfold salmon_load in H. py_run H. py_done H.
  eexists. cbn [globals log]. split; [by rewrite lookup_insert_eq |].
  unfold frames_read. rewrite !omap_app. cbn. by rewrite app_nil_r.
Qed.

Lemma salmon_extract_spec k k' df :
  globals k !! "salmon_data" = Some (VFrame df) ->
  exec salmon_extract k = Ok tt k' ->
  exists x y, spawners df = Some x /\ recruits df = Some y /\
    globals k' !! "x" = Some (VArray (np.F1 x)) /\
    globals k' !! "y" = Some (VArray (np.F1 y)).
Proof.
  intros E H. unfold salmon_extract in H. py_run H. py_done H.
  apply select_two in Heqo as [Hx Hy].
  eexists _, _. cbn [globals]. repeat split; try done.
  - by rewrite lookup_insert_ne, lookup_insert_eq.
  - by rewrite lookup_insert_eq.
Qed.

Lemma linear_salmon_model_spec k k' x y :
  globals k !! "x" = Some (VArray (np.F1 x)) ->
  globals k !! "y" = Some (VArray (np.F1 y)) ->
  exec linear_salmon_model k = Ok tt k' ->
  globals k' !! "linear_salmon_model"
    = Some (VModel (regression_model 2 (linear_mu x) y)).
Proof.
  intros Ex Ey H. unfold linear_salmon_model in H. py_run H. py_done H.
  py_get.
Qed.

Lemma quad_salmon_model_spec k k' x y :
  globals k !! "x" = Some (VArray (np.F1 x)) ->
  globals k !! "y" = Some (VArray (np.F1 y)) ->
  exec quad_salmon_model k = Ok tt k' ->
  globals k' !! "quad_salmon_model"
    = Some (VModel (regression_model 3 (quad_mu x) y)).
Proof.
  intros Ex Ey H. unfold quad_salmon_model in H. py_run H. py_done H.
  py_get.
Qed.

Lemma gp_salmon_model_spec k k' df :
  globals k !! "salmon_data" = Some (VFrame df) ->
  exec gp_salmon_model k = Ok tt k' ->
  exists r s, recruits df = Some r /\ spawners df = Some s /\
    globals k' !! "gp_salmon_model" = Some (VModel (gp_salmon_nodes r s)) /\
    globals k' !! "recruit_gp" = Some (VGP (recruit_gp r s)) /\
    globals k' !! "M" = Some (VMean (gp_salmon_mean r s)).
Proof.
  intros E H. unfold gp_salmon_model in H. py_run H. py_done H.
  exists s, s0. cbn [globals]. repeat split; try done; py_get.
Qed.

Lemma linear_salmon_lines_spec k k' :
  exec (linear_salmon_lines w) k = Ok tt k' ->
  globals k' !! "X_pred" = Some (VArray (np.F1 (np.linspace 0 500 100))).
Proof.
  intros H. unfold linear_salmon_lines in H. py_run H. py_done H.
  rewrite (A "X_pred" eq_refl). py_get.
Qed.

Lemma gp_salmon_predict_3_spec k k' m r s X_pred :
  globals k !! "gp_salmon_model" = Some (VModel m) ->
  globals k !! "recruit_gp" = Some (VGP (recruit_gp r s)) ->
  globals k !! "X_pred" = Some (VArray (np.F1 X_pred)) ->
  exec (gp_salmon_predict_3 w) k = Ok tt k' ->
  globals k' !! "gp_salmon_model"
    = Some (VModel (m ++ [conditional_node "salmon_pred" (recruit_gp r s)
                            X_pred false])).
Proof.
  intros Em Eg Ex H. unfold gp_salmon_predict_3 in H. py_run H. py_done H.
  py_get.
Qed.

Lemma gp_salmon_predict_noise_spec k k' m r s X_pred :
  globals k !! "gp_salmon_model" = Some (VModel m) ->
  globals k !! "recruit_gp" = Some (VGP (recruit_gp r s)) ->
  globals k !! "X_pred" = Some (VArray (np.F1 X_pred)) ->
  exec (gp_salmon_predict_noise w) k = Ok tt k' ->
  globals k' !! "gp_salmon_model"
    = Some (VModel (m ++ [conditional_node "salmon_pred_noise"
                            (recruit_gp r s) X_pred true])).
Proof.
  intros Em Eg Ex H. unfold gp_salmon_predict_noise in H. py_run H.
  py_done H. py_get.
Qed.

Lemma disasters_define_spec k k' :
  exec disasters_define k = Ok tt k' ->
  globals k' !! "disasters_data" = Some (VArray (np.I1 disasters_data)) /\
  globals k' !! "year" = Some (VArray (np.I1 year)) /\
  globals k' !! "year_ind" = Some (VArray (np.I2 year_ind)).
Proof.
  intros H. unfold disasters_define in H. py_run H. py_done H.
  rewrite year_min in *. simplify_eq.
  cbn [globals]. repeat split; py_get.
Qed.

Lemma disasters_model_spec k k' :
  exec disasters_model k = Ok tt k' ->
  globals k' !! "disasters_model" = Some (VModel (take 2 disasters_nodes)) /\
  globals k' !! "gp" = Some (VGP disasters_gp).
Proof.
  intros H. unfold disasters_model in H. py_run H. py_done H.
  cbn [globals]. split; py_get.
Qed.

Lemma disasters_prior_spec k k' m :
  globals k !! "disasters_model" = Some (VModel m) ->
  globals k !! "gp" = Some (VGP disasters_gp) ->
  globals k !! "year_ind" = Some (VArray (np.I2 year_ind)) ->
  exec disasters_prior k = Ok tt k' ->
  globals k' !! "disasters_model"
    = Some (VModel (m ++ [pm.FreeRV "f"
                            (pm.Prior disasters_gp (map as_floats year_ind))
                            None])) /\
  globals k' !! "f" = Some (VTensor (pm.TVar "f")).
Proof.
  intros Em Eg Ey H. unfold disasters_prior in H. py_run H. py_done H.
  cbn [globals]. split; py_get.
Qed.

Lemma disasters_likelihood_spec k k' m :
  globals k !! "disasters_model" = Some (VModel m) ->
  globals k !! "f" = Some (VTensor (pm.TVar "f")) ->
  globals k !! "disasters_data" = Some (VArray (np.I1 disasters_data)) ->
  exec disasters_likelihood k = Ok tt k' ->
  globals k' !! "disasters_model"
    = Some (VModel (m ++ [pm.Deterministic "λ" (pm.TExp (pm.TVar "f"));
                          pm.ObservedRV "confirmation"
                            (pm.Poisson (pm.TVar "λ"))
                            (as_floats disasters_data)])).
Proof.
  intros Em Ef Ed H. unfold disasters_likelihood in H. py_run H. py_done H.
  cbn [globals]. py_get. by rewrite <- app_assoc.
Qed.

End Specs.

Lemma run_cells_split n m cells startup k :
  run_cells (n + m) cells startup = Ok tt k ->
  exists k', run_cells n cells startup = Ok tt k' /\
             exec (concat (take m (drop n cells))) k' = Ok tt k.
Proof.
  unfold run_cells. rewrite take_plus, concat_app. apply exec_app_Ok.
Qed.

(** ** The notebooks, stage by stage *)

Section Chains.
Variable w : World.

(** The footprint of the [i]th cell. *)
Ltac salmon_fp i :=
  constr:(Forall2_lookup_lr _ _ _ i _ _ (salmon_within_footprint w)
            eq_refl eq_refl).
Ltac disasters_fp i :=
  constr:(Forall2_lookup_lr _ _ _ i _ _ (disasters_within_footprint w)
            eq_refl eq_refl).

Ltac step fp Hcell A L :=
  pose proof (cell_step _ _ _ _ _ fp Hcell) as [A L];
  try specialize (L eq_refl).

Lemma salmon_stage_5 startup k :
  run_cells 5 (salmon_cells w) startup = Ok tt k ->
  exists df x y, salmon_loaded k df x y /\
    globals k !! "x" = Some (VArray (np.F1 x)) /\
    globals k !! "y" = Some (VArray (np.F1 y)).
Proof.
  unfold run_cells, salmon_cells. cbn [take firstn concat].
  intros H. split_cells H. injection H as <-.
  let fp := salmon_fp 0%nat in step fp Hcell A0 L0.
  apply salmon_load_spec in Hcell0 as (df & Ed & Er).
  rewrite L0 in Er. cbn in Er.
  let fp := salmon_fp 2%nat in step fp Hcell1 A2 L2.
  let fp := salmon_fp 3%nat in step fp Hcell2 A3 L3.
  let fp := salmon_fp 4%nat in step fp Hcell3 A4 L4.
  carry A2 Ed. carry A3 Ed0.
  destruct (salmon_extract_spec _ _ _ Ed1 Hcell3) as (x & y & Hx & Hy & Ex & Ey).
  carry A4 Ed1.
  exists df, x, y. repeat split; try done; congruence.
Qed.

Lemma salmon_stage_10 startup k :
  run_cells 10 (salmon_cells w) startup = Ok tt k ->
  exists df x y, salmon_loaded k df x y /\
    globals k !! "linear_salmon_model"
      = Some (VModel (regression_model 2 (linear_mu x) y)) /\
    globals k !! "quad_salmon_model"
      = Some (VModel (regression_model 3 (quad_mu x) y)) /\
    globals k !! "X_pred" = Some (VArray (np.F1 (np.linspace 0 500 100))).
Proof.
  intros H. apply (run_cells_split 5 5) in H as (k5 & H5 & H).
  apply salmon_stage_5 in H5 as (df & x & y & [Hr Hs Hrc Ed] & Ex & Ey).
  unfold salmon_cells in H. cbn [take drop firstn skipn concat] in H.
  split_cells H. injection H as <-.
  let fp := salmon_fp 5%nat in step fp Hcell A5 L5.
  let fp := salmon_fp 6%nat in step fp Hcell0 A6 L6.
  let fp := salmon_fp 7%nat in step fp Hcell1 A7 L7.
  let fp := salmon_fp 8%nat in step fp Hcell2 A8 L8.
  let fp := salmon_fp 9%nat in step fp Hcell3 A9 L9.
  pose proof (linear_salmon_model_spec _ _ _ _ Ex Ey Hcell) as El.
  carry A6 El. carry A7 El0. carry A8 El1. carry A9 El2.
  carry A5 Ex. carry A6 Ex0. carry A7 Ex1. carry A8 Ex2.
  carry A5 Ey. carry A6 Ey0. carry A7 Ey1. carry A8 Ey2.
  pose proof (quad_salmon_model_spec _ _ _ _ Ex3 Ey3 Hcell3) as Equad.
  pose proof (linear_salmon_lines_spec w _ _ Hcell2) as EX. carry A9 EX.
  carry A5 Ed. carry A6 Ed0. carry A7 Ed1. carry A8 Ed2. carry A9 Ed3.
  exists df, x, y. repeat split; try done; congruence.
Qed.

Lemma salmon_stage_13 startup k :
  run_cells 13 (salmon_cells w) startup = Ok tt k ->
  exists df x y, salmon_loaded k df x y /\
    globals k !! "linear_salmon_model"
      = Some (VModel (regression_model 2 (linear_mu x) y)) /\
    globals k !! "quad_salmon_model"
      = Some (VModel (regression_model 3 (quad_mu x) y)) /\
    globals k !! "X_pred" = Some (VArray (np.F1 (np.linspace 0 500 100))) /\
    globals k !! "gp_salmon_model" = Some (VModel (gp_salmon_nodes y x)) /\
    globals k !! "recruit_gp" = Some (VGP (recruit_gp y x)) /\
    globals k !! "M" = Some (VMean (gp_salmon_mean y x)).
Proof.
  intros H. apply (run_cells_split 10 3) in H as (k10 & H10 & H).
  apply salmon_stage_10 in H10
    as (df & x & y & [Hr Hs Hrc Ed] & El & Eq & EX).
  unfold salmon_cells in H. cbn [take drop firstn skipn concat] in H.
  split_cells H. injection H as <-.
  let fp := salmon_fp 10%nat in step fp Hcell A10 L10.
  let fp := salmon_fp 11%nat in step fp Hcell0 A11 L11.
  let fp := salmon_fp 12%nat in step fp Hcell1 A12 L12.
  carry A10 Ed. carry A11 Ed0.
  destruct (gp_salmon_model_spec _ _ _ Ed1 Hcell1)
    as (r & s & Hr' & Hs' & Egp & Eg & EM).
  assert (r = y) as -> by congruence. assert (s = x) as -> by congruence.
  carry A12 Ed1. carry A10 EX. carry A11 EX0. carry A12 EX1.
  carry A10 El. carry A11 El0. carry A12 El1.
  carry A10 Eq. carry A11 Eq0. carry A12 Eq1.
  exists df, x, y. repeat split; try done; congruence.
Qed.

Lemma salmon_stage_22 startup k :
  run (salmon_cells w) startup = Ok tt k ->
  exists df x y, salmon_loaded k df x y /\
    globals k !! "linear_salmon_model"
      = Some (VModel (regression_model 2 (linear_mu x) y)) /\
    globals k !! "quad_salmon_model"
      = Some (VModel (regression_model 3 (quad_mu x) y)) /\
    globals k !! "gp_salmon_model"
      = Some (VModel
                (gp_salmon_nodes y x ++
                 [conditional_node "salmon_pred" (recruit_gp y x)
                    (np.linspace 0 500 100) false;
                  conditional_node "salmon_pred_noise" (recruit_gp y x)
                    (np.linspace 0 500 100) true])).
Proof.
  intros H. change (run (salmon_cells w) startup)
    with (run_cells (13 + 9) (salmon_cells w) startup) in H.
  apply (run_cells_split 13 9) in H as (k13 & H13 & H).
  apply salmon_stage_13 in H13
    as (df & x & y & [Hr Hs Hrc Ed] & El & Eq & EX & Egp & Eg & _).
  unfold salmon_cells in H. cbn [take drop firstn skipn concat] in H.
  split_cells H. injection H as <-.
  let fp := salmon_fp 13%nat in step fp Hcell A13 L13.
  let fp := salmon_fp 14%nat in step fp Hcell0 A14 L14.
  let fp := salmon_fp 15%nat in step fp Hcell1 A15 L15.
  let fp := salmon_fp 16%nat in step fp Hcell2 A16 L16.
  let fp := salmon_fp 17%nat in step fp Hcell3 A17 L17.
  let fp := salmon_fp 18%nat in step fp Hcell4 A18 L18.
  let fp := salmon_fp 19%nat in step fp Hcell5 A19 L19.
  let fp := salmon_fp 20%nat in step fp Hcell6 A20 L20.
  let fp := salmon_fp 21%nat in step fp Hcell7 A21 L21.
  carry A13 Egp. carry A14 Egp0. carry A13 Eg. carry A14 Eg0.
  carry A13 EX. carry A14 EX0.
  pose proof (gp_salmon_predict_3_spec w _ _ _ _ _ _ Egp1 Eg1 EX1 Hcell1)
    as Egp2.
  carry A15 Eg1. carry A16 Eg2. carry A17 Eg3. carry A18 Eg4.
  carry A15 EX1. carry A16 EX2. carry A17 EX3. carry A18 EX4.
  carry A16 Egp2. carry A17 Egp3. carry A18 Egp4.
  pose proof (gp_salmon_predict_noise_spec w _ _ _ _ _ _ Egp5 Eg5 EX5 Hcell5)
    as Egp6.
  carry A20 Egp6. carry A21 Egp7.
  carry A13 El. carry A14 El0. carry A15 El1. carry A16 El2. carry A17 El3.
  carry A18 El4. carry A19 El5. carry A20 El6. carry A21 El7.
  carry A13 Eq. carry A14 Eq0. carry A15 Eq1. carry A16 Eq2. carry A17 Eq3.
  carry A18 Eq4. carry A19 Eq5. carry A20 Eq6. carry A21 Eq7.
  carry A13 Ed. carry A14 Ed0. carry A15 Ed1. carry A16 Ed2. carry A17 Ed3.
  carry A18 Ed4. carry A19 Ed5. carry A20 Ed6. carry A21 Ed7.
  exists df, x, y. repeat split; try done; congruence.
Qed.

(** The disasters notebook. *)
Lemma disasters_stage_2 startup k :
  run_cells 2 (disasters_cells w) startup = Ok tt k ->
  globals k !! "disasters_data" = Some (VArray (np.I1 disasters_data)) /\
  globals k !! "year" = Some (VArray (np.I1 year)) /\
  globals k !! "year_ind" = Some (VArray (np.I2 year_ind)).
Proof.
  unfold run_cells, disasters_cells. cbn [take firstn concat].
  intros H. split_cells H. injection H as <-.
  by apply disasters_define_spec in Hcell0.
Qed.

Lemma disasters_stage_6 startup k :
  run_cells 6 (disasters_cells w) startup = Ok tt k ->
  globals k !! "disasters_data" = Some (VArray (np.I1 disasters_data)) /\
  globals k !! "year" = Some (VArray (np.I1 year)) /\
  globals k !! "year_ind" = Some (VArray (np.I2 year_ind)) /\
  model_of k "disasters_model" = Some disasters_nodes.
Proof.
  intros H. apply (run_cells_split 2 4) in H as (k2 & H2 & H).
  apply disasters_stage_2 in H2 as (Ed & Ey & Ei).
  unfold disasters_cells in H. cbn [take drop firstn skipn concat] in H.
  split_cells H. injection H as <-.
  let fp := disasters_fp 2%nat in step fp Hcell A2 L2.
  let fp := disasters_fp 3%nat in step fp Hcell0 A3 L3.
  let fp := disasters_fp 4%nat in step fp Hcell1 A4 L4.
  let fp := disasters_fp 5%nat in step fp Hcell2 A5 L5.
  destruct (disasters_model_spec _ _ Hcell0) as [Em Eg].
  carry A2 Ei. carry A3 Ei0.
  destruct (disasters_prior_spec _ _ _ Em Eg Ei1 Hcell1) as [Em' Ef].
  carry A2 Ed. carry A3 Ed0. carry A4 Ed1.
  pose proof (disasters_likelihood_spec _ _ _ Em' Ef Ed2 Hcell2) as Em''.
  carry A5 Ed2. carry A4 Ei1. carry A5 Ei2.
  carry A2 Ey. carry A3 Ey0. carry A4 Ey1. carry A5 Ey2.
  repeat split; try done. unfold model_of. by rewrite Em''.
Qed.

Lemma disasters_stage_11 startup k :
  run (disasters_cells w) startup = Ok tt k ->
  globals k !! "disasters_model" = Some (VModel disasters_nodes).
Proof.
  intros H. change (run (disasters_cells w) startup)
    with (run_cells (6 + 5) (disasters_cells w) startup) in H.
  apply (run_cells_split 6 5) in H as (k6 & H6 & H).
  apply disasters_stage_6 in H6 as (_ & _ & _ & Em).
  unfold model_of in Em.
  destruct (globals k6 !! "disasters_model") as [[] |] eqn:E;
    try discriminate Em.
  injection Em as ->.
  unfold disasters_cells in H. cbn [take drop firstn skipn concat] in H.
  split_cells H. injection H as <-.
  let fp := disasters_fp 6%nat in step fp Hcell A6 L6.
  let fp := disasters_fp 7%nat in step fp Hcell0 A7 L7.
  let fp := disasters_fp 8%nat in step fp Hcell1 A8 L8.
  let fp := disasters_fp 9%nat in step fp Hcell2 A9 L9.
  let fp := disasters_fp 10%nat in step fp Hcell3 A10 L10.
  carry A6 E. carry A7 E0. carry A8 E1. carry A9 E2. carry A10 E3.
  done.
Qed.

End Chains.

(** ** Values of the regression means *)

Lemma linear_mu_eval (x : list R) (b0 b1 : R) :
  pm.eval (env_of "β" [b0; b1]) (linear_mu x) = Some (np.affine b0 b1 x).
Proof.
  unfold linear_mu, np.affine. cbn. by rewrite map_map.
Qed.

Lemma quad_mu_eval (x : list R) (b0 b1 b2 : R) :
  pm.eval (env_of "β" [b0; b1; b2]) (quad_mu x)
  = Some (np.quadratic b0 b1 b2 x).
Proof.
  unfold quad_mu, np.quadratic, np.power. cbn.
  rewrite !map_map, broadcast_same by (by rewrite !length_map).
  by rewrite zip_with_map_same.
Qed.

(** ** The quadratic model *)

Section Model_claims.
Variable w : World.
Variable startup : list wfilter.

(** C6: once [quad_salmon_model] is declared (ten cells), it holds a
    vector [β] of three coefficients with a Normal(0, 50) prior, a
    noise scale [σ] with a HalfNormal(50) prior, and the recruits
    observed as Normal around [μ], which reads [β] at the indices 0, 1
    and 2 and has the value [β[0] + β[1]·x + β[2]·x²] at each spawner
    count [x]. *)
Theorem C6_quadratic_model :
  is_ok (run_cells 10 (salmon_cells w) startup) = true ->
  let k := kernel_of (run_cells 10 (salmon_cells w) startup) in
  exists df x y mu,
    frames_read (log k) = [df] /\
    spawners df = Some x /\ recruits df = Some y /\
    model_of k "quad_salmon_model"
      = Some [ pm.FreeRV "β" (pm.Normal (pm.TConst 0) (pm.TConst 50))
                 (Some 3%nat);
               pm.FreeRV "σ" (pm.HalfNormal (pm.TConst 50)) None;
               pm.ObservedRV "recruits" (pm.Normal mu (pm.TVar "σ")) y ] /\
    pm.indices_of "β" mu = [0; 1; 2]%nat /\
    forall b0 b1 b2 : R,
      pm.eval (env_of "β" [b0; b1; b2]) mu
      = Some (map (fun v => (b0 + b1 * v + b2 * v ^ 2)%R) x).
Proof.
  intros Hok k. apply is_ok_Ok in Hok as [[] Hok]. fold k in Hok.
  apply salmon_stage_10 in Hok as (df & x & y & [Hr Hs Hrc _] & _ & Eq & _).
  exists df, x, y, (quad_mu x). repeat split; try done.
  - unfold model_of. by rewrite Eq.
  - intros b0 b1 b2. apply quad_mu_eval.
Qed.

End Model_claims.

Lemma C6_witness :
  is_ok (run_cells 10 (salmon_cells (world_with (two_streams 2))) []) = true /\
  model_of (kernel_of (run_cells 10 (salmon_cells (world_with (two_streams 2))) []))
    "quad_salmon_model" <> None.
Proof.
  assert (H : is_ok (run_cells 10 (salmon_cells (world_with (two_streams 2))) [])
              = true) by (vm_compute; reflexivity).
  split; [exact H |].
  destruct (C6_quadratic_model (world_with (two_streams 2)) [] H)
    as (df & x & y & mu & _ & _ & _ & Hm & _).
  rewrite Hm. discriminate.
Defined.

(** ** The disasters data, the Poisson model and the GP mean *)

Lemma year_ind_consecutive :
  year_ind = map (fun i => [Z.of_nat i]) (seq 0 111).
Proof. reflexivity. Qed.

Lemma map_ln_exp (f : list R) : map ln (map exp f) = f.
Proof.
  induction f as [| v f IH]; simpl; [done |]. by rewrite ln_exp, IH.
Qed.

Section Data_claims.
Variable w : World.
Variable startup : list wfilter.



(** C1: [disasters_data] has length 111, the length of [year]; once
    the model is declared (six cells) both arrays are bound and the
    observed data of the Poisson variable [confirmation] are the 111
    counts, one for each year. *)
Theorem C1_disaster_counts_length :
  is_ok (run_cells 6 (disasters_cells w) startup) = true ->
  let k := kernel_of (run_cells 6 (disasters_cells w) startup) in
  length disasters_data = 111%nat /\
  length year = length disasters_data /\
  globals k !! "disasters_data" = Some (VArray (np.I1 disasters_data)) /\
  globals k !! "year" = Some (VArray (np.I1 year)) /\
  exists m rate observed,
    model_of k "disasters_model" = Some m /\
    pm.observed_node m "confirmation" = Some (pm.Poisson rate, observed) /\
    observed = as_floats disasters_data /\
    length observed = length year.
Proof.
  intros Hok k. apply is_ok_Ok in Hok as [[] Hok]. fold k in Hok.
  apply disasters_stage_6 in Hok as (Ed & Ey & _ & Em).
  repeat split; try done.
  exists disasters_nodes, (pm.TVar "λ"), (as_floats disasters_data).
  repeat split; done.
Qed.

(** C10: [year] holds the consecutive years 1851 to 1961, and not
    1962; [year_ind], as the second cell binds it, is the column of
    the integers 0 to 110, as long as [disasters_data]. *)
Theorem C10_year_array :
  is_ok (run_cells 2 (disasters_cells w) startup) = true ->
  let k := kernel_of (run_cells 2 (disasters_cells w) startup) in
  year = map Z.of_nat (seq 1851 111) /\
  (forall y, In y year <-> (1851 <= y <= 1961)%Z) /\
  ~ In 1962%Z year /\
  globals k !! "year" = Some (VArray (np.I1 year)) /\
  globals k !! "year_ind"
    = Some (VArray (np.I2 (map (fun i => [Z.of_nat i]) (seq 0 111)))) /\
  length (map (fun i => [Z.of_nat i]) (seq 0 111)) = length disasters_data.
Proof.
  intros Hok k. apply is_ok_Ok in Hok as [[] Hok]. fold k in Hok.
  apply disasters_stage_2 in Hok as (Ed & Ey & Ei).
  assert (Hin : forall y, In y year <-> (1851 <= y <= 1961)%Z).
  { intros y. unfold year. rewrite arange_In. lia. }
  split; [apply year_consecutive |].
  split; [exact Hin |].
  split; [intros H%Hin; lia |].
  by rewrite <- year_ind_consecutive.
Qed.

(** C5: in [disasters_model] the counts are observed as Poisson with
    rate [λ]; [f] has the prior of a latent Gaussian process, and for
    every value of [f] the rate is the exponential of [f], element by
    element, so that the logarithm of the rate is [f]. *)
Theorem C5_poisson_log_link :
  is_ok (run_cells 6 (disasters_cells w) startup) = true ->
  let k := kernel_of (run_cells 6 (disasters_cells w) startup) in
  exists m rate g X,
    model_of k "disasters_model" = Some m /\
    pm.observed_node m "confirmation"
      = Some (pm.Poisson rate, as_floats disasters_data) /\
    In (pm.FreeRV "f" (pm.Prior g X) None) m /\
    pm.kind g = pm.Latent /\
    forall f : list R,
      pm.eval (pm.resolve m (env_of "f" f)) rate = Some (map exp f) /\
      map ln (map exp f) = f.
Proof.
  intros Hok k. apply is_ok_Ok in Hok as [[] Hok]. fold k in Hok.
  apply disasters_stage_6 in Hok as (_ & _ & _ & Em).
  exists disasters_nodes, (pm.TVar "λ"), disasters_gp,
    (map as_floats year_ind).
  repeat split; try done.
  - simpl. tauto.
  - apply map_ln_exp.
Qed.


End Data_claims.

Lemma C1_witness :
  is_ok (run_cells 6 (disasters_cells (world_with (two_streams 2))) []) = true /\
  length disasters_data = 111%nat.
Proof.
  assert (H : is_ok (run_cells 6 (disasters_cells (world_with (two_streams 2))) [])
              = true) by (vm_compute; reflexivity).
  split; [exact H |].
  apply (C1_disaster_counts_length (world_with (two_streams 2)) [] H).
Defined.

Lemma C10_witness :
  is_ok (run_cells 2 (disasters_cells (world_with (two_streams 2))) []) = true /\
  ~ In 1962%Z year.
Proof.
  assert (H : is_ok (run_cells 2 (disasters_cells (world_with (two_streams 2))) [])
              = true) by (vm_compute; reflexivity).
  split; [exact H |].
  apply (C10_year_array (world_with (two_streams 2)) [] H).
Defined.

Lemma C5_witness :
  is_ok (run_cells 6 (disasters_cells (world_with (two_streams 2))) []) = true /\
  model_of (kernel_of (run_cells 6 (disasters_cells (world_with (two_streams 2))) []))
    "disasters_model" <> None.
Proof.
  assert (H : is_ok (run_cells 6 (disasters_cells (world_with (two_streams 2))) [])
              = true) by (vm_compute; reflexivity).
  split; [exact H |].
  destruct (C5_poisson_log_link (world_with (two_streams 2)) [] H)
    as (m & rate & g & X & Hm & _).
  rewrite Hm. discriminate.
Defined.


(** ** The numbers given to the models *)

Lemma regression_numbers shape mu y :
  pm.tensor_numbers mu = [] ->
  pm.numbers (regression_model shape mu y)
  = map pd.Fin [0; 50; INR shape; 50]%R.
Proof. intros Hmu. unfold pm.numbers. simpl. by rewrite Hmu. Qed.

Lemma gp_salmon_numbers r s X_pred :
  pm.numbers
    (gp_salmon_nodes r s ++
     [conditional_node "salmon_pred" (recruit_gp r s) X_pred false;
      conditional_node "salmon_pred_noise" (recruit_gp r s) X_pred true])
  = map pd.Fin [5; 5; 50]%R ++
    pd.mean (pd.series_truediv r s) :: map pd.Fin [0; 2; 1]%R ++
    pd.mean (pd.series_truediv r s) :: map pd.Fin [0; 2; 1]%R ++
    pd.mean (pd.series_truediv r s) :: map pd.Fin [0; 2; 1]%R.
Proof.
  unfold pm.numbers. simpl.
  replace (1 + 1)%R with 2%R by lra. done.
Qed.

Lemma disasters_numbers :
  pm.numbers disasters_nodes = map pd.Fin [1; 1; 2; 1]%R.
Proof.
  unfold pm.numbers. simpl. replace (1 + 1)%R with 2%R by lra. done.
Qed.

Lemma mean_two_streams c :
  pd.mean (pd.series_truediv [c * 1; c * 2] [1; 2])%R = pd.Fin c.
Proof.
  rewrite series_truediv_nonzero by (repeat constructor; lra).
  rewrite mean_Fin by done. simpl. f_equal. field.
Qed.

Section Inputs.
Variable w : World.
Variable startup : list wfilter.

Lemma salmon_numbers :
  is_ok (run (salmon_cells w) startup) = true ->
  let k := kernel_of (run (salmon_cells w) startup) in
  exists df r s,
    frames_read (log k) = [df] /\
    recruits df = Some r /\ spawners df = Some s /\
    numbers_of k "linear_salmon_model" = Some (map pd.Fin [0; 50; 2; 50]%R) /\
    numbers_of k "quad_salmon_model" = Some (map pd.Fin [0; 50; 3; 50]%R) /\
    numbers_of k "gp_salmon_model"
    = Some (map pd.Fin [5; 5; 50]%R ++
            pd.mean (pd.series_truediv r s) :: map pd.Fin [0; 2; 1]%R ++
            pd.mean (pd.series_truediv r s) :: map pd.Fin [0; 2; 1]%R ++
            pd.mean (pd.series_truediv r s) :: map pd.Fin [0; 2; 1]%R).
Proof.
  intros Hok k. apply is_ok_Ok in Hok as [[] Hok]. fold k in Hok.
  apply salmon_stage_22 in Hok
    as (df & x & y & [Hr Hs Hrc _] & El & Eq & Eg).
  exists df, y, x. unfold numbers_of, model_of.
  rewrite El, Eq, Eg. cbn [fmap option_fmap option_map].
  rewrite !regression_numbers by done. rewrite gp_salmon_numbers.
  repeat split; try done.
  replace (INR 3) with 3%R by (simpl; lra). done.
Qed.

Lemma disasters_model_numbers :
  is_ok (run (disasters_cells w) startup) = true ->
  numbers_of (kernel_of (run (disasters_cells w) startup)) "disasters_model"
  = Some (map pd.Fin [1; 1; 2; 1]%R).
Proof.
  intros Hok. apply is_ok_Ok in Hok as [[] Hok].
  apply disasters_stage_11 in Hok. unfold numbers_of, model_of.
  rewrite Hok. cbn [fmap option_fmap option_map].
  by rewrite disasters_numbers.
Qed.

End Inputs.

Lemma two_streams_run c :
  is_ok (run (salmon_cells (world_with (two_streams c))) []) = true.
Proof. vm_compute. reflexivity. Qed.

Lemma two_streams_numbers c :
  numbers_of (kernel_of (run (salmon_cells (world_with (two_streams c))) []))
    "gp_salmon_model"
  = Some (map pd.Fin [5; 5; 50]%R ++
          pd.Fin c :: map pd.Fin [0; 2; 1]%R ++
          pd.Fin c :: map pd.Fin [0; 2; 1]%R ++
          pd.Fin c :: map pd.Fin [0; 2; 1]%R).
Proof.
  destruct (salmon_numbers _ _ (two_streams_run c))
    as (df & r & s & Hread & Hr & Hs & _ & _ & Hg).
  assert (Hdf : frames_read
                  (log (kernel_of
                          (run (salmon_cells (world_with (two_streams c))) [])))
                = [two_streams c]) by (vm_compute; reflexivity).
  rewrite Hdf in Hread. injection Hread as <-.
  injection Hr as <-. injection Hs as <-.
  rewrite Hg. by rewrite mean_two_streams.
Qed.

(** C3 as stated fails: in two worlds that differ only in the
    recruits of the data file, the numbers given to the calls that
    build [gp_salmon_model] differ, so they are not fixed constants. *)
Lemma C3_counterexample :
  numbers_of (kernel_of (run (salmon_cells (world_with (two_streams 2))) []))
    "gp_salmon_model"
  <> numbers_of (kernel_of (run (salmon_cells (world_with (two_streams 3))) []))
       "gp_salmon_model" /\
  ~ data_independent salmon_cells "gp_salmon_model".
Proof.
  assert (Hne : numbers_of
                  (kernel_of (run (salmon_cells (world_with (two_streams 2))) []))
                  "gp_salmon_model"
                <> numbers_of
                     (kernel_of (run (salmon_cells (world_with (two_streams 3))) []))
                     "gp_salmon_model").
  { rewrite !two_streams_numbers. intros [= H]. lra. }
  split; [exact Hne |].
  intros [cs Hcs]. apply Hne.
  rewrite (Hcs _ _ (two_streams_run 2)).
  by rewrite (Hcs _ _ (two_streams_run 3)).
Qed.

(** C3, amended: the numbers given to the calls that build the
    linear, the quadratic and the disasters model are fixed constants;
    those given for [gp_salmon_model] are fixed constants except the
    coefficient of the linear mean function, which is the mean of
    recruits/spawners of the loaded data. *)
Theorem C3_model_inputs_constant_except_gp_mean :
  fixed_constants salmon_cells "linear_salmon_model" [0; 50; 2; 50]%R /\
  fixed_constants salmon_cells "quad_salmon_model" [0; 50; 3; 50]%R /\
  fixed_constants disasters_cells "disasters_model" [1; 1; 2; 1]%R /\
  forall w startup,
    is_ok (run (salmon_cells w) startup) = true ->
    let k := kernel_of (run (salmon_cells w) startup) in
    exists df r s,
      frames_read (log k) = [df] /\
      recruits df = Some r /\ spawners df = Some s /\
      numbers_of k "gp_salmon_model"
      = Some (map pd.Fin [5; 5; 50]%R ++
              pd.mean (pd.series_truediv r s) :: map pd.Fin [0; 2; 1]%R ++
              pd.mean (pd.series_truediv r s) :: map pd.Fin [0; 2; 1]%R ++
              pd.mean (pd.series_truediv r s) :: map pd.Fin [0; 2; 1]%R).
Proof.
  repeat split.
  - intros w startup Hok.
    by destruct (salmon_numbers w startup Hok) as (? & ? & ? & ? & ? & ? & H & _).
  - intros w startup Hok.
    by destruct (salmon_numbers w startup Hok)
      as (? & ? & ? & ? & ? & ? & _ & H & _).
  - intros w startup Hok. by apply disasters_model_numbers.
  - intros w startup Hok k.
    destruct (salmon_numbers w startup Hok)
      as (df & r & s & ? & ? & ? & _ & _ & H).
    by exists df, r, s.
Qed.

Lemma C3_witness :
  is_ok (run (salmon_cells (world_with (two_streams 2))) []) = true /\
  numbers_of (kernel_of (run (salmon_cells (world_with (two_streams 2))) []))
    "linear_salmon_model" = Some (map pd.Fin [0; 50; 2; 50]%R).
Proof.
  assert (H : is_ok (run (salmon_cells (world_with (two_streams 2))) []) = true)
    by (vm_compute; reflexivity).
  split; [exact H |].
  destruct C3_model_inputs_constant_except_gp_mean as [Hl _].
  exact (Hl (world_with (two_streams 2)) [] H).
Defined.

Lemma gp_mean_coefficient w startup :
  is_ok (run_cells 13 (salmon_cells w) startup) = true ->
  exists df r s,
    frames_read (log (kernel_of (run_cells 13 (salmon_cells w) startup))) = [df] /\
    recruits df = Some r /\ spawners df = Some s /\
    globals (kernel_of (run_cells 13 (salmon_cells w) startup)) !! "M"
    = Some (VMean (pm.Linear (pd.mean (pd.series_truediv r s)) 0)).
Proof.
  intros Hok. apply is_ok_Ok in Hok as [[] Hok].
  apply salmon_stage_13 in Hok
    as (df & x & y & [Hr Hs Hrc _] & _ & _ & _ & _ & _ & EM).
  by exists df, y, x.
Qed.

Lemma truediv_zero_zero : pd.truediv 0 0 = pd.NaN.
Proof.
  unfold pd.truediv. destruct (Req_dec_T 0 0) as [_ | H]; [| done].
  by destruct (Req_dec_T 0 0).
Qed.

Lemma truediv_pos_zero a : (0 < a)%R -> pd.truediv a 0 = pd.PInf.
Proof.
  intros Ha. unfold pd.truediv. destruct (Req_dec_T 0 0) as [_ | H]; [| done].
  destruct (Req_dec_T a 0) as [H | _]; [lra |].
  by destruct (Rlt_dec 0 a).
Qed.

(** A year without spawners and without recruits: the quotient of that
    year is [nan], the mean leaves it out, and no statement raises. *)
Example empty_year_unguarded :
  is_ok (run_cells 13 (salmon_cells (world_with empty_year)) []) = true /\
  pd.series_truediv [0; 6]%R [0; 2]%R = [pd.NaN; pd.Fin (6 / 2)] /\
  globals (kernel_of (run_cells 13 (salmon_cells (world_with empty_year)) []))
    !! "M" = Some (VMean (pm.Linear (pd.Fin 3) 0)).
Proof.
  assert (Hok : is_ok (run_cells 13 (salmon_cells (world_with empty_year)) [])
                = true) by (vm_compute; reflexivity).
  assert (Hq : pd.series_truediv [0; 6]%R [0; 2]%R = [pd.NaN; pd.Fin (6 / 2)]).
  { unfold pd.series_truediv. cbn [zip_with].
    rewrite truediv_zero_zero, truediv_nonzero by lra. done. }
  split; [exact Hok |]. split; [exact Hq |].
  destruct (gp_mean_coefficient _ _ Hok) as (df & r & s & Hread & Hr & Hs & HM).
  assert (Hdf : frames_read
                  (log (kernel_of
                          (run_cells 13 (salmon_cells (world_with empty_year)) [])))
                = [empty_year]) by (vm_compute; reflexivity).
  rewrite Hdf in Hread. injection Hread as <-.
  injection Hr as <-. injection Hs as <-.
  rewrite HM, Hq. unfold pd.mean. cbn [List.filter pd.isna negb fold_left length pd.fadd pd.fdiv_count].
  replace ((0 + 6 / 2) / INR 1)%R with 3%R by (simpl; field). done.
Qed.

(** ** The posterior predictive sampler

    The notebooks ask the sampler for 3, 100 and 500 samples (salmon)
    and for 1000 samples (disasters); what comes back is the
    library's. *)

Example salmon_ppc_requests :
  ppc_requests
    (log (kernel_of (run (salmon_cells (world_with (two_streams 2))) [])))
  = [3; 100; 500]%nat.
Proof. vm_compute. reflexivity. Qed.

Example disasters_ppc_requests :
  ppc_requests
    (log (kernel_of (run (disasters_cells (world_with (two_streams 2))) [])))
  = [1000]%nat.
Proof. vm_compute. reflexivity. Qed.

(** ** The file input *)

Section File_input.
Variable w : World.
Variable startup : list wfilter.

(** C4: the only file input of the two notebooks is one read of the
    text file [../data/salmon.txt], split at whitespace, by the ninth
    statement of the salmon notebook, with only the imports and the
    set-up of the session before it; once the table has been unpacked
    (five cells) the frame that was read has a column of spawners and a
    column of recruits of the same length.  The disasters notebook
    reads no file. *)
Theorem C4_single_file_read (n : nat) :
  let l := log (state_after n (salmon_cells w) startup) in
  file_inputs l =
    (if (9 <=? n)%nat && is_ok (run_upto 8 (salmon_cells w) startup)
     then [("../data/salmon.txt", "\s+", 0%Z)] else []) /\
  (forall pre ev post,
     l = pre ++ ev :: post -> file_input ev <> None ->
     Forall (fun e => is_setup e = true) pre) /\
  (is_ok (run_cells 5 (salmon_cells w) startup) = true ->
   exists df x y,
     frames_read (log (kernel_of (run_cells 5 (salmon_cells w) startup)))
       = [df] /\
     spawners df = Some x /\ recruits df = Some y /\
     length x = length y) /\
  file_inputs (log (state_after n (disasters_cells w) startup)) = [].
Proof.
  intros l. destruct (salmon_file_input w startup n) as [H1 H2].
  split; [exact H1 | split; [exact H2 | split]].
  - intros Hok. apply is_ok_Ok in Hok as [[] Hok].
    apply salmon_stage_5 in Hok as (df & x & y & [Hr Hs Hrc _] & _).
    exists df, x, y. repeat split; try done.
    unfold spawners, recruits in *. destruct df as [idx cols Hrect].
    simpl in *.
    rewrite (column_length _ _ _ _ Hrect Hs).
    by rewrite (column_length _ _ _ _ Hrect Hrc).
  - apply disasters_no_file_input.
Qed.

End File_input.

Lemma C4_witness :
  is_ok (run_cells 5 (salmon_cells (world_with (two_streams 2))) []) = true /\
  frames_read
    (log (kernel_of (run_cells 5 (salmon_cells (world_with (two_streams 2))) [])))
  <> [].
Proof.
  assert (H : is_ok (run_cells 5 (salmon_cells (world_with (two_streams 2))) [])
              = true) by (vm_compute; reflexivity).
  split; [exact H |].
  destruct (C4_single_file_read (world_with (two_streams 2)) [] 9)
    as (_ & _ & Hread & _).
  destruct (Hread H) as (df & x & y & Hdf & _).
  rewrite Hdf. discriminate.
Defined.



(** * More properties of the cells *)

(** The frames of a range of cells, the footprint of one cell, what a
    cell keeps, one cell of a run, and the calls a log gains. *)
Ltac cell_frames :=
  cbv [concat app drop take firstn skipn salmon_cells disasters_cells
       salmon_imports salmon_load salmon_normal_prior salmon_half_normal_prior
       salmon_extract linear_salmon_model linear_salmon_sample
       linear_salmon_plot_trace linear_salmon_lines quad_salmon_model
       quad_salmon_sample quad_salmon_lines gp_salmon_model gp_salmon_sample
       gp_salmon_plot_trace gp_salmon_predict_3 gp_salmon_plot_3
       gp_salmon_predict_100 gp_salmon_plot_dist gp_salmon_predict_noise
       disasters_imports disasters_define disasters_bar disasters_model
       disasters_prior disasters_likelihood disasters_sample
       disasters_plot_posterior disasters_years disasters_predict
       disasters_plot_rate];
  split_Forall; frame_auto.

Ltac salmon_footprint_at w i :=
  constr:(Forall2_lookup_lr _ _ _ i _ _ (salmon_within_footprint w)
            eq_refl eq_refl).
Ltac disasters_footprint_at w i :=
  constr:(Forall2_lookup_lr _ _ _ i _ _ (disasters_within_footprint w)
            eq_refl eq_refl).

Ltac footprint_step fp Hcell A L :=
  pose proof (cell_step _ _ _ _ _ fp Hcell) as [A L];
  try specialize (L eq_refl).

Ltac open_cell H :=
  unfold salmon_cells, disasters_cells in H;
  cbn [take drop firstn skipn concat] in H;
  rewrite app_nil_r in H.

Ltac log_step p L S :=
  rewrite L, omap_app, S; cbn [omap list_omap p app]; try reflexivity.

(** ** The models the cells declare *)

Section More_models.
Variable w : World.
Variable startup : list wfilter.

Lemma frame_columns_paired df x y :
  spawners df = Some x -> recruits df = Some y -> length x = length y.
Proof.
  unfold spawners, recruits. destruct df as [idx cols Hrect]. simpl.
  intros Hx Hy.
  rewrite (column_length _ _ _ _ Hrect Hx).
  by rewrite (column_length _ _ _ _ Hrect Hy).
Qed.

Lemma salmon_stage_6 k :
  run_cells 6 (salmon_cells w) startup = Ok tt k ->
  exists df x y, salmon_loaded k df x y /\
    globals k !! "x" = Some (VArray (np.F1 x)) /\
    globals k !! "y" = Some (VArray (np.F1 y)) /\
    globals k !! "linear_salmon_model"
      = Some (VModel (regression_model 2 (linear_mu x) y)).
Proof.
  intros H. apply (run_cells_split 5 1) in H as (k5 & H5 & H).
  apply salmon_stage_5 in H5 as (df & x & y & [Hr Hs Hrc Ed] & Ex & Ey).
  unfold salmon_cells in H. cbn [take drop firstn skipn concat] in H.
  rewrite app_nil_r in H.
  let fp := salmon_footprint_at w 5%nat in footprint_step fp H A5 L5.
  pose proof (linear_salmon_model_spec _ _ _ _ Ex Ey H) as El.
  carry A5 Ex. carry A5 Ey. carry A5 Ed.
  exists df, x, y. repeat split; try done; congruence.
Qed.

(** X1: once [linear_salmon_model] is declared (six cells), it holds a
    vector [β] of two coefficients with a Normal(0, 50) prior, a noise
    scale [σ] with a HalfNormal(50) prior, and the recruits of the
    table observed as Normal around [μ], which reads [β] at the
    indices 0 and 1 and has the value [β[0] + β[1]·x] at each spawner
    count [x]; there are as many spawner counts as recruits. *)
Theorem linear_model_declared :
  is_ok (run_cells 6 (salmon_cells w) startup) = true ->
  let k := kernel_of (run_cells 6 (salmon_cells w) startup) in
  exists df x y mu,
    frames_read (log k) = [df] /\
    spawners df = Some x /\ recruits df = Some y /\
    model_of k "linear_salmon_model"
    = Some [ pm.FreeRV "β" (pm.Normal (pm.TConst 0) (pm.TConst 50)) (Some 2%nat);
             pm.FreeRV "σ" (pm.HalfNormal (pm.TConst 50)) None;
             pm.ObservedRV "recruits" (pm.Normal mu (pm.TVar "σ")) y ] /\
    pm.indices_of "β" mu = [0; 1]%nat /\
    (forall b0 b1 : R,
       pm.eval (env_of "β" [b0; b1]) mu
       = Some (map (fun v => b0 + b1 * v)%R x)) /\
    length x = length y.
Proof.
  intros Hok k. apply is_ok_Ok in Hok as [[] Hok]. fold k in Hok.
  apply salmon_stage_6 in Hok as (df & x & y & [Hr Hs Hrc _] & _ & _ & El).
  exists df, x, y, (linear_mu x). repeat split; try done.
  - unfold model_of. by rewrite El.
  - intros b0 b1. apply linear_mu_eval.
  - by eapply frame_columns_paired.
Qed.

(** X2: once [gp_salmon_model] is declared (thirteen cells), it holds
    [ρ] and [η] with HalfCauchy(5) priors, [σ] with a HalfNormal(50)
    prior, and the recruits of the table observed through the marginal
    likelihood of a GP with covariance [η² · ExpQuad(1, ρ)], noise [σ]
    and one input row per spawner count, as many rows as recruits;
    [recruit_gp] keeps these inputs, recruits and noise. *)
Theorem gp_model_declared :
  is_ok (run_cells 13 (salmon_cells w) startup) = true ->
  let k := kernel_of (run_cells 13 (salmon_cells w) startup) in
  exists df r s g,
    frames_read (log k) = [df] /\
    recruits df = Some r /\ spawners df = Some s /\
    model_of k "gp_salmon_model"
    = Some [ pm.FreeRV "ρ" (pm.HalfCauchy (pm.TConst 5)) None;
             pm.FreeRV "η" (pm.HalfCauchy (pm.TConst 5)) None;
             pm.FreeRV "σ" (pm.HalfNormal (pm.TConst 50)) None;
             pm.ObservedRV "recruits"
               (pm.MarginalLikelihood g (map (fun v => [v]) s) (pm.TVar "σ"))
               r ] /\
    pm.kind g = pm.Marginal /\
    pm.cov_func g
    = pm.Scaled (pm.TPow (pm.TVar "η") 2) (pm.ExpQuad 1 (pm.TVar "ρ")) /\
    length (map (fun v => [v]) s) = length r /\
    globals k !! "recruit_gp"
    = Some (VGP (pm.mkGP pm.Marginal (pm.mean_func g) (pm.cov_func g)
                   (Some (map (fun v => [v]) s, r, pm.TVar "σ")))).
Proof.
  intros Hok k. apply is_ok_Ok in Hok as [[] Hok]. fold k in Hok.
  apply salmon_stage_13 in Hok
    as (df & x & y & [Hr Hs Hrc _] & _ & _ & _ & Egp & Eg & _).
  exists df, y, x,
    (pm.mkGP pm.Marginal (gp_salmon_mean y x) gp_salmon_cov None).
  repeat split; try done.
  - unfold model_of. by rewrite Egp.
  - rewrite length_map. by eapply frame_columns_paired.
Qed.

(** X3: at the end of the salmon notebook [gp_salmon_model] holds six
    variables with distinct names; the last two are [salmon_pred]
    (without noise) and [salmon_pred_noise] (with noise), both
    conditionals of the GP that keeps the data, on the column of the
    100 points of [np.linspace(0, 500, 100)]. *)
Theorem prediction_variables_added :
  is_ok (run (salmon_cells w) startup) = true ->
  let k := kernel_of (run (salmon_cells w) startup) in
  exists m g X,
    model_of k "gp_salmon_model" = Some m /\
    map pm.node_name m
    = ["ρ"; "η"; "σ"; "recruits"; "salmon_pred"; "salmon_pred_noise"] /\
    drop 4 m = [ pm.FreeRV "salmon_pred" (pm.Conditional g X false) None;
                 pm.FreeRV "salmon_pred_noise" (pm.Conditional g X true) None ] /\
    pm.given g <> None /\
    X = map (fun v => [v]) (np.linspace 0 500 100) /\
    length X = 100%nat.
Proof.
  intros Hok k. apply is_ok_Ok in Hok as [[] Hok]. fold k in Hok.
  apply salmon_stage_22 in Hok as (df & x & y & _ & _ & _ & Eg).
  eexists _, (recruit_gp y x), _. unfold model_of. rewrite Eg.
  repeat split; try done.
Qed.

End More_models.

(** X4: the three models of the salmon notebook depend on the table
    that was read and on nothing else: two complete runs, in any two
    worlds and sessions, that read the same table end with the same
    linear, quadratic and GP model. *)
Theorem models_determined_by_data (w1 w2 : World) (s1 s2 : list wfilter)
    (name : string) :
  is_ok (run (salmon_cells w1) s1) = true ->
  is_ok (run (salmon_cells w2) s2) = true ->
  frames_read (log (kernel_of (run (salmon_cells w1) s1)))
  = frames_read (log (kernel_of (run (salmon_cells w2) s2))) ->
  In name ["linear_salmon_model"; "quad_salmon_model"; "gp_salmon_model"] ->
  model_of (kernel_of (run (salmon_cells w1) s1)) name
  = model_of (kernel_of (run (salmon_cells w2) s2)) name /\
  model_of (kernel_of (run (salmon_cells w1) s1)) name <> None.
Proof.
  intros H1 H2 Hf Hn.
  apply is_ok_Ok in H1 as [[] H1]. apply is_ok_Ok in H2 as [[] H2].
  apply salmon_stage_22 in H1
    as (df & x & y & [Hr Hs Hrc _] & El & Eq & Eg).
  apply salmon_stage_22 in H2
    as (df' & x' & y' & [Hr' Hs' Hrc' _] & El' & Eq' & Eg').
  rewrite Hr, Hr' in Hf. injection Hf as <-.
  assert (x' = x) as -> by congruence. assert (y' = y) as -> by congruence.
  unfold model_of. simpl in Hn.
  destruct Hn as [<- | [<- | [<- | []]]].
  - by rewrite El, El'.
  - by rewrite Eq, Eq'.
  - by rewrite Eg, Eg'.
Qed.

(** X5: after any number of statements of either notebook, also when
    one of them raised inside a [with] block, no model is left on the
    context stack. *)
Theorem model_context_balanced (w : World) (startup : list wfilter) (n : nat) :
  model_stack (state_after n (salmon_cells w) startup) = [] /\
  model_stack (state_after n (disasters_cells w) startup) = [].
Proof.
  split.
  - by destruct (run_upto_all_stepped startup _ _ _ (salmon_statements w None) n).
  - by destruct (run_upto_all_stepped startup _ _ _
                   (disasters_statements w None) n).
Qed.

Lemma linear_model_declared_witness :
  is_ok (run_cells 6 (salmon_cells (world_with (two_streams 2))) []) = true /\
  model_of (kernel_of (run_cells 6 (salmon_cells (world_with (two_streams 2))) []))
    "linear_salmon_model" <> None.
Proof.
  assert (H : is_ok (run_cells 6 (salmon_cells (world_with (two_streams 2))) [])
              = true) by (vm_compute; reflexivity).
  split; [exact H |].
  destruct (linear_model_declared (world_with (two_streams 2)) [] H)
    as (df & x & y & mu & _ & _ & _ & Hm & _).
  rewrite Hm. discriminate.
Defined.

Lemma gp_model_declared_witness :
  is_ok (run_cells 13 (salmon_cells (world_with (two_streams 2))) []) = true /\
  model_of (kernel_of (run_cells 13 (salmon_cells (world_with (two_streams 2))) []))
    "gp_salmon_model" <> None.
Proof.
  assert (H : is_ok (run_cells 13 (salmon_cells (world_with (two_streams 2))) [])
              = true) by (vm_compute; reflexivity).
  split; [exact H |].
  destruct (gp_model_declared (world_with (two_streams 2)) [] H)
    as (df & r & s & g & _ & _ & _ & Hm & _).
  rewrite Hm. discriminate.
Defined.

Lemma prediction_variables_added_witness :
  is_ok (run (salmon_cells (world_with (two_streams 2))) []) = true /\
  model_of (kernel_of (run (salmon_cells (world_with (two_streams 2))) []))
    "gp_salmon_model" <> None.
Proof.
  assert (H : is_ok (run (salmon_cells (world_with (two_streams 2))) []) = true)
    by (vm_compute; reflexivity).
  split; [exact H |].
  destruct (prediction_variables_added (world_with (two_streams 2)) [] H)
    as (m & g & X & Hm & _).
  rewrite Hm. discriminate.
Defined.

Lemma models_determined_by_data_witness :
  model_of (kernel_of (run (salmon_cells (world_with (two_streams 2))) []))
    "gp_salmon_model"
  = model_of
      (kernel_of (run (salmon_cells (world_with (two_streams 2)))
                    [WFilter "error" "Warning"]))
      "gp_salmon_model".
Proof.
  apply (models_determined_by_data (world_with (two_streams 2))
           (world_with (two_streams 2)) [] [WFilter "error" "Warning"]
           "gp_salmon_model").
  - vm_compute. reflexivity.
  - vm_compute. reflexivity.
  - vm_compute. reflexivity.
  - simpl. tauto.
Defined.

(** ** Division by zero in the mean of recruits/spawners *)













Section Coefficient.
Variable w : World.
Variable startup : list wfilter.



End Coefficient.



(** ** Runs that fail *)

Section Failures.
Variable w : World.
Variable startup : list wfilter.

(** X8: when [pd.read_table] raises, every run of the salmon notebook
    that reaches the read, and the complete run, ends with that
    exception in the kernel the imports left, with the failed call as
    the last call of the log and [salmon_data] unbound. *)
Theorem file_read_failure (k8 : kernel) (e : exn) (n : nat) :
  run_upto 8 (salmon_cells w) startup = Ok tt k8 ->
  w _ (log k8) (ReadTable "../data/salmon.txt" "\s+" 0) = inl e ->
  let failed :=
    Raise e (set_log
               (log k8 ++
                [Event _ (ReadTable "../data/salmon.txt" "\s+" 0) (inl e)])
               k8) in
  run_upto (9 + n) (salmon_cells w) startup = failed /\
  run (salmon_cells w) startup = failed /\
  globals k8 !! "salmon_data" = None.
Proof.
  intros H8 Hw failed.
  assert (H9 : exec (take 1 (drop 8 (concat (salmon_cells w)))) k8 = failed).
  { cbv [concat app drop take firstn skipn salmon_cells salmon_imports
         salmon_load exec].
    unfold mbind, mret, Py_bind, Py_ret, extern. by rewrite Hw. }
  repeat split.
  - unfold run_upto. rewrite take_plus, exec_app.
    change 9%nat with (8 + 1)%nat. rewrite take_plus, exec_app.
    unfold run_upto in H8. rewrite H8. by rewrite H9.
  - unfold run. rewrite <- (take_drop 9 (concat (salmon_cells w))), exec_app.
    change 9%nat with (8 + 1)%nat at 1. rewrite take_plus, exec_app.
    unfold run_upto in H8. rewrite H8. by rewrite H9.
  - pose proof (salmon_before_read w startup 8) as (Hn & _).
    cbv zeta in Hn. change (Nat.min 8 8) with 8%nat in Hn.
    unfold state_after in Hn. by rewrite H8 in Hn.
Qed.




End Failures.


Lemma file_read_failure_witness :
  is_ok (run (salmon_cells
                (unreadable_file (Exn "FileNotFoundError" "../data/salmon.txt")))
           []) = false.
Proof.
  pose (w := unreadable_file (Exn "FileNotFoundError" "../data/salmon.txt")).
  assert (H8 : run_upto 8 (salmon_cells w) []
               = Ok tt (kernel_of (run_upto 8 (salmon_cells w) [])))
    by (vm_compute; reflexivity).
  destruct (file_read_failure w [] _
              (Exn "FileNotFoundError" "../data/salmon.txt") 0 H8 eq_refl)
    as (_ & Hrun & _).
  fold w. rewrite Hrun. reflexivity.
Defined.



(** ** Calls a range of statements does not make *)

Lemma omap_allowed {B} (p : event -> option B) C evs :
  (forall ev, ev_allowed C ev = true -> p ev = None) ->
  Forall (fun ev => ev_allowed C ev = true) evs ->
  omap p evs = [].
Proof.
  intros Hp. induction 1 as [| ev evs Hev _ IH]; simpl; [done |].
  by rewrite (Hp ev Hev).
Qed.

Lemma exec_quiet {B} (p : event -> option B) W C stmts k k' :
  (forall top, Forall (frame top W C) stmts) ->
  (forall ev, ev_allowed C ev = true -> p ev = None) ->
  exec stmts k = Ok tt k' ->
  omap p (log k') = omap p (log k) /\ agree W (globals k) (globals k').
Proof.
  intros Hf Hp H.
  pose proof (frame_exec _ _ _ _ (Hf (head (model_stack k))) k eq_refl) as Hs.
  rewrite H in Hs. cbn [raised kernel_of] in Hs.
  destruct Hs as [G _ _ (evs & -> & D)]. split; [| done].
  rewrite omap_app, (omap_allowed p C evs Hp); [by rewrite app_nil_r |].
  by eapply disciplined_allowed.
Qed.

Lemma no_line_allowed ev :
  ev_allowed no_line ev = true -> line_plotted ev = None.
Proof. destruct ev as [T c a]. by destruct c. Qed.

Lemma exec_single (s : Py unit) k k' :
  exec [s] k = Ok tt k' -> s k = Ok tt k'.
Proof.
  simpl. unfold mbind, mret, Py_bind, Py_ret.
  by destruct (s k) as [[] k1 | e k1].
Qed.

Lemma exec_snoc_Ok (stmts : list (Py unit)) (s : Py unit) k k' :
  exec (stmts ++ [s]) k = Ok tt k' ->
  exists k1, exec stmts k = Ok tt k1 /\ s k1 = Ok tt k'.
Proof.
  intros H. apply exec_app_Ok in H as (k1 & H1 & H2).
  exists k1. split; [done | by apply exec_single].
Qed.

(** ** The loops that draw lines *)

Section Lines.
Variable w : World.

Lemma linear_loop (rows : list (list R)) : forall K K' a X,
  globals K !! "ax" = Some (VAxes a) ->
  globals K !! "X_pred" = Some (VArray (np.F1 X)) ->
  for_each rows (linear_salmon_line w) K = Ok tt K' ->
  Forall (fun row => length row = 2%nat) rows /\
  lines_plotted (log K')
  = lines_plotted (log K) ++
    map (fun row => (X, np.affine (nth 0 row 0%R) (nth 1 row 0%R) X)) rows /\
  agree (writes ["b0"; "b1"]) (globals K) (globals K').
Proof.
  induction rows as [| row rows IH]; intros K K' a X Ea EX H.
  - injection H as <-.
    split; [apply List.Forall_nil | split; [by rewrite app_nil_r | done]].
  - cbn [for_each] in H. unfold mbind at 1, Py_bind at 1 in H.
    destruct (linear_salmon_line w row K) as [[] K1 | e K1] eqn:Hrow;
      [| discriminate H].
    unfold linear_salmon_line in Hrow. py_run Hrow. destruct u. py_done Hrow.
    apply IH with (a := a) (X := X) in H as (Hl & Hlog & Hag).
    + split; [| split].
      * by apply List.Forall_cons.
      * rewrite Hlog. cbn [log]. unfold lines_plotted.
        rewrite omap_app. cbn. by rewrite <- app_assoc.
      * intros n Hn. rewrite (Hag n Hn). cbn [globals].
        unfold writes in Hn. cbn in Hn.
        apply orb_false_elim in Hn as [Hn0 Hn].
        apply orb_false_elim in Hn as [Hn1 _].
        apply String.eqb_neq in Hn0, Hn1.
        by rewrite !lookup_insert_ne.
    + cbn [globals]. by rewrite !lookup_insert_ne.
    + cbn [globals]. by rewrite !lookup_insert_ne.
Qed.

Lemma linear_salmon_lines_drawn k k' :
  exec (linear_salmon_lines w) k = Ok tt k' ->
  exists t rows,
    globals k !! "linear_trace" = Some (VTrace t) /\
    trace_values t "β" = Some rows /\
    Forall (fun row => length row = 2%nat) (take 20 rows) /\
    lines_plotted (log k')
    = lines_plotted (log k) ++
      map (fun row => (np.linspace 0 500 100,
                       np.affine (nth 0 row 0%R) (nth 1 row 0%R)
                         (np.linspace 0 500 100)))
        (take 20 rows).
Proof.
  intros H. unfold linear_salmon_lines in H.
  apply (exec_snoc_Ok [_; _; _]) in H as (k1 & H1 & H2).
  py_run H1. py_done H1. py_run H2.
  eapply linear_loop with (X := np.linspace 0 500 100) in H2
    as (Hl & Hlog & _).
  - eexists _, _. repeat split; try done.
    rewrite Hlog. cbn [log]. unfold lines_plotted.
    rewrite !omap_app. cbn. by rewrite !app_nil_r.
  - cbn [globals]. by rewrite lookup_insert_eq.
  - cbn [globals]. by rewrite lookup_insert_ne, lookup_insert_eq.
Qed.

Lemma quadratic_zip (b0 b1 b2 : R) (X : list R) :
  zip_with Rplus (np.affine b0 b1 X) (map (Rmult b2) (np.power X 2))
  = np.quadratic b0 b1 b2 X.
Proof.
  unfold np.affine, np.power, np.quadratic. rewrite map_map.
  by rewrite zip_with_map_same.
Qed.

Lemma quad_loop (rows : list (list R)) : forall K K' a X,
  globals K !! "ax" = Some (VAxes a) ->
  globals K !! "X_pred" = Some (VArray (np.F1 X)) ->
  for_each rows (quad_salmon_line w) K = Ok tt K' ->
  Forall (fun row => length row = 3%nat) rows /\
  lines_plotted (log K')
  = lines_plotted (log K) ++
    map (fun row => (X, np.quadratic (nth 0 row 0%R) (nth 1 row 0%R)
                          (nth 2 row 0%R) X)) rows.
Proof.
  induction rows as [| row rows IH]; intros K K' a X Ea EX H.
  - injection H as <-. split; [apply List.Forall_nil | by rewrite app_nil_r].
  - cbn [for_each] in H. unfold mbind at 1, Py_bind at 1 in H.
    destruct (quad_salmon_line w row K) as [[] K1 | e K1] eqn:Hrow;
      [| discriminate H].
    unfold quad_salmon_line in Hrow. py_run Hrow. destruct u. py_done Hrow.
    apply IH with (a := a) (X := X) in H as (Hl & Hlog).
    + split.
      * by apply List.Forall_cons.
      * rewrite Hlog. cbn [log]. unfold lines_plotted.
        rewrite omap_app. cbn. rewrite quadratic_zip. by rewrite <- app_assoc.
    + cbn [globals]. by rewrite !lookup_insert_ne.
    + cbn [globals]. by rewrite !lookup_insert_ne.
Qed.

Lemma quad_salmon_lines_drawn k k' X :
  globals k !! "X_pred" = Some (VArray (np.F1 X)) ->
  exec (quad_salmon_lines w) k = Ok tt k' ->
  exists t rows,
    globals k !! "quad_trace" = Some (VTrace t) /\
    trace_values t "β" = Some rows /\
    Forall (fun row => length row = 3%nat) (take 20 rows) /\
    lines_plotted (log k')
    = lines_plotted (log k) ++
      map (fun row => (X, np.quadratic (nth 0 row 0%R) (nth 1 row 0%R)
                            (nth 2 row 0%R) X))
        (take 20 rows).
Proof.
  intros EX H. unfold quad_salmon_lines in H.
  apply (exec_snoc_Ok [_; _]) in H as (k1 & H1 & H2).
  py_run H1. py_done H1. py_run H2.
  eapply quad_loop with (X := X) in H2 as (Hl & Hlog).
  - eexists _, _. repeat split; try done.
    rewrite Hlog. cbn [log]. unfold lines_plotted.
    rewrite !omap_app. cbn. by rewrite !app_nil_r.
  - cbn [globals]. by rewrite lookup_insert_eq.
  - cbn [globals]. by rewrite lookup_insert_ne.
Qed.

Lemma gp_loop (rows : list (list R)) : forall K K' a X,
  globals K !! "ax" = Some (VAxes a) ->
  globals K !! "X_pred" = Some (VArray (np.F1 X)) ->
  for_each rows (gp_salmon_line w) K = Ok tt K' ->
  lines_plotted (log K')
  = lines_plotted (log K) ++ map (fun row => (X, row)) rows /\
  globals K' !! "x"
  = match last rows with
    | Some row => Some (VArray (np.F1 row))
    | None => globals K !! "x"
    end.
Proof.
  induction rows as [| row rows IH]; intros K K' a X Ea EX H.
  - injection H as <-. split; [by rewrite app_nil_r | done].
  - cbn [for_each] in H. unfold mbind at 1, Py_bind at 1 in H.
    destruct (gp_salmon_line w row K) as [[] K1 | e K1] eqn:Hrow;
      [| discriminate H].
    unfold gp_salmon_line in Hrow. py_run Hrow. destruct u. py_done Hrow.
    apply IH with (a := a) (X := X) in H as (Hlog & Hx).
    + split.
      * rewrite Hlog. cbn [log]. unfold lines_plotted.
        rewrite omap_app. cbn. by rewrite <- app_assoc.
      * rewrite Hx, last_cons. cbn [globals].
        rewrite lookup_insert_eq. by destruct (last rows).
    + cbn [globals]. by rewrite !lookup_insert_ne.
    + cbn [globals]. by rewrite !lookup_insert_ne.
Qed.

Lemma gp_salmon_plot_3_drawn k k' X :
  globals k !! "X_pred" = Some (VArray (np.F1 X)) ->
  exec (gp_salmon_plot_3 w) k = Ok tt k' ->
  exists d rows,
    globals k !! "gp_salmon_samples" = Some (VSamples d) /\
    samples_of d "salmon_pred" = Some rows /\
    lines_plotted (log k')
    = lines_plotted (log k) ++ map (fun row => (X, row)) rows /\
    globals k' !! "x"
    = match last rows with
      | Some row => Some (VArray (np.F1 row))
      | None => globals k !! "x"
      end.
Proof.
  intros EX H. unfold gp_salmon_plot_3 in H.
  apply (exec_snoc_Ok [_; _]) in H as (k1 & H1 & H2).
  py_run H1. py_done H1. py_run H2.
  eapply gp_loop with (X := X) in H2 as (Hlog & Hx).
  - eexists _, _. repeat split; try done.
    + rewrite Hlog. cbn [log]. unfold lines_plotted.
      rewrite !omap_app. cbn. by rewrite !app_nil_r.
    + rewrite Hx. cbn [globals]. by rewrite lookup_insert_ne.
  - cbn [globals]. by rewrite lookup_insert_eq.
  - cbn [globals]. by rewrite lookup_insert_ne.
Qed.

End Lines.

(** ** The lines of the fits and of the samples *)

Lemma range_kept cells n m startup W C k k' :
  (forall top, Forall (frame top W C) (concat (take m (drop n cells)))) ->
  run_cells n cells startup = Ok tt k ->
  run_cells (n + m) cells startup = Ok tt k' ->
  agree W (globals k) (globals k') /\
  forall (B : Type) (p : event -> option B),
    (forall ev, ev_allowed C ev = true -> p ev = None) ->
    omap p (log k') = omap p (log k).
Proof.
  intros Hf Hn Hm. apply run_cells_split in Hm as (k1 & Hn' & Hm).
  rewrite Hn in Hn'. injection Hn' as <-. split.
  - by destruct (exec_quiet (fun _ => @None unit) W C _ _ _ Hf
                   (fun _ _ => eq_refl) Hm).
  - intros B p Hp. by destruct (exec_quiet p W C _ _ _ Hf Hp Hm).
Qed.

Lemma no_file_input_frame_read ev :
  ev_allowed no_file_input ev = true -> frame_read ev = None.
Proof.
  intros H. apply file_input_frame_read.
  by apply (allowed_no_file_input [KSetup; KSampling; KPredict; KPlot]).
Qed.

Lemma run_cells_prefix n m cells startup :
  is_ok (run_cells (n + m) cells startup) = true ->
  is_ok (run_cells n cells startup) = true.
Proof.
  intros H. apply is_ok_Ok in H as [[] H].
  by apply run_cells_split in H as (k & -> & _).
Qed.

Section Plots.
Variable w : World.
Variable startup : list wfilter.

Lemma salmon_range_0_8 top :
  Forall (frame top everything no_line) (concat (take 8 (drop 0 (salmon_cells w)))).
Proof. cell_frames. Qed.

Lemma salmon_range_10_1 top :
  Forall (frame top (protect ["X_pred"]) no_file_input)
    (concat (take 1 (drop 10 (salmon_cells w)))).
Proof. cell_frames. Qed.

Lemma salmon_range_5_11 top :
  Forall (frame top (protect ["x"; "y"; "salmon_data"]) no_file_input)
    (concat (take 11 (drop 5 (salmon_cells w)))).
Proof. cell_frames. Qed.

Lemma salmon_range_13_3 top :
  Forall (frame top (protect ["X_pred"; "salmon_data"]) no_file_input)
    (concat (take 3 (drop 13 (salmon_cells w)))).
Proof. cell_frames. Qed.

(** X11: the ninth cell draws one line per draw of [β] in
    [linear_trace], for the first 20 draws at most, each the line
    [b0 + b1·X_pred] over the grid; every draw it uses has exactly two
    entries, and no line was drawn before. *)
Theorem linear_lines_drawn :
  is_ok (run_cells 9 (salmon_cells w) startup) = true ->
  let k := kernel_of (run_cells 9 (salmon_cells w) startup) in
  exists t rows,
    globals k !! "linear_trace" = Some (VTrace t) /\
    trace_values t "β" = Some rows /\
    Forall (fun row => length row = 2%nat) (take 20 rows) /\
    lines_plotted (log k)
    = map (fun row => (np.linspace 0 500 100,
                       np.affine (nth 0 row 0%R) (nth 1 row 0%R)
                         (np.linspace 0 500 100)))
        (take 20 rows).
Proof.
  intros Hok k. apply is_ok_Ok in Hok as [[] Hok]. fold k in Hok.
  change 9%nat with (8 + 1)%nat in Hok.
  apply run_cells_split in Hok as (k8 & H8 & H).
  change 8%nat with (0 + 8)%nat in H8 at 1.
  destruct (range_kept _ 0 8 _ _ _ (fresh startup) k8 salmon_range_0_8
              eq_refl H8) as [_ Hq].
  specialize (Hq _ line_plotted no_line_allowed). cbn in Hq.
  unfold salmon_cells in H. cbn [take drop firstn skipn concat] in H.
  rewrite app_nil_r in H.
  let fp := salmon_footprint_at w 8%nat in footprint_step fp H A8 L8.
  apply linear_salmon_lines_drawn in H as (t & rows & Et & Er & Hl & Hlog).
  exists t, rows. repeat split; try done.
  - by rewrite (A8 "linear_trace" eq_refl).
  - rewrite Hlog. unfold lines_plotted at 1. by rewrite Hq.
Qed.

Lemma salmon_stage_11 k :
  run_cells 11 (salmon_cells w) startup = Ok tt k ->
  globals k !! "X_pred" = Some (VArray (np.F1 (np.linspace 0 500 100))).
Proof.
  intros H. pose proof H as H'.
  change 11%nat with (10 + 1)%nat in H'.
  apply run_cells_split in H' as (k10 & H10 & _).
  destruct (range_kept _ 10 1 _ _ _ k10 k salmon_range_10_1 H10 H) as [A _].
  apply salmon_stage_10 in H10 as (df & x & y & _ & _ & _ & EX).
  by rewrite (A "X_pred" eq_refl).
Qed.

(** X12: the twelfth cell adds to the lines drawn so far one parabola
    [b0 + b1·X_pred + b2·X_pred²] per draw of [β] in [quad_trace], for
    the first 20 draws at most; every draw it uses has exactly three
    entries. *)
Theorem quad_lines_drawn :
  is_ok (run_cells 12 (salmon_cells w) startup) = true ->
  let k11 := kernel_of (run_cells 11 (salmon_cells w) startup) in
  let k := kernel_of (run_cells 12 (salmon_cells w) startup) in
  exists t rows,
    globals k !! "quad_trace" = Some (VTrace t) /\
    trace_values t "β" = Some rows /\
    Forall (fun row => length row = 3%nat) (take 20 rows) /\
    lines_plotted (log k)
    = lines_plotted (log k11) ++
      map (fun row => (np.linspace 0 500 100,
                       map (fun v => nth 0 row 0 + nth 1 row 0 * v
                                     + nth 2 row 0 * v ^ 2)%R
                         (np.linspace 0 500 100)))
        (take 20 rows).
Proof.
  intros Hok k11 k. apply is_ok_Ok in Hok as [[] Hok]. fold k in Hok.
  change 12%nat with (11 + 1)%nat in Hok.
  apply run_cells_split in Hok as (k11' & H11 & H).
  assert (k11 = k11') as -> by (unfold k11; by rewrite H11).
  pose proof (salmon_stage_11 _ H11) as EX.
  unfold salmon_cells in H. cbn [take drop firstn skipn concat] in H.
  rewrite app_nil_r in H.
  let fp := salmon_footprint_at w 11%nat in footprint_step fp H A11 L11.
  apply (quad_salmon_lines_drawn _ _ _ _ EX) in H
    as (t & rows & Et & Er & Hl & Hlog).
  exists t, rows. repeat split; try done.
  by rewrite (A11 "quad_trace" eq_refl).
Qed.

Lemma salmon_stage_16 k :
  run_cells 16 (salmon_cells w) startup = Ok tt k ->
  exists df x y, salmon_loaded k df x y /\
    globals k !! "x" = Some (VArray (np.F1 x)) /\
    globals k !! "y" = Some (VArray (np.F1 y)) /\
    globals k !! "X_pred" = Some (VArray (np.F1 (np.linspace 0 500 100))).
Proof.
  intros H. pose proof H as H'. pose proof H as H''.
  change 16%nat with (13 + 3)%nat in H'.
  apply run_cells_split in H' as (k13 & H13 & _).
  change 16%nat with (5 + 11)%nat in H''.
  apply run_cells_split in H'' as (k5 & H5 & _).
  destruct (range_kept _ 13 3 _ _ _ k13 k salmon_range_13_3 H13 H) as [A13 Q13].
  destruct (range_kept _ 5 11 _ _ _ k5 k salmon_range_5_11 H5 H) as [A5 _].
  apply salmon_stage_13 in H13
    as (df & x & y & [Hr Hs Hrc Ed] & _ & _ & EX & _).
  apply salmon_stage_5 in H5
    as (df' & x' & y' & [Hr' Hs' Hrc' Ed'] & Ex & Ey).
  specialize (Q13 _ frame_read no_file_input_frame_read).
  fold (frames_read (log k)) in Q13. fold (frames_read (log k13)) in Q13.
  exists df, x', y'.
  assert (Edk : globals k !! "salmon_data" = Some (VFrame df))
    by (by rewrite (A13 "salmon_data" eq_refl)).
  assert (Edk5 : globals k !! "salmon_data" = Some (VFrame df'))
    by (by rewrite (A5 "salmon_data" eq_refl)).
  assert (df' = df) as -> by congruence.
  repeat split; try done.
  - congruence.
  - by rewrite (A5 "x" eq_refl).
  - by rewrite (A5 "y" eq_refl).
  - by rewrite (A13 "X_pred" eq_refl).
Qed.

(** X13: the seventeenth cell draws one line per posterior predictive
    sample of [salmon_pred] and, as its loop variable is [x], rebinds
    [x]: before the cell [x] is the column of spawners, after it [x]
    is the last sample (and still the spawners only when there was no
    sample). *)
Theorem plot_loop_rebinds_x :
  is_ok (run_cells 17 (salmon_cells w) startup) = true ->
  let k16 := kernel_of (run_cells 16 (salmon_cells w) startup) in
  let k := kernel_of (run_cells 17 (salmon_cells w) startup) in
  exists df s d rows,
    frames_read (log k) = [df] /\ spawners df = Some s /\
    globals k16 !! "x" = Some (VArray (np.F1 s)) /\
    globals k !! "gp_salmon_samples" = Some (VSamples d) /\
    samples_of d "salmon_pred" = Some rows /\
    lines_plotted (log k)
    = lines_plotted (log k16) ++
      map (fun row => (np.linspace 0 500 100, row)) rows /\
    globals k !! "x" = Some (VArray (np.F1 (default s (last rows)))).
Proof.
  intros Hok k16 k. apply is_ok_Ok in Hok as [[] Hok]. fold k in Hok.
  change 17%nat with (16 + 1)%nat in Hok.
  apply run_cells_split in Hok as (k16' & H16 & H).
  assert (k16 = k16') as -> by (unfold k16; by rewrite H16).
  destruct (salmon_stage_16 _ H16)
    as (df & x & y & [Hr Hs Hrc Ed] & Ex & Ey & EX).
  unfold salmon_cells in H. cbn [take drop firstn skipn concat] in H.
  rewrite app_nil_r in H.
  let fp := salmon_footprint_at w 16%nat in footprint_step fp H A16 L16.
  apply (gp_salmon_plot_3_drawn _ _ _ _ EX) in H
    as (d & rows & Ed' & Er & Hlog & Hx).
  exists df, x, d, rows. repeat split; try done.
  - congruence.
  - by rewrite (A16 "gp_salmon_samples" eq_refl).
  - rewrite Hx, Ex. by destruct (last rows).
Qed.

End Plots.

Lemma linear_lines_drawn_witness :
  is_ok (run_cells 9 (salmon_cells (world_with (two_streams 2))) []) = true /\
  (length (lines_plotted
             (log (kernel_of
                     (run_cells 9 (salmon_cells (world_with (two_streams 2))) []))))
   <= 20)%nat.
Proof.
  assert (H : is_ok (run_cells 9 (salmon_cells (world_with (two_streams 2))) [])
              = true) by (vm_compute; reflexivity).
  split; [exact H |].
  destruct (linear_lines_drawn (world_with (two_streams 2)) [] H)
    as (t & rows & _ & _ & _ & ->).
  rewrite length_map, length_take. lia.
Defined.

Lemma quad_lines_drawn_witness :
  is_ok (run_cells 12 (salmon_cells (world_with (two_streams 2))) []) = true /\
  (length (lines_plotted
             (log (kernel_of
                     (run_cells 12 (salmon_cells (world_with (two_streams 2))) []))))
   <= length (lines_plotted
                (log (kernel_of
                        (run_cells 11 (salmon_cells (world_with (two_streams 2)))
                           [])))) + 20)%nat.
Proof.
  assert (H : is_ok (run_cells 12 (salmon_cells (world_with (two_streams 2))) [])
              = true) by (vm_compute; reflexivity).
  split; [exact H |].
  destruct (quad_lines_drawn (world_with (two_streams 2)) [] H)
    as (t & rows & _ & _ & _ & ->).
  rewrite length_app, length_map, length_take. lia.
Defined.

Lemma plot_loop_rebinds_x_witness :
  is_ok (run_cells 17 (salmon_cells (world_with (two_streams 2))) []) = true /\
  globals (kernel_of (run_cells 17 (salmon_cells (world_with (two_streams 2))) []))
    !! "x" <> None.
Proof.
  assert (H : is_ok (run_cells 17 (salmon_cells (world_with (two_streams 2))) [])
              = true) by (vm_compute; reflexivity).
  split; [exact H |].
  destruct (plot_loop_rebinds_x (world_with (two_streams 2)) [] H)
    as (df & s & d & rows & _ & _ & _ & _ & _ & _ & ->).
  discriminate.
Defined.

(** ** The cells that sample and plot *)

Lemma no_sampler_sample ev :
  ev_allowed no_sampler ev = true -> sample_call ev = None.
Proof. destruct ev as [T c a]. by destruct c. Qed.

Lemma no_sampler_ppc ev :
  ev_allowed no_sampler ev = true -> ppc_call ev = None.
Proof. destruct ev as [T c a]. by destruct c. Qed.

Lemma no_band_allowed ev :
  ev_allowed no_band ev = true -> band_plotted ev = None.
Proof. destruct ev as [T c a]. by destruct c. Qed.

Lemma ppc_answers_of_calls (l : list event) :
  omap ppc_answer l
  = map (fun c => (snd (fst (fst c)), snd c)) (omap ppc_call l).
Proof.
  induction l as [| ev l IH]; [done |].
  cbn [omap list_omap]. unfold ppc_answer at 1.
  destruct (ppc_call ev) as [[[[[[m t] vars] samples] seed] d] |];
    cbn [map fst snd]; by rewrite IH.
Qed.

Lemma no_trace_plot_allowed ev :
  ev_allowed no_trace_plot ev = true -> trace_plotted ev = None.
Proof. destruct ev as [T c a]. by destruct c. Qed.

Section Samplers.
Variable w : World.

(** [with name: target = pm.sample(draws, tune=, cores=, chains=,
    random_seed=)]. *)
Lemma sample_cell_spec name target draws tune cores chains seed k k' m :
  globals k !! name = Some (VModel m) ->
  exec [ with_model name
           (m ← model_in_context;
            trace ← extern w (Sample m draws tune cores chains seed);
            assign target (VTrace trace)) ] k = Ok tt k' ->
  exists t,
    log k' = log k ++ [Event _ (Sample m draws tune cores chains seed) (inr t)] /\
    globals k' !! target = Some (VTrace t).
Proof.
  intros Em H. py_run H. py_done H.
  eexists. cbn [log globals]. split; [reflexivity |].
  by rewrite lookup_insert_eq.
Qed.

Lemma predict_3_spec k k' m g X t :
  globals k !! "gp_salmon_model" = Some (VModel m) ->
  globals k !! "recruit_gp" = Some (VGP g) ->
  globals k !! "X_pred" = Some (VArray (np.F1 X)) ->
  globals k !! "gp_trace" = Some (VTrace t) ->
  exec (gp_salmon_predict_3 w) k = Ok tt k' ->
  exists d,
    log k'
    = log k ++
      [Event _ (SamplePosteriorPredictive
                  (m ++ [conditional_node "salmon_pred" g X false]) t
                  [pm.TVar "salmon_pred"] 3 (Some 42%Z)) (inr d)] /\
    globals k' !! "gp_salmon_model"
    = Some (VModel (m ++ [conditional_node "salmon_pred" g X false])) /\
    globals k' !! "salmon_pred" = Some (VTensor (pm.TVar "salmon_pred")) /\
    globals k' !! "gp_salmon_samples" = Some (VSamples d).
Proof.
  intros Em Eg EX Et H. unfold gp_salmon_predict_3 in H. py_run H. py_done H.
  eexists. cbn [log globals]. repeat split; py_get.
Qed.

Lemma predict_100_spec k k' m t :
  globals k !! "gp_salmon_model" = Some (VModel m) ->
  globals k !! "salmon_pred" = Some (VTensor (pm.TVar "salmon_pred")) ->
  globals k !! "gp_trace" = Some (VTrace t) ->
  exec (gp_salmon_predict_100 w) k = Ok tt k' ->
  exists d,
    log k'
    = log k ++
      [Event _ (SamplePosteriorPredictive m t [pm.TVar "salmon_pred"] 100
                  (Some 42%Z)) (inr d)] /\
    globals k' !! "gp_salmon_samples" = Some (VSamples d).
Proof.
  intros Em Ev Et H. unfold gp_salmon_predict_100 in H. py_run H. py_done H.
  eexists. cbn [log globals]. repeat split; py_get.
Qed.

Lemma predict_noise_spec k k' m g X t :
  globals k !! "gp_salmon_model" = Some (VModel m) ->
  globals k !! "recruit_gp" = Some (VGP g) ->
  globals k !! "X_pred" = Some (VArray (np.F1 X)) ->
  globals k !! "gp_trace" = Some (VTrace t) ->
  exec (gp_salmon_predict_noise w) k = Ok tt k' ->
  exists d,
    log k'
    = log k ++
      [Event _ (SamplePosteriorPredictive
                  (m ++ [conditional_node "salmon_pred_noise" g X true]) t
                  [pm.TVar "salmon_pred_noise"] 500 (Some 42%Z)) (inr d)] /\
    globals k' !! "gp_salmon_samples" = Some (VSamples d).
Proof.
  intros Em Eg EX Et H. unfold gp_salmon_predict_noise in H. py_run H.
  py_done H. eexists. cbn [log globals]. repeat split; py_get.
Qed.

(** The cell that draws the band of the samples of [var_name]. *)
Lemma plot_dist_spec var_name k k' d X :
  globals k !! "gp_salmon_samples" = Some (VSamples d) ->
  globals k !! "X_pred" = Some (VArray (np.F1 X)) ->
  exec (gp_salmon_plot_dist w var_name) k = Ok tt k' ->
  exists rows,
    samples_of d var_name = Some rows /\
    omap band_plotted (log k')
    = omap band_plotted (log k) ++ [(rows, np.F1 X)].
Proof.
  intros Ed EX H. unfold gp_salmon_plot_dist in H. py_run H. py_done H.
  eexists. split; [done |]. cbn [log].
  rewrite !omap_app. cbn. by rewrite !app_nil_r.
Qed.

Lemma linear_plot_trace_spec k k' t :
  globals k !! "linear_trace" = Some (VTrace t) ->
  exec (linear_salmon_plot_trace w) k = Ok tt k' ->
  omap trace_plotted (log k') = omap trace_plotted (log k) ++ [(t, None)].
Proof.
  intros Et H. unfold linear_salmon_plot_trace in H. py_run H. py_done H.
  cbn [log]. rewrite !omap_app. cbn. by rewrite ?app_nil_r.
Qed.

Lemma gp_plot_trace_spec k k' t :
  globals k !! "gp_trace" = Some (VTrace t) ->
  exec (gp_salmon_plot_trace w) k = Ok tt k' ->
  omap trace_plotted (log k')
  = omap trace_plotted (log k) ++ [(t, Some ["ρ"; "η"; "σ"])].
Proof.
  intros Et H. unfold gp_salmon_plot_trace in H. py_run H. py_done H.
  cbn [log]. rewrite !omap_app. cbn. by rewrite ?app_nil_r.
Qed.

Lemma disasters_plot_posterior_spec k k' t :
  globals k !! "trace" = Some (VTrace t) ->
  exec (disasters_plot_posterior w) k = Ok tt k' ->
  omap trace_plotted (log k')
  = omap trace_plotted (log k) ++ [(t, Some ["ρ"; "η"])].
Proof.
  intros Et H. unfold disasters_plot_posterior in H. py_run H. py_done H.
  cbn [log]. rewrite !omap_app. cbn. by rewrite ?app_nil_r.
Qed.

End Samplers.

(** ** From the samplers to the plots: the salmon notebook *)

Lemma run_cells_at n m cells startup k :
  run_cells (n + m) cells startup = Ok tt k ->
  exists k', run_cells n cells startup = Ok tt k'.
Proof. intros H. apply run_cells_split in H as (k' & H & _). by exists k'. Qed.

Lemma cell_at n cells startup k k' :
  run_cells n cells startup = Ok tt k ->
  run_cells (n + 1) cells startup = Ok tt k' ->
  exec (concat (take 1 (drop n cells))) k = Ok tt k'.
Proof.
  intros Hn H. apply run_cells_split in H as (k1 & Hn' & H).
  rewrite Hn in Hn'. by injection Hn' as <-.
Qed.

Section Sampler_calls.
Variable w : World.
Variable startup : list wfilter.

Lemma quiet_0_6 top :
  Forall (frame top everything no_sampler)
    (concat (take 6 (drop 0 (salmon_cells w)))).
Proof. cell_frames. Qed.

Lemma quiet_7_3 top :
  Forall (frame top (protect ["linear_trace"]) no_sampler)
    (concat (take 3 (drop 7 (salmon_cells w)))).
Proof. cell_frames. Qed.

Lemma quiet_11_2 top :
  Forall (frame top (protect ["linear_trace"; "quad_trace"]) no_sampler)
    (concat (take 2 (drop 11 (salmon_cells w)))).
Proof. cell_frames. Qed.

Lemma quiet_14_1 top :
  Forall (frame top
            (protect ["linear_trace"; "quad_trace"; "gp_trace";
                      "gp_salmon_model"; "recruit_gp"; "salmon_pred";
                      "gp_salmon_samples"; "X_pred"]) no_sampler)
    (concat (take 1 (drop 14 (salmon_cells w)))).
Proof. cell_frames. Qed.

Lemma quiet_16_1 top :
  Forall (frame top
            (protect ["linear_trace"; "quad_trace"; "gp_trace";
                      "gp_salmon_model"; "recruit_gp"; "salmon_pred";
                      "gp_salmon_samples"; "X_pred"]) no_sampler)
    (concat (take 1 (drop 16 (salmon_cells w)))).
Proof. cell_frames. Qed.

Lemma quiet_18_1 top :
  Forall (frame top
            (protect ["linear_trace"; "quad_trace"; "gp_trace";
                      "gp_salmon_model"; "recruit_gp"; "salmon_pred";
                      "gp_salmon_samples"; "X_pred"]) no_sampler)
    (concat (take 1 (drop 18 (salmon_cells w)))).
Proof. cell_frames. Qed.

Lemma quiet_20_2 top :
  Forall (frame top
            (protect ["linear_trace"; "quad_trace"; "gp_trace";
                      "gp_salmon_model"; "recruit_gp"; "salmon_pred";
                      "gp_salmon_samples"; "X_pred"]) no_sampler)
    (concat (take 2 (drop 20 (salmon_cells w)))).
Proof. cell_frames. Qed.

Lemma kept_6_16 top :
  Forall (frame top (protect ["linear_salmon_model"]) no_file_input)
    (concat (take 16 (drop 6 (salmon_cells w)))).
Proof. cell_frames. Qed.

Lemma kept_10_12 top :
  Forall (frame top (protect ["quad_salmon_model"]) no_file_input)
    (concat (take 12 (drop 10 (salmon_cells w)))).
Proof. cell_frames. Qed.

Lemma kept_13_9 top :
  Forall (frame top everything no_file_input)
    (concat (take 9 (drop 13 (salmon_cells w)))).
Proof. cell_frames. Qed.

Lemma band_0_18 top :
  Forall (frame top everything no_band)
    (concat (take 18 (drop 0 (salmon_cells w)))).
Proof. cell_frames. Qed.

Lemma band_19_1 top :
  Forall (frame top everything no_band)
    (concat (take 1 (drop 19 (salmon_cells w)))).
Proof. cell_frames. Qed.

Lemma quiet_20_1 top :
  Forall (frame top
            (protect ["linear_trace"; "quad_trace"; "gp_trace";
                      "gp_salmon_model"; "recruit_gp"; "salmon_pred";
                      "gp_salmon_samples"; "X_pred"]) no_sampler)
    (concat (take 1 (drop 20 (salmon_cells w)))).
Proof. cell_frames. Qed.

Lemma tplot_0_7 top :
  Forall (frame top everything no_trace_plot)
    (concat (take 7 (drop 0 (salmon_cells w)))).
Proof. cell_frames. Qed.

Lemma tplot_8_6 top :
  Forall (frame top everything no_trace_plot)
    (concat (take 6 (drop 8 (salmon_cells w)))).
Proof. cell_frames. Qed.

Lemma tplot_15_7 top :
  Forall (frame top everything no_trace_plot)
    (concat (take 7 (drop 15 (salmon_cells w)))).
Proof. cell_frames. Qed.

(** The calls of the samplers and of [plot_gp_dist] in a run of the
    salmon notebook, and the names their answers are bound to. *)
Lemma salmon_data_flow :
  is_ok (run (salmon_cells w) startup) = true ->
  let k := kernel_of (run (salmon_cells w) startup) in
  exists df x y t1 t2 t3 d1 d2 d3 rows2 rows3,
    frames_read (log k) = [df] /\
    spawners df = Some x /\ recruits df = Some y /\
    omap sample_call (log k)
    = [ (regression_model 2 (linear_mu x) y,
         (1000, 2000, Some 2, None, None)%nat, t1);
        (regression_model 3 (quad_mu x) y,
         (1000, 2000, Some 2, None, Some 1%Z)%nat, t2);
        (gp_salmon_nodes y x,
         (1000, 2000, Some 2, None, Some 42%Z)%nat, t3) ] /\
    omap ppc_call (log k)
    = [ (gp_salmon_nodes y x ++
         [conditional_node "salmon_pred" (recruit_gp y x)
            (np.linspace 0 500 100) false],
         t3, [pm.TVar "salmon_pred"], 3%nat, Some 42%Z, d1);
        (gp_salmon_nodes y x ++
         [conditional_node "salmon_pred" (recruit_gp y x)
            (np.linspace 0 500 100) false],
         t3, [pm.TVar "salmon_pred"], 100%nat, Some 42%Z, d2);
        ((gp_salmon_nodes y x ++
          [conditional_node "salmon_pred" (recruit_gp y x)
             (np.linspace 0 500 100) false]) ++
         [conditional_node "salmon_pred_noise" (recruit_gp y x)
            (np.linspace 0 500 100) true],
         t3, [pm.TVar "salmon_pred_noise"], 500%nat, Some 42%Z, d3) ] /\
    globals k !! "linear_trace" = Some (VTrace t1) /\
    globals k !! "quad_trace" = Some (VTrace t2) /\
    globals k !! "gp_trace" = Some (VTrace t3) /\
    globals k !! "gp_salmon_samples" = Some (VSamples d3) /\
    samples_of d2 "salmon_pred" = Some rows2 /\
    samples_of d3 "salmon_pred_noise" = Some rows3 /\
    omap band_plotted (log k)
    = [ (rows2, np.F1 (np.linspace 0 500 100));
        (rows3, np.F1 (np.linspace 0 500 100)) ] /\
    omap trace_plotted (log k)
    = [ (t1, None); (t3, Some ["ρ"; "η"; "σ"]) ].
Proof.
  intros Hok k. apply is_ok_Ok in Hok as [[] H]. fold k in H.
  change (run (salmon_cells w) startup)
    with (run_cells 22 (salmon_cells w) startup) in H.
  destruct (run_cells_at 21 1 _ _ _ H) as (k21 & H21).
  destruct (run_cells_at 20 1 _ _ _ H21) as (k20 & H20).
  destruct (run_cells_at 19 1 _ _ _ H20) as (k19 & H19).
  destruct (run_cells_at 18 1 _ _ _ H19) as (k18 & H18).
  destruct (run_cells_at 17 1 _ _ _ H18) as (k17 & H17).
  destruct (run_cells_at 16 1 _ _ _ H17) as (k16 & H16).
  destruct (run_cells_at 15 1 _ _ _ H16) as (k15 & H15).
  destruct (run_cells_at 14 1 _ _ _ H15) as (k14 & H14).
  destruct (run_cells_at 13 1 _ _ _ H14) as (k13 & H13).
  destruct (run_cells_at 11 2 _ _ _ H13) as (k11 & H11).
  destruct (run_cells_at 10 1 _ _ _ H11) as (k10 & H10).
  destruct (run_cells_at 7 3 _ _ _ H10) as (k7 & H7).
  destruct (run_cells_at 6 1 _ _ _ H7) as (k6 & H6).
  (* the data and the models *)
  destruct (salmon_stage_22 _ _ _ H) as (df & x & y & [Hr Hs Hrc _] & El & Eq & _).
  destruct (salmon_stage_13 _ _ _ H13)
    as (df' & x' & y' & [Hr' Hs' Hrc' _] & _ & _ & EX & Egp & Eg & _).
  destruct (range_kept _ 13 9 _ _ _ k13 k (kept_13_9) H13 H) as [_ F13].
  specialize (F13 _ frame_read no_file_input_frame_read).
  fold (frames_read (log k)) in F13. fold (frames_read (log k13)) in F13.
  rewrite Hr, Hr' in F13. injection F13 as <-.
  assert (x' = x) as -> by congruence. assert (y' = y) as -> by congruence.
  destruct (range_kept _ 6 16 _ _ _ k6 k (kept_6_16) H6 H) as [A6 _].
  rewrite (A6 "linear_salmon_model" eq_refl) in El.
  destruct (range_kept _ 10 12 _ _ _ k10 k (kept_10_12) H10 H) as [A10 _].
  rewrite (A10 "quad_salmon_model" eq_refl) in Eq.
  (* cells 1 to 6 *)
  destruct (range_kept _ 0 6 _ _ _ (fresh startup) k6 quiet_0_6 eq_refl H6)
    as [_ Q0].
  pose proof (Q0 _ sample_call no_sampler_sample) as S6.
  pose proof (Q0 _ ppc_call no_sampler_ppc) as P6. cbn in S6, P6.
  (* the linear fit *)
  pose proof (cell_at 6 _ _ _ _ H6 H7) as C6. open_cell C6.
  unfold linear_salmon_sample in C6.
  destruct (sample_cell_spec _ _ _ _ _ _ _ _ _ _ _ El C6) as (t1 & L7 & Et1).
  assert (S7 : omap sample_call (log k7)
               = [(regression_model 2 (linear_mu x) y,
                   (1000, 2000, Some 2, None, None)%nat, t1)])
    by (log_step sample_call L7 S6).
  assert (P7 : omap ppc_call (log k7) = []) by (log_step ppc_call L7 P6).
  (* its trace is plotted *)
  destruct (run_cells_at 8 2 _ _ _ H10) as (k8 & H8).
  destruct (range_kept _ 0 7 _ _ _ (fresh startup) k7 tplot_0_7 eq_refl H7)
    as [_ T0].
  specialize (T0 _ trace_plotted no_trace_plot_allowed). cbn in T0.
  pose proof (cell_at 7 _ _ _ _ H7 H8) as C7. open_cell C7.
  pose proof (linear_plot_trace_spec _ _ _ _ Et1 C7) as T8.
  rewrite T0 in T8. cbn [app] in T8.
  destruct (range_kept _ 8 6 _ _ _ k8 k14 tplot_8_6 H8 H14) as [_ T8'].
  rewrite <- (T8' _ trace_plotted no_trace_plot_allowed) in T8.
  destruct (range_kept _ 7 3 _ _ _ k7 k10 quiet_7_3 H7 H10) as [A7 Q7].
  rewrite <- (Q7 _ sample_call no_sampler_sample) in S7.
  rewrite <- (Q7 _ ppc_call no_sampler_ppc) in P7.
  rewrite <- (A7 "linear_trace" eq_refl) in Et1.
  (* the quadratic fit *)
  pose proof (cell_at 10 _ _ _ _ H10 H11) as C10. open_cell C10.
  let fp := salmon_footprint_at w 10%nat in footprint_step fp C10 G10 F10.
  unfold quad_salmon_sample in C10.
  destruct (sample_cell_spec _ _ _ _ _ _ _ _ _ _ _ Eq C10) as (t2 & L11 & Et2).
  rewrite <- (G10 "linear_trace" eq_refl) in Et1.
  assert (S11 : omap sample_call (log k11)
               = [(regression_model 2 (linear_mu x) y,
                   (1000, 2000, Some 2, None, None)%nat, t1);
                  (regression_model 3 (quad_mu x) y,
                   (1000, 2000, Some 2, None, Some 1%Z)%nat, t2)])
    by (log_step sample_call L11 S7).
  assert (P11 : omap ppc_call (log k11) = []) by (log_step ppc_call L11 P7).
  destruct (range_kept _ 11 2 _ _ _ k11 k13 quiet_11_2 H11 H13) as [A11 Q11].
  rewrite <- (Q11 _ sample_call no_sampler_sample) in S11.
  rewrite <- (Q11 _ ppc_call no_sampler_ppc) in P11.
  rewrite <- (A11 "linear_trace" eq_refl) in Et1.
  rewrite <- (A11 "quad_trace" eq_refl) in Et2.
  (* the GP fit *)
  pose proof (cell_at 13 _ _ _ _ H13 H14) as C13. open_cell C13.
  let fp := salmon_footprint_at w 13%nat in footprint_step fp C13 G13 F13.
  unfold gp_salmon_sample in C13.
  destruct (sample_cell_spec _ _ _ _ _ _ _ _ _ _ _ Egp C13) as (t3 & L14 & Et3).
  rewrite <- (G13 "linear_trace" eq_refl) in Et1.
  rewrite <- (G13 "quad_trace" eq_refl) in Et2.
  rewrite <- (G13 "gp_salmon_model" eq_refl) in Egp.
  rewrite <- (G13 "recruit_gp" eq_refl) in Eg.
  rewrite <- (G13 "X_pred" eq_refl) in EX.
  assert (S14 : omap sample_call (log k14)
               = [(regression_model 2 (linear_mu x) y,
                   (1000, 2000, Some 2, None, None)%nat, t1);
                  (regression_model 3 (quad_mu x) y,
                   (1000, 2000, Some 2, None, Some 1%Z)%nat, t2);
                  (gp_salmon_nodes y x,
                   (1000, 2000, Some 2, None, Some 42%Z)%nat, t3)])
    by (log_step sample_call L14 S11).
  assert (P14 : omap ppc_call (log k14) = []) by (log_step ppc_call L14 P11).
  (* its trace is plotted *)
  pose proof (cell_at 14 _ _ _ _ H14 H15) as C14. open_cell C14.
  pose proof (gp_plot_trace_spec _ _ _ _ Et3 C14) as T15.
  rewrite T8 in T15. cbn [app] in T15.
  destruct (range_kept _ 15 7 _ _ _ k15 k tplot_15_7 H15 H) as [_ T15'].
  rewrite <- (T15' _ trace_plotted no_trace_plot_allowed) in T15.
  destruct (range_kept _ 14 1 _ _ _ k14 k15 quiet_14_1 H14 H15) as [A14 Q14].
  rewrite <- (Q14 _ sample_call no_sampler_sample) in S14.
  rewrite <- (Q14 _ ppc_call no_sampler_ppc) in P14.
  rewrite <- (A14 "linear_trace" eq_refl) in Et1.
  rewrite <- (A14 "quad_trace" eq_refl) in Et2.
  rewrite <- (A14 "gp_trace" eq_refl) in Et3.
  rewrite <- (A14 "gp_salmon_model" eq_refl) in Egp.
  rewrite <- (A14 "recruit_gp" eq_refl) in Eg.
  rewrite <- (A14 "X_pred" eq_refl) in EX.
  (* three samples of the prediction *)
  pose proof (cell_at 15 _ _ _ _ H15 H16) as C15. open_cell C15.
  let fp := salmon_footprint_at w 15%nat in footprint_step fp C15 G15 F15.
  destruct (predict_3_spec _ _ _ _ _ _ _ Egp Eg EX Et3 C15)
    as (d1 & L16 & Em5 & Ev & _).
  rewrite <- (G15 "linear_trace" eq_refl) in Et1.
  rewrite <- (G15 "quad_trace" eq_refl) in Et2.
  rewrite <- (G15 "gp_trace" eq_refl) in Et3.
  rewrite <- (G15 "recruit_gp" eq_refl) in Eg.
  rewrite <- (G15 "X_pred" eq_refl) in EX.
  assert (S16 : omap sample_call (log k16) = omap sample_call (log k15))
    by (rewrite L16, omap_app; cbn; by rewrite app_nil_r).
  rewrite S14 in S16.
  assert (P16 : omap ppc_call (log k16)
               = [(gp_salmon_nodes y x ++
                   [conditional_node "salmon_pred" (recruit_gp y x)
                      (np.linspace 0 500 100) false],
                   t3, [pm.TVar "salmon_pred"], 3%nat, Some 42%Z, d1)])
    by (log_step ppc_call L16 P14).
  destruct (range_kept _ 16 1 _ _ _ k16 k17 quiet_16_1 H16 H17) as [A16 Q16].
  rewrite <- (Q16 _ sample_call no_sampler_sample) in S16.
  rewrite <- (Q16 _ ppc_call no_sampler_ppc) in P16.
  rewrite <- (A16 "linear_trace" eq_refl) in Et1.
  rewrite <- (A16 "quad_trace" eq_refl) in Et2.
  rewrite <- (A16 "gp_trace" eq_refl) in Et3.
  rewrite <- (A16 "gp_salmon_model" eq_refl) in Em5.
  rewrite <- (A16 "recruit_gp" eq_refl) in Eg.
  rewrite <- (A16 "salmon_pred" eq_refl) in Ev.
  rewrite <- (A16 "X_pred" eq_refl) in EX.
  (* a hundred samples *)
  pose proof (cell_at 17 _ _ _ _ H17 H18) as C17. open_cell C17.
  let fp := salmon_footprint_at w 17%nat in footprint_step fp C17 G17 F17.
  destruct (predict_100_spec _ _ _ _ _ Em5 Ev Et3 C17) as (d2 & L18 & Ed2).
  rewrite <- (G17 "linear_trace" eq_refl) in Et1.
  rewrite <- (G17 "quad_trace" eq_refl) in Et2.
  rewrite <- (G17 "gp_trace" eq_refl) in Et3.
  rewrite <- (G17 "gp_salmon_model" eq_refl) in Em5.
  rewrite <- (G17 "recruit_gp" eq_refl) in Eg.
  rewrite <- (G17 "X_pred" eq_refl) in EX.
  assert (S18 : omap sample_call (log k18) = omap sample_call (log k17))
    by (rewrite L18, omap_app; cbn; by rewrite app_nil_r).
  rewrite S16 in S18.
  assert (P18 : omap ppc_call (log k18)
               = [(gp_salmon_nodes y x ++
                   [conditional_node "salmon_pred" (recruit_gp y x)
                      (np.linspace 0 500 100) false],
                   t3, [pm.TVar "salmon_pred"], 3%nat, Some 42%Z, d1);
                  (gp_salmon_nodes y x ++
                   [conditional_node "salmon_pred" (recruit_gp y x)
                      (np.linspace 0 500 100) false],
                   t3, [pm.TVar "salmon_pred"], 100%nat, Some 42%Z, d2)])
    by (log_step ppc_call L18 P16).
  (* the band of the hundred samples *)
  destruct (range_kept _ 0 18 _ _ _ (fresh startup) k18 band_0_18 eq_refl H18)
    as [_ B0].
  specialize (B0 _ band_plotted no_band_allowed). cbn in B0.
  pose proof (cell_at 18 _ _ _ _ H18 H19) as C18. open_cell C18.
  destruct (plot_dist_spec _ _ _ _ _ _ Ed2 EX C18) as (rows2 & Er2 & B19).
  rewrite B0 in B19. cbn [app] in B19.
  destruct (range_kept _ 18 1 _ _ _ k18 k19 quiet_18_1 H18 H19) as [A18 Q18].
  rewrite <- (Q18 _ sample_call no_sampler_sample) in S18.
  rewrite <- (Q18 _ ppc_call no_sampler_ppc) in P18.
  rewrite <- (A18 "linear_trace" eq_refl) in Et1.
  rewrite <- (A18 "quad_trace" eq_refl) in Et2.
  rewrite <- (A18 "gp_trace" eq_refl) in Et3.
  rewrite <- (A18 "gp_salmon_model" eq_refl) in Em5.
  rewrite <- (A18 "recruit_gp" eq_refl) in Eg.
  rewrite <- (A18 "X_pred" eq_refl) in EX.
  (* five hundred samples with noise *)
  pose proof (cell_at 19 _ _ _ _ H19 H20) as C19. open_cell C19.
  let fp := salmon_footprint_at w 19%nat in footprint_step fp C19 G19 F19.
  destruct (predict_noise_spec _ _ _ _ _ _ _ Em5 Eg EX Et3 C19)
    as (d3 & L20 & Ed3).
  rewrite <- (G19 "linear_trace" eq_refl) in Et1.
  rewrite <- (G19 "quad_trace" eq_refl) in Et2.
  rewrite <- (G19 "gp_trace" eq_refl) in Et3.
  rewrite <- (G19 "X_pred" eq_refl) in EX.
  destruct (range_kept _ 19 1 _ _ _ k19 k20 band_19_1 H19 H20) as [_ B19'].
  rewrite <- (B19' _ band_plotted no_band_allowed) in B19.
  assert (S20 : omap sample_call (log k20) = omap sample_call (log k19))
    by (rewrite L20, omap_app; cbn; by rewrite app_nil_r).
  rewrite S18 in S20.
  pose proof (f_equal (omap ppc_call) L20) as P20.
  rewrite omap_app, P18 in P20. cbn [omap list_omap ppc_call app] in P20.
  (* the band of the five hundred samples *)
  pose proof (cell_at 20 _ _ _ _ H20 H21) as C20. open_cell C20.
  destruct (plot_dist_spec _ _ _ _ _ _ Ed3 EX C20) as (rows3 & Er3 & B21).
  rewrite B19 in B21. cbn [app] in B21.
  destruct (range_kept _ 20 1 _ _ _ k20 k21 quiet_20_1 H20 H21) as [A20 Q20].
  rewrite <- (Q20 _ sample_call no_sampler_sample) in S20.
  rewrite <- (Q20 _ ppc_call no_sampler_ppc) in P20.
  rewrite <- (A20 "linear_trace" eq_refl) in Et1.
  rewrite <- (A20 "quad_trace" eq_refl) in Et2.
  rewrite <- (A20 "gp_trace" eq_refl) in Et3.
  rewrite <- (A20 "gp_salmon_samples" eq_refl) in Ed3.
  (* the last cell is empty *)
  assert (k21 = k) as <-.
  { pose proof (cell_at 21 _ _ _ _ H21 H) as C21. open_cell C21.
    by injection C21. }
  exists df, x, y, t1, t2, t3, d1, d2, d3, rows2, rows3. repeat split; done.
Qed.

(** X14: in a complete run of the salmon notebook [pm.sample] is
    called three times, with 1000 draws, 2000 tuning steps and 2
    cores, on the linear model (no seed), the quadratic model (seed 1)
    and the GP model as first declared (seed 42); the posterior
    predictive sampler is called three times, each time with the trace
    the third call returned and seed 42: for 3 and for 100 samples of
    [salmon_pred] in the model extended by it, and for 500 samples of
    [salmon_pred_noise] in the model extended by both.  The traces and
    the last samples are bound to [linear_trace], [quad_trace],
    [gp_trace] and [gp_salmon_samples]. *)
Theorem salmon_sampler_calls :
  is_ok (run (salmon_cells w) startup) = true ->
  let k := kernel_of (run (salmon_cells w) startup) in
  exists df x y t1 t2 t3 d1 d2 d3,
    frames_read (log k) = [df] /\
    spawners df = Some x /\ recruits df = Some y /\
    omap sample_call (log k)
    = [ (regression_model 2 (linear_mu x) y,
         (1000, 2000, Some 2, None, None)%nat, t1);
        (regression_model 3 (quad_mu x) y,
         (1000, 2000, Some 2, None, Some 1%Z)%nat, t2);
        (gp_salmon_nodes y x,
         (1000, 2000, Some 2, None, Some 42%Z)%nat, t3) ] /\
    omap ppc_call (log k)
    = [ (gp_salmon_nodes y x ++
         [conditional_node "salmon_pred" (recruit_gp y x)
            (np.linspace 0 500 100) false],
         t3, [pm.TVar "salmon_pred"], 3%nat, Some 42%Z, d1);
        (gp_salmon_nodes y x ++
         [conditional_node "salmon_pred" (recruit_gp y x)
            (np.linspace 0 500 100) false],
         t3, [pm.TVar "salmon_pred"], 100%nat, Some 42%Z, d2);
        ((gp_salmon_nodes y x ++
          [conditional_node "salmon_pred" (recruit_gp y x)
             (np.linspace 0 500 100) false]) ++
         [conditional_node "salmon_pred_noise" (recruit_gp y x)
            (np.linspace 0 500 100) true],
         t3, [pm.TVar "salmon_pred_noise"], 500%nat, Some 42%Z, d3) ] /\
    globals k !! "linear_trace" = Some (VTrace t1) /\
    globals k !! "quad_trace" = Some (VTrace t2) /\
    globals k !! "gp_trace" = Some (VTrace t3) /\
    globals k !! "gp_salmon_samples" = Some (VSamples d3).
Proof.
  intros Hok k.
  destruct (salmon_data_flow Hok)
    as (df & x & y & t1 & t2 & t3 & d1 & d2 & d3 & rows2 & rows3 & H).
  fold k in H. exists df, x, y, t1, t2, t3, d1, d2, d3. tauto.
Qed.

(** X15: [plot_gp_dist] is called twice in the salmon notebook, over
    the grid [X_pred]: with the samples of [salmon_pred] that the call
    for 100 samples returned, then with the samples of
    [salmon_pred_noise] that the call for 500 samples returned. *)
Theorem salmon_bands_drawn :
  is_ok (run (salmon_cells w) startup) = true ->
  let k := kernel_of (run (salmon_cells w) startup) in
  exists d1 d2 d3 rows2 rows3,
    omap ppc_answer (log k) = [(3, d1); (100, d2); (500, d3)]%nat /\
    samples_of d2 "salmon_pred" = Some rows2 /\
    samples_of d3 "salmon_pred_noise" = Some rows3 /\
    omap band_plotted (log k)
    = [ (rows2, np.F1 (np.linspace 0 500 100));
        (rows3, np.F1 (np.linspace 0 500 100)) ].
Proof.
  intros Hok k.
  destruct (salmon_data_flow Hok)
    as (df & x & y & t1 & t2 & t3 & d1 & d2 & d3 & rows2 & rows3 & H).
  fold k in H.
  destruct H as (_ & _ & _ & _ & HP & _ & _ & _ & _ & H2 & H3 & HB & _).
  exists d1, d2, d3, rows2, rows3. repeat split; try done.
  rewrite ppc_answers_of_calls, HP. reflexivity.
Qed.


End Sampler_calls.

Lemma salmon_sampler_calls_witness :
  is_ok (run (salmon_cells (world_with (two_streams 2))) []) = true /\
  length (omap sample_call
            (log (kernel_of (run (salmon_cells (world_with (two_streams 2))) []))))
  = 3%nat.
Proof.
  assert (H : is_ok (run (salmon_cells (world_with (two_streams 2))) []) = true)
    by (vm_compute; reflexivity).
  split; [exact H |].
  destruct (salmon_sampler_calls (world_with (two_streams 2)) [] H)
    as (df & x & y & t1 & t2 & t3 & d1 & d2 & d3 & _ & _ & _ & -> & _).
  reflexivity.
Defined.

Lemma salmon_bands_drawn_witness :
  is_ok (run (salmon_cells (world_with (two_streams 2))) []) = true /\
  length (omap band_plotted
            (log (kernel_of (run (salmon_cells (world_with (two_streams 2))) []))))
  = 2%nat.
Proof.
  assert (H : is_ok (run (salmon_cells (world_with (two_streams 2))) []) = true)
    by (vm_compute; reflexivity).
  split; [exact H |].
  destruct (salmon_bands_drawn (world_with (two_streams 2)) [] H)
    as (d1 & d2 & d3 & rows2 & rows3 & _ & _ & _ & ->).
  reflexivity.
Defined.


(** ** From the samplers to the plots: the disasters notebook *)

Section Disasters_flow.
Variable w : World.
Variable startup : list wfilter.

Lemma disasters_predict_spec k k' m t :
  globals k !! "disasters_model" = Some (VModel m) ->
  globals k !! "f" = Some (VTensor (pm.TVar "f")) ->
  globals k !! "trace" = Some (VTrace t) ->
  exec (disasters_predict w) k = Ok tt k' ->
  exists d,
    log k'
    = log k ++
      [Event _ (SamplePosteriorPredictive m t [pm.TVar "f"] 1000 None)
         (inr d)] /\
    globals k' !! "y_pred" = Some (VSamples d).
Proof.
  intros Em Ef Et H. unfold disasters_predict in H. py_run H. py_done H.
  eexists. cbn [log globals]. repeat split; py_get.
Qed.

Lemma disasters_plot_rate_spec k k' d years :
  globals k !! "y_pred" = Some (VSamples d) ->
  globals k !! "year" = Some (VArray (np.I1 years)) ->
  exec (disasters_plot_rate w) k = Ok tt k' ->
  exists rows,
    samples_of d "f" = Some rows /\
    omap band_plotted (log k')
    = omap band_plotted (log k) ++
      [(map (map exp) rows, np.I2 (map (fun y => [y]) years))].
Proof.
  intros Ed Ey H. unfold disasters_plot_rate in H. py_run H. py_done H.
  eexists. split; [done |]. cbn [log].
  rewrite !omap_app. cbn. by rewrite !app_nil_r.
Qed.

Lemma disasters_stage_5 k :
  run_cells 5 (disasters_cells w) startup = Ok tt k ->
  globals k !! "f" = Some (VTensor (pm.TVar "f")).
Proof.
  intros H. change 5%nat with (2 + 3)%nat in H.
  apply run_cells_split in H as (k2 & H2 & H).
  apply disasters_stage_2 in H2 as (Ed & Ey & Ei).
  unfold disasters_cells in H. cbn [take drop firstn skipn concat] in H.
  split_cells H. injection H as <-.
  let fp := disasters_footprint_at w 2%nat in footprint_step fp Hcell G2 L2.
  let fp := disasters_footprint_at w 3%nat in footprint_step fp Hcell0 G3 L3.
  destruct (disasters_model_spec _ _ Hcell0) as [Em Eg].
  carry G2 Ei. carry G3 Ei0.
  by destruct (disasters_prior_spec _ _ _ Em Eg Ei1 Hcell1) as [_ Ef].
Qed.

Lemma dquiet_0_6 top :
  Forall (frame top everything no_sampler)
    (concat (take 6 (drop 0 (disasters_cells w)))).
Proof. cell_frames. Qed.

Lemma dkept_5_4 top :
  Forall (frame top (protect ["f"]) no_file_input)
    (concat (take 4 (drop 5 (disasters_cells w)))).
Proof. cell_frames. Qed.

Lemma dkept_6_4 top :
  Forall (frame top (protect ["year"; "disasters_model"]) no_file_input)
    (concat (take 4 (drop 6 (disasters_cells w)))).
Proof. cell_frames. Qed.

Lemma dquiet_7_2 top :
  Forall (frame top (protect ["trace"; "disasters_model"]) no_sampler)
    (concat (take 2 (drop 7 (disasters_cells w)))).
Proof. cell_frames. Qed.

Lemma dquiet_10_1 top :
  Forall (frame top (protect ["trace"; "y_pred"]) no_sampler)
    (concat (take 1 (drop 10 (disasters_cells w)))).
Proof. cell_frames. Qed.

Lemma dband_0_10 top :
  Forall (frame top everything no_band)
    (concat (take 10 (drop 0 (disasters_cells w)))).
Proof. cell_frames. Qed.

Lemma dtplot_0_7 top :
  Forall (frame top everything no_trace_plot)
    (concat (take 7 (drop 0 (disasters_cells w)))).
Proof. cell_frames. Qed.

Lemma dtplot_8_3 top :
  Forall (frame top everything no_trace_plot)
    (concat (take 3 (drop 8 (disasters_cells w)))).
Proof. cell_frames. Qed.

(** The calls of the samplers and of the plots of their answers in a
    run of the disasters notebook. *)
Lemma disasters_data_flow :
  is_ok (run (disasters_cells w) startup) = true ->
  let k := kernel_of (run (disasters_cells w) startup) in
  exists t d rows,
    omap sample_call (log k)
    = [(disasters_nodes, (1000, 1000, None, Some 2, None)%nat, t)] /\
    omap ppc_call (log k)
    = [(disasters_nodes, t, [pm.TVar "f"], 1000%nat, None, d)] /\
    globals k !! "trace" = Some (VTrace t) /\
    globals k !! "y_pred" = Some (VSamples d) /\
    samples_of d "f" = Some rows /\
    omap band_plotted (log k)
    = [(map (map exp) rows, np.I2 (map (fun y => [y]) year))] /\
    omap trace_plotted (log k) = [(t, Some ["ρ"; "η"])].
Proof.
  intros Hok k. apply is_ok_Ok in Hok as [[] H]. fold k in H.
  change (run (disasters_cells w) startup)
    with (run_cells 11 (disasters_cells w) startup) in H.
  destruct (run_cells_at 10 1 _ _ _ H) as (k10 & H10).
  destruct (run_cells_at 9 1 _ _ _ H10) as (k9 & H9).
  destruct (run_cells_at 7 2 _ _ _ H9) as (k7 & H7).
  destruct (run_cells_at 6 1 _ _ _ H7) as (k6 & H6).
  destruct (run_cells_at 5 1 _ _ _ H6) as (k5 & H5).
  pose proof (disasters_stage_5 _ H5) as Ef.
  destruct (disasters_stage_6 _ _ _ H6) as (_ & Ey & _ & Em).
  unfold model_of in Em.
  destruct (globals k6 !! "disasters_model") as [[] |] eqn:Em6;
    try discriminate Em.
  injection Em as ->.
  destruct (range_kept _ 5 4 _ _ _ k5 k9 dkept_5_4 H5 H9) as [A5 _].
  rewrite <- (A5 "f" eq_refl) in Ef.
  destruct (range_kept _ 6 4 _ _ _ k6 k10 dkept_6_4 H6 H10) as [A6 _].
  rewrite <- (A6 "year" eq_refl) in Ey.
  (* cells 1 to 6 *)
  destruct (range_kept _ 0 6 _ _ _ (fresh startup) k6 dquiet_0_6 eq_refl H6)
    as [_ Q0].
  pose proof (Q0 _ sample_call no_sampler_sample) as S6.
  pose proof (Q0 _ ppc_call no_sampler_ppc) as P6. cbn in S6, P6.
  (* the fit *)
  pose proof (cell_at 6 _ _ _ _ H6 H7) as C6. open_cell C6.
  let fp := disasters_footprint_at w 6%nat in footprint_step fp C6 G6 F6.
  unfold disasters_sample in C6.
  destruct (sample_cell_spec _ _ _ _ _ _ _ _ _ _ _ Em6 C6) as (t & L7 & Et).
  rewrite <- (G6 "disasters_model" eq_refl) in Em6.
  assert (S7 : omap sample_call (log k7)
               = [(disasters_nodes, (1000, 1000, None, Some 2, None)%nat, t)])
    by (log_step sample_call L7 S6).
  assert (P7 : omap ppc_call (log k7) = []) by (log_step ppc_call L7 P6).
  (* its posterior is plotted *)
  destruct (run_cells_at 8 1 _ _ _ H9) as (k8 & H8).
  destruct (range_kept _ 0 7 _ _ _ (fresh startup) k7 dtplot_0_7 eq_refl H7)
    as [_ T0].
  specialize (T0 _ trace_plotted no_trace_plot_allowed). cbn in T0.
  pose proof (cell_at 7 _ _ _ _ H7 H8) as C7. open_cell C7.
  pose proof (disasters_plot_posterior_spec _ _ _ _ Et C7) as T8.
  rewrite T0 in T8. cbn [app] in T8.
  destruct (range_kept _ 8 3 _ _ _ k8 k dtplot_8_3 H8 H) as [_ T8'].
  rewrite <- (T8' _ trace_plotted no_trace_plot_allowed) in T8.
  destruct (range_kept _ 7 2 _ _ _ k7 k9 dquiet_7_2 H7 H9) as [A7 Q7].
  rewrite <- (Q7 _ sample_call no_sampler_sample) in S7.
  rewrite <- (Q7 _ ppc_call no_sampler_ppc) in P7.
  rewrite <- (A7 "trace" eq_refl) in Et.
  rewrite <- (A7 "disasters_model" eq_refl) in Em6.
  (* the posterior predictive samples *)
  pose proof (cell_at 9 _ _ _ _ H9 H10) as C9. open_cell C9.
  let fp := disasters_footprint_at w 9%nat in footprint_step fp C9 G9 F9.
  destruct (disasters_predict_spec _ _ _ _ Em6 Ef Et C9) as (d & L10 & Ed).
  rewrite <- (G9 "trace" eq_refl) in Et.
  assert (S10 : omap sample_call (log k10) = omap sample_call (log k9))
    by (rewrite L10, omap_app; cbn; by rewrite app_nil_r).
  rewrite S7 in S10.
  assert (P10 : omap ppc_call (log k10)
               = [(disasters_nodes, t, [pm.TVar "f"], 1000%nat, None, d)])
    by (log_step ppc_call L10 P7).
  (* the band *)
  destruct (range_kept _ 0 10 _ _ _ (fresh startup) k10 dband_0_10 eq_refl H10)
    as [_ B0].
  specialize (B0 _ band_plotted no_band_allowed). cbn in B0.
  pose proof (cell_at 10 _ _ _ _ H10 H) as C10. open_cell C10.
  destruct (disasters_plot_rate_spec _ _ _ _ Ed Ey C10) as (rows & Er & B).
  rewrite B0 in B. cbn [app] in B.
  destruct (range_kept _ 10 1 _ _ _ k10 k dquiet_10_1 H10 H) as [A10 Q10].
  rewrite <- (Q10 _ sample_call no_sampler_sample) in S10.
  rewrite <- (Q10 _ ppc_call no_sampler_ppc) in P10.
  rewrite <- (A10 "trace" eq_refl) in Et.
  rewrite <- (A10 "y_pred" eq_refl) in Ed.
  exists t, d, rows. repeat split; done.
Qed.

(** X17: in a complete run of the disasters notebook [pm.sample] is
    called once, with 1000 draws, 1000 tuning steps and 2 chains, on
    the model of five variables, and the posterior predictive sampler
    once, with the trace that call returned, for 1000 samples of [f]
    in the same model; the answers are bound to [trace] and
    [y_pred]. *)
Theorem disasters_sampler_calls :
  is_ok (run (disasters_cells w) startup) = true ->
  let k := kernel_of (run (disasters_cells w) startup) in
  exists t d,
    omap sample_call (log k)
    = [(disasters_nodes, (1000, 1000, None, Some 2, None)%nat, t)] /\
    omap ppc_call (log k)
    = [(disasters_nodes, t, [pm.TVar "f"], 1000%nat, None, d)] /\
    globals k !! "trace" = Some (VTrace t) /\
    globals k !! "y_pred" = Some (VSamples d).
Proof.
  intros Hok k. destruct (disasters_data_flow Hok) as (t & d & rows & H).
  fold k in H. exists t, d. tauto.
Qed.

(** X18: the last cell of the disasters notebook draws one band: the
    exponential, entry by entry, of the samples of [f] that the
    posterior predictive sampler returned, over the years as a
    column. *)
Theorem disasters_rate_band :
  is_ok (run (disasters_cells w) startup) = true ->
  let k := kernel_of (run (disasters_cells w) startup) in
  exists d rows,
    omap ppc_answer (log k) = [(1000%nat, d)] /\
    samples_of d "f" = Some rows /\
    omap band_plotted (log k)
    = [(map (map exp) rows, np.I2 (map (fun y => [y]) year))].
Proof.
  intros Hok k. destruct (disasters_data_flow Hok) as (t & d & rows & H).
  fold k in H. destruct H as (_ & HP & _ & _ & Hr & HB & _).
  exists d, rows. repeat split; try done.
  rewrite ppc_answers_of_calls, HP. reflexivity.
Qed.


End Disasters_flow.

Lemma disasters_sampler_calls_witness :
  is_ok (run (disasters_cells (world_with (two_streams 2))) []) = true /\
  length (omap ppc_call
            (log (kernel_of (run (disasters_cells (world_with (two_streams 2))) []))))
  = 1%nat.
Proof.
  assert (H : is_ok (run (disasters_cells (world_with (two_streams 2))) []) = true)
    by (vm_compute; reflexivity).
  split; [exact H |].
  destruct (disasters_sampler_calls (world_with (two_streams 2)) [] H)
    as (t & d & _ & -> & _).
  reflexivity.
Defined.

Lemma disasters_rate_band_witness :
  is_ok (run (disasters_cells (world_with (two_streams 2))) []) = true /\
  length (omap band_plotted
            (log (kernel_of (run (disasters_cells (world_with (two_streams 2))) []))))
  = 1%nat.
Proof.
  assert (H : is_ok (run (disasters_cells (world_with (two_streams 2))) []) = true)
    by (vm_compute; reflexivity).
  split; [exact H |].
  destruct (disasters_rate_band (world_with (two_streams 2)) [] H)
    as (d & rows & _ & _ & ->).
  reflexivity.
Defined.


(** ** The previews of the priors *)

Lemma no_preview_draw ev :
  ev_allowed no_preview ev = true -> prior_draw ev = None.
Proof. destruct ev as [T c a]. by destruct c. Qed.

Lemma no_preview_hist ev :
  ev_allowed no_preview ev = true -> hist_plotted ev = None.
Proof. destruct ev as [T c a]. by destruct c. Qed.

Section Previews.
Variable w : World.
Variable startup : list wfilter.

Lemma normal_preview_spec k k' :
  exec (salmon_normal_prior w) k = Ok tt k' ->
  exists draws,
    omap prior_draw (log k')
    = omap prior_draw (log k) ++
      [(pm.Normal (pm.TConst 0) (pm.TConst 50), 1000%nat, draws)] /\
    omap hist_plotted (log k') = omap hist_plotted (log k) ++ [draws].
Proof.
  intros H. unfold salmon_normal_prior in H. py_run H. py_done H.
  eexists. cbn [log]. rewrite !omap_app. cbn. by rewrite !app_nil_r.
Qed.

Lemma half_normal_preview_spec k k' :
  exec (salmon_half_normal_prior w) k = Ok tt k' ->
  exists draws,
    omap prior_draw (log k')
    = omap prior_draw (log k) ++
      [(pm.HalfNormal (pm.TConst 50), 1000%nat, draws)] /\
    omap hist_plotted (log k') = omap hist_plotted (log k) ++ [draws].
Proof.
  intros H. unfold salmon_half_normal_prior in H. py_run H. py_done H.
  eexists. cbn [log]. rewrite !omap_app. cbn. by rewrite !app_nil_r.
Qed.

Lemma preview_0_2 top :
  Forall (frame top everything no_preview)
    (concat (take 2 (drop 0 (salmon_cells w)))).
Proof. cell_frames. Qed.

Lemma preview_4_2 top :
  Forall (frame top everything no_preview)
    (concat (take 2 (drop 4 (salmon_cells w)))).
Proof. cell_frames. Qed.

(** X20: the two cells that preview the priors draw 1000 values from
    Normal(0, 50) and from HalfNormal(50) and give [plt.hist] exactly
    what was drawn; these are the priors of [β] and [σ] in the
    linear model. *)
Theorem priors_previewed :
  is_ok (run_cells 6 (salmon_cells w) startup) = true ->
  let k := kernel_of (run_cells 6 (salmon_cells w) startup) in
  exists draws1 draws2 likelihood,
    omap prior_draw (log k)
    = [ (pm.Normal (pm.TConst 0) (pm.TConst 50), 1000%nat, draws1);
        (pm.HalfNormal (pm.TConst 50), 1000%nat, draws2) ] /\
    omap hist_plotted (log k) = [draws1; draws2] /\
    model_of k "linear_salmon_model"
    = Some [ pm.FreeRV "β" (pm.Normal (pm.TConst 0) (pm.TConst 50)) (Some 2%nat);
             pm.FreeRV "σ" (pm.HalfNormal (pm.TConst 50)) None;
             likelihood ].
Proof.
  intros Hok k. apply is_ok_Ok in Hok as [[] H]. fold k in H.
  destruct (run_cells_at 4 2 _ _ _ H) as (k4 & H4).
  destruct (run_cells_at 3 1 _ _ _ H4) as (k3 & H3).
  destruct (run_cells_at 2 1 _ _ _ H3) as (k2 & H2).
  destruct (range_kept _ 0 2 _ _ _ (fresh startup) k2 preview_0_2 eq_refl H2)
    as [_ Q0].
  pose proof (Q0 _ prior_draw no_preview_draw) as D2.
  pose proof (Q0 _ hist_plotted no_preview_hist) as P2. cbn in D2, P2.
  pose proof (cell_at 2 _ _ _ _ H2 H3) as C2. open_cell C2.
  destruct (normal_preview_spec _ _ C2) as (draws1 & D3 & P3).
  rewrite D2 in D3. rewrite P2 in P3. cbn [app] in D3, P3.
  pose proof (cell_at 3 _ _ _ _ H3 H4) as C3. open_cell C3.
  destruct (half_normal_preview_spec _ _ C3) as (draws2 & D4 & P4).
  rewrite D3 in D4. rewrite P3 in P4. cbn [app] in D4, P4.
  destruct (range_kept _ 4 2 _ _ _ k4 k preview_4_2 H4 H) as [_ Q4].
  rewrite <- (Q4 _ prior_draw no_preview_draw) in D4.
  rewrite <- (Q4 _ hist_plotted no_preview_hist) in P4.
  destruct (salmon_stage_6 _ _ _ H) as (df & x & y & _ & _ & _ & El).
  exists draws1, draws2,
    (pm.ObservedRV "recruits" (pm.Normal (linear_mu x) (pm.TVar "σ")) y).
  repeat split; try done. unfold model_of. by rewrite El.
Qed.

End Previews.

Lemma priors_previewed_witness :
  is_ok (run_cells 6 (salmon_cells (world_with (two_streams 2))) []) = true /\
  length (omap hist_plotted
            (log (kernel_of
                    (run_cells 6 (salmon_cells (world_with (two_streams 2))) []))))
  = 2%nat.
Proof.
  assert (H : is_ok (run_cells 6 (salmon_cells (world_with (two_streams 2))) [])
              = true) by (vm_compute; reflexivity).
  split; [exact H |].
  destruct (priors_previewed (world_with (two_streams 2)) [] H)
    as (draws1 & draws2 & l & _ & -> & _).
  reflexivity.
Defined.

(** ** The scatter plots *)

Lemma no_scatter_allowed ev :
  ev_allowed no_scatter ev = true -> scatter_plotted ev = None.
Proof. destruct ev as [T c a]. by destruct c. Qed.

Section Scatter_plots.
Variable w : World.
Variable startup : list wfilter.

Lemma load_scatter k k' :
  exec (salmon_load w) k = Ok tt k' ->
  exists df,
    globals k' !! "salmon_data" = Some (VFrame df) /\
    omap scatter_plotted (log k')
    = omap scatter_plotted (log k) ++ [(df, "spawners", "recruits", None, 50%Z)].
Proof.
  intros H. unfold salmon_load in H. py_run H. py_done H.
  eexists. cbn [globals log]. split; [by rewrite lookup_insert_eq |].
  rewrite !omap_app. cbn. by rewrite !app_nil_r.
Qed.

Lemma linear_lines_scatter k k' df :
  globals k !! "salmon_data" = Some (VFrame df) ->
  exec (linear_salmon_lines w) k = Ok tt k' ->
  omap scatter_plotted (log k')
  = omap scatter_plotted (log k) ++
    [(df, "spawners", "recruits", Some "k", 50%Z)].
Proof.
  intros Ed H. unfold linear_salmon_lines in H.
  apply (exec_app_Ok [_; _; _] [_]) in H as (k1 & H1 & H2).
  py_run H1. py_done H1.
  eapply (exec_quiet scatter_plotted everything no_scatter [_]) in H2 as [Q _];
    [| intros ?; split_Forall; frame_auto | exact no_scatter_allowed].
  rewrite Q. cbn [log]. rewrite !omap_app. cbn. by rewrite !app_nil_r.
Qed.

Lemma quad_lines_scatter k k' df :
  globals k !! "salmon_data" = Some (VFrame df) ->
  exec (quad_salmon_lines w) k = Ok tt k' ->
  omap scatter_plotted (log k')
  = omap scatter_plotted (log k) ++
    [(df, "spawners", "recruits", Some "k", 50%Z)].
Proof.
  intros Ed H. unfold quad_salmon_lines in H.
  apply (exec_app_Ok [_; _] [_]) in H as (k1 & H1 & H2).
  py_run H1. py_done H1.
  eapply (exec_quiet scatter_plotted everything no_scatter [_]) in H2 as [Q _];
    [| intros ?; split_Forall; frame_auto | exact no_scatter_allowed].
  rewrite Q. cbn [log]. rewrite !omap_app. cbn. by rewrite !app_nil_r.
Qed.

Lemma gp_lines_scatter k k' df :
  globals k !! "salmon_data" = Some (VFrame df) ->
  exec (gp_salmon_plot_3 w) k = Ok tt k' ->
  omap scatter_plotted (log k')
  = omap scatter_plotted (log k) ++
    [(df, "spawners", "recruits", Some "k", 50%Z)].
Proof.
  intros Ed H. unfold gp_salmon_plot_3 in H.
  apply (exec_app_Ok [_; _] [_]) in H as (k1 & H1 & H2).
  py_run H1. py_done H1.
  eapply (exec_quiet scatter_plotted everything no_scatter [_]) in H2 as [Q _];
    [| intros ?; split_Forall; frame_auto | exact no_scatter_allowed].
  rewrite Q. cbn [log]. rewrite !omap_app. cbn. by rewrite !app_nil_r.
Qed.

Lemma plot_dist_scatter var_name k k' df :
  globals k !! "salmon_data" = Some (VFrame df) ->
  exec (gp_salmon_plot_dist w var_name) k = Ok tt k' ->
  omap scatter_plotted (log k')
  = omap scatter_plotted (log k) ++
    [(df, "spawners", "recruits", Some "k", 50%Z)].
Proof.
  intros Ed H. unfold gp_salmon_plot_dist in H. py_run H. py_done H.
  cbn [log]. rewrite !omap_app. cbn. by rewrite !app_nil_r.
Qed.

Lemma scatter_0_1 top :
  Forall (frame top everything no_scatter)
    (concat (take 1 (drop 0 (salmon_cells w)))).
Proof. cell_frames. Qed.

Lemma scatter_2_6 top :
  Forall (frame top (protect ["salmon_data"]) no_scatter)
    (concat (take 6 (drop 2 (salmon_cells w)))).
Proof. cell_frames. Qed.

Lemma scatter_9_2 top :
  Forall (frame top (protect ["salmon_data"]) no_scatter)
    (concat (take 2 (drop 9 (salmon_cells w)))).
Proof. cell_frames. Qed.

Lemma scatter_12_4 top :
  Forall (frame top (protect ["salmon_data"]) no_scatter)
    (concat (take 4 (drop 12 (salmon_cells w)))).
Proof. cell_frames. Qed.

Lemma scatter_17_1 top :
  Forall (frame top (protect ["salmon_data"]) no_scatter)
    (concat (take 1 (drop 17 (salmon_cells w)))).
Proof. cell_frames. Qed.

Lemma scatter_19_1 top :
  Forall (frame top (protect ["salmon_data"]) no_scatter)
    (concat (take 1 (drop 19 (salmon_cells w)))).
Proof. cell_frames. Qed.

Lemma scatter_21_1 top :
  Forall (frame top (protect ["salmon_data"]) no_scatter)
    (concat (take 1 (drop 21 (salmon_cells w)))).
Proof. cell_frames. Qed.

(** X21: the salmon notebook makes six scatter plots, each of the
    table that was read, [spawners] against [recruits] with marker
    size 50: the first in the default colour, the others in black. *)
Theorem scatter_plots_show_the_table :
  is_ok (run (salmon_cells w) startup) = true ->
  let k := kernel_of (run (salmon_cells w) startup) in
  exists df,
    frames_read (log k) = [df] /\
    omap scatter_plotted (log k)
    = (df, "spawners", "recruits", None, 50%Z) ::
      replicate 5 (df, "spawners", "recruits", Some "k", 50%Z).
Proof.
  intros Hok k. apply is_ok_Ok in Hok as [[] H]. fold k in H.
  change (run (salmon_cells w) startup)
    with (run_cells 22 (salmon_cells w) startup) in H.
  destruct (run_cells_at 21 1 _ _ _ H) as (k21 & H21).
  destruct (run_cells_at 20 1 _ _ _ H21) as (k20 & H20).
  destruct (run_cells_at 19 1 _ _ _ H20) as (k19 & H19).
  destruct (run_cells_at 18 1 _ _ _ H19) as (k18 & H18).
  destruct (run_cells_at 17 1 _ _ _ H18) as (k17 & H17).
  destruct (run_cells_at 16 1 _ _ _ H17) as (k16 & H16).
  destruct (run_cells_at 12 4 _ _ _ H16) as (k12 & H12).
  destruct (run_cells_at 11 1 _ _ _ H12) as (k11 & H11).
  destruct (run_cells_at 9 2 _ _ _ H11) as (k9 & H9).
  destruct (run_cells_at 8 1 _ _ _ H9) as (k8 & H8).
  destruct (run_cells_at 2 6 _ _ _ H8) as (k2 & H2).
  destruct (run_cells_at 1 1 _ _ _ H2) as (k1 & H1).
  destruct (salmon_stage_22 _ _ _ H) as (df' & x & y & [Hr _ _ Ed'] & _).
  (* the imports *)
  destruct (range_kept _ 0 1 _ _ _ (fresh startup) k1 scatter_0_1 eq_refl H1)
    as [_ Q0].
  specialize (Q0 _ scatter_plotted no_scatter_allowed). cbn in Q0.
  (* the table is read and plotted *)
  pose proof (cell_at 1 _ _ _ _ H1 H2) as C1. open_cell C1.
  destruct (load_scatter _ _ C1) as (df & Ed & S).
  rewrite Q0 in S. cbn [app] in S.
  destruct (range_kept _ 2 6 _ _ _ k2 k8 scatter_2_6 H2 H8) as [G2 Q2].
  rewrite <- (Q2 _ scatter_plotted no_scatter_allowed) in S.
  rewrite <- (G2 "salmon_data" eq_refl) in Ed.
  (* the lines of the linear fit *)
  pose proof (cell_at 8 _ _ _ _ H8 H9) as C8. open_cell C8.
  let fp := salmon_footprint_at w 8%nat in footprint_step fp C8 G8 F8.
  pose proof (linear_lines_scatter _ _ _ Ed C8) as S9.
  rewrite S in S9. cbn [app] in S9.
  rewrite <- (G8 "salmon_data" eq_refl) in Ed.
  destruct (range_kept _ 9 2 _ _ _ k9 k11 scatter_9_2 H9 H11) as [G9 Q9].
  rewrite <- (Q9 _ scatter_plotted no_scatter_allowed) in S9.
  rewrite <- (G9 "salmon_data" eq_refl) in Ed.
  (* the lines of the quadratic fit *)
  pose proof (cell_at 11 _ _ _ _ H11 H12) as C11. open_cell C11.
  let fp := salmon_footprint_at w 11%nat in footprint_step fp C11 G11 F11.
  pose proof (quad_lines_scatter _ _ _ Ed C11) as S12.
  rewrite S9 in S12. cbn [app] in S12.
  rewrite <- (G11 "salmon_data" eq_refl) in Ed.
  destruct (range_kept _ 12 4 _ _ _ k12 k16 scatter_12_4 H12 H16) as [G12 Q12].
  rewrite <- (Q12 _ scatter_plotted no_scatter_allowed) in S12.
  rewrite <- (G12 "salmon_data" eq_refl) in Ed.
  (* the lines of the samples *)
  pose proof (cell_at 16 _ _ _ _ H16 H17) as C16. open_cell C16.
  let fp := salmon_footprint_at w 16%nat in footprint_step fp C16 G16 F16.
  pose proof (gp_lines_scatter _ _ _ Ed C16) as S17.
  rewrite S12 in S17. cbn [app] in S17.
  rewrite <- (G16 "salmon_data" eq_refl) in Ed.
  destruct (range_kept _ 17 1 _ _ _ k17 k18 scatter_17_1 H17 H18) as [G17 Q17].
  rewrite <- (Q17 _ scatter_plotted no_scatter_allowed) in S17.
  rewrite <- (G17 "salmon_data" eq_refl) in Ed.
  (* the two bands *)
  pose proof (cell_at 18 _ _ _ _ H18 H19) as C18. open_cell C18.
  let fp := salmon_footprint_at w 18%nat in footprint_step fp C18 G18 F18.
  pose proof (plot_dist_scatter _ _ _ _ Ed C18) as S19.
  rewrite S17 in S19. cbn [app] in S19.
  rewrite <- (G18 "salmon_data" eq_refl) in Ed.
  destruct (range_kept _ 19 1 _ _ _ k19 k20 scatter_19_1 H19 H20) as [G19 Q19].
  rewrite <- (Q19 _ scatter_plotted no_scatter_allowed) in S19.
  rewrite <- (G19 "salmon_data" eq_refl) in Ed.
  pose proof (cell_at 20 _ _ _ _ H20 H21) as C20. open_cell C20.
  let fp := salmon_footprint_at w 20%nat in footprint_step fp C20 G20 F20.
  pose proof (plot_dist_scatter _ _ _ _ Ed C20) as S21.
  rewrite S19 in S21. cbn [app] in S21.
  rewrite <- (G20 "salmon_data" eq_refl) in Ed.
  destruct (range_kept _ 21 1 _ _ _ k21 k scatter_21_1 H21 H) as [G21 Q21].
  rewrite <- (Q21 _ scatter_plotted no_scatter_allowed) in S21.
  rewrite <- (G21 "salmon_data" eq_refl) in Ed.
  (* the table is the one that was read *)
  assert (df' = df) as -> by congruence.
  exists df. split; [done | exact S21].
Qed.

End Scatter_plots.

Lemma scatter_plots_witness :
  is_ok (run (salmon_cells (world_with (two_streams 2))) []) = true /\
  length (omap scatter_plotted
            (log (kernel_of (run (salmon_cells (world_with (two_streams 2))) []))))
  = 6%nat.
Proof.
  assert (H : is_ok (run (salmon_cells (world_with (two_streams 2))) []) = true)
    by (vm_compute; reflexivity).
  split; [exact H |].
  destruct (scatter_plots_show_the_table (world_with (two_streams 2)) [] H)
    as (df & _ & ->).
  reflexivity.
Defined.

